(** * The immunization data-cleansing notebook, embedded in Rocq

    Source: [notebooks/master_notebook.ipynb] (Python 2, pandas).  The notebook
    reads three survey extracts (school years 04-05, 09-10, 14-15), cleans each
    of them by hand, concatenates them into one master table and compares the
    share of protected pupils per year.

    The embedding follows the code cells of the notebook, statement by
    statement.  A pandas [DataFrame] is a list of column labels together with
    labelled rows of cells; a statement that can raise returns a [result].
    Cells that only display something ([head], [describe], [dtypes], [print],
    plots) have no effect and are left out, and so is the first [read_csv] of
    each file, which is read again with [skiprows=1].  The first coercion cell
    of the 04-05 extract, [int(x)] without [replace], is part of the flow: the
    notebook shows its error and goes on with the next cell.

    Modelling choices:
    - strings are Python 2 byte strings, [string];
    - Python integers are unbounded, [Z]; an integer cell of a frame is a
      value of an int64 column, and the sum of such a column is taken
      modulo 2^64;
    - floating-point values are IEEE binary64, [spec_float] at precision 53,
      with the operations of [SpecFloat]; the missing-value marker of pandas
      is the float NaN;
    - the dtype of a column is the one its cells show ([dtype_of]); a column
      without cells shows none, and the properties of [concat] are stated for
      frames that have rows;
    - reading and tokenizing the CSV files is outside the notebook's logic:
      a raw extract is the header and the typed cells that [read_csv] hands
      over. *)

From Stdlib Require Import ZArith String Ascii List Bool Lia.
From Stdlib Require Import SpecFloat Sorted Permutation FinFun.
Import ListNotations.

#[local] Open Scope string_scope.
#[local] Open Scope list_scope.
#[local] Open Scope Z_scope.

(** ** Python values, exceptions and strings *)

Module Py.

(** The exceptions the notebook's statements can raise.  [NotModelled] marks
    the inputs on which a pandas operation leaves the fragment embedded here
    (group keys that are not integers, sums over object columns). *)
Inductive exn : Type :=
| ValueError
| KeyError
| IndexError
| TypeError
| AttributeError
| OverflowError
| ZeroDivisionError
| InvalidIndexError
| NotModelled.

Inductive result (A : Type) : Type :=
| Ok (a : A)
| Raise (e : exn).

Arguments Ok {A} a.
Arguments Raise {A} e.

Definition bind {A B : Type} (m : result A) (k : A -> result B) : result B :=
  match m with
  | Ok a => k a
  | Raise e => Raise e
  end.

(** [mapM f l] evaluates [f] on the elements from left to right and stops at
    the first exception. *)
Fixpoint mapM {A B : Type} (f : A -> result B) (l : list A) : result (list B) :=
  match l with
  | [] => Ok []
  | x :: l' =>
      bind (f x) (fun y => bind (mapM f l') (fun ys => Ok (y :: ys)))
  end.

(** C [isspace] in the C locale, as CPython 2 uses it. *)
Definition is_space (c : ascii) : bool :=
  match c with
  | " "%char | "009"%char | "010"%char | "011"%char | "012"%char | "013"%char => true
  | _ => false
  end.

Definition is_digit (c : ascii) : bool :=
  let n := nat_of_ascii c in (48 <=? n)%nat && (n <=? 57)%nat.

Definition digit_val (c : ascii) : Z := Z.of_nat (nat_of_ascii c) - 48.

Fixpoint lstrip (s : string) : string :=
  match s with
  | String c s' => if is_space c then lstrip s' else s
  | EmptyString => EmptyString
  end.

Fixpoint all_space (s : string) : bool :=
  match s with
  | String c s' => is_space c && all_space s'
  | EmptyString => true
  end.

(** Reads the longest prefix of decimal digits, most significant first. *)
Fixpoint read_digits (acc : Z) (s : string) : Z * string :=
  match s with
  | String c s' =>
      if is_digit c then read_digits (10 * acc + digit_val c) s' else (acc, s)
  | EmptyString => (acc, EmptyString)
  end.

(** [int(s)] on a string, base 10: leading whitespace, an optional sign,
    whitespace again, at least one digit, trailing whitespace; anything else
    is a [ValueError]. *)
Definition int_of_str (s : string) : result Z :=
  let s1 := lstrip s in
  let '(neg, s2) :=
    match s1 with
    | String "-"%char r => (true, lstrip r)
    | String "+"%char r => (false, lstrip r)
    | _ => (false, s1)
    end in
  match s2 with
  | String c _ =>
      if is_digit c then
        let '(v, rest) := read_digits 0 s2 in
        if all_space rest then Ok (if neg then - v else v) else Raise ValueError
      else Raise ValueError
  | EmptyString => Raise ValueError
  end.

(** [s.replace(old, new)] for a one-character [old]. *)
Fixpoint replace (old : ascii) (new : string) (s : string) : string :=
  match s with
  | String c s' =>
      if Ascii.eqb c old then (new ++ replace old new s')%string
      else String c (replace old new s')
  | EmptyString => EmptyString
  end.

Fixpoint take (n : nat) (s : string) : string :=
  match n, s with
  | S n', String c s' => String c (take n' s')
  | _, _ => EmptyString
  end.

(** [s[:stop]]: a negative [stop] counts from the end and is clipped at 0, a
    [stop] beyond the end is clipped at the length. *)
Definition slice_to (stop : Z) (s : string) : string :=
  let n := Z.of_nat (String.length s) in
  let stop' := if stop <? 0 then Z.max (stop + n) 0 else Z.min stop n in
  take (Z.to_nat stop') s.

End Py.

Export Py.

Notation "x <- m ;; k" := (bind m (fun x => k))
  (at level 61, m at next level, right associativity).

(** ** The fragment of pandas the notebook uses *)

Module Pandas.

(** IEEE binary64. *)
Definition float64 : Type := spec_float.
Definition f64_of_Z (z : Z) : float64 := binary_normalize 53 1024 z 0 false.
Definition f64_add : float64 -> float64 -> float64 := SFadd 53 1024.
Definition f64_div : float64 -> float64 -> float64 := SFdiv 53 1024.

(** [int(x)] on a float: the integer part; NaN and the infinities have
    none. *)
Definition int_of_float (f : float64) : result Z :=
  match f with
  | S754_zero _ => Ok 0
  | S754_finite s m e =>
      let v := if 0 <=? e then Z.pos m * 2 ^ e else Z.pos m / 2 ^ (- e) in
      Ok (if s then - v else v)
  | S754_infinity _ => Raise OverflowError
  | S754_nan => Raise ValueError
  end.

(** The value an int64 holds after an addition has overflowed. *)
Definition int64_wrap (z : Z) : Z := (z + 2 ^ 63) mod 2 ^ 64 - 2 ^ 63.

(** A cell of a frame: a string of an object column, an integer, or a float. *)
Inductive cell : Type :=
| Str (s : string)
| Int (z : Z)
| Flt (f : float64).

(** The missing-value marker [np.nan]. *)
Definition NaN : cell := Flt S754_nan.

Definition isnull (c : cell) : bool :=
  match c with
  | Flt S754_nan => true
  | _ => false
  end.

(** A row carries its index label. *)
Definition row : Type := (Z * list cell)%type.

Record DataFrame : Type := mkDF { columns : list string; rows : list row }.

(** What [read_csv] hands over: the header line and the typed cells of the
    lines below it. *)
Record RawExtract : Type := mkRaw { header : list string; body : list (list cell) }.

(** [pd.read_csv]: the rows are labelled 0, 1, 2, ... in file order. *)
Definition read_csv (e : RawExtract) : DataFrame :=
  mkDF (header e) (combine (map Z.of_nat (seq 0 (length (body e)))) (body e)).

Fixpoint col_pos (name : string) (cols : list string) : option nat :=
  match cols with
  | [] => None
  | c :: cs => if String.eqb c name then Some O else option_map S (col_pos name cs)
  end.

(** A line with fewer fields than the header reads as missing values. *)
Definition get_cell (i : nat) (r : list cell) : cell := nth i r NaN.

Definition column (i : nat) (df : DataFrame) : list cell :=
  map (fun r : row => get_cell i (snd r)) (rows df).

Definition locate (names cols : list string) : result (list nat) :=
  mapM (fun n => match col_pos n cols with
                 | Some i => Ok i
                 | None => Raise KeyError
                 end) names.

Definition take_positions (ps : list nat) (r : row) : row :=
  (fst r, map (fun i => get_cell i (snd r)) ps).

(** The cell of a row under a column label; a label the row does not have
    gives a missing value. *)
Definition cell_at (cols : list string) (name : string) (r : list cell) : cell :=
  match col_pos name cols with
  | Some i => get_cell i r
  | None => NaN
  end.

(** Re-labelling the columns of a row. *)
Definition reindex_columns (new old : list string) (r : row) : row :=
  (fst r, map (fun n => cell_at old n (snd r)) new).

(** [df.ix[:, names]] *)
Definition ix_columns (names : list string) (df : DataFrame) : DataFrame :=
  mkDF names (map (reindex_columns names (columns df)) (rows df)).

(** [df[names]] *)
Definition getitem_columns (names : list string) (df : DataFrame) : result DataFrame :=
  ps <- locate names (columns df) ;;
  Ok (mkDF names (map (take_positions ps) (rows df))).

(** [df.ix[start:, positions]] on a frame whose rows are labelled by
    [read_csv] and whose columns are labelled by strings: the rows from label
    [start] on, the columns by position. *)
Definition ix_rows_from (start : Z) (ps : list nat) (df : DataFrame) : result DataFrame :=
  if forallb (fun i => (i <? length (columns df))%nat) ps then
    Ok (mkDF (map (fun i => nth i (columns df) "") ps)
             (map (take_positions ps)
                  (filter (fun r : row => start <=? fst r) (rows df))))
  else Raise IndexError.

Definition dropna_rows (df : DataFrame) : DataFrame :=
  mkDF (columns df) (filter (fun r : row => negb (existsb isnull (snd r))) (rows df)).

(** [df.dropna(inplace=...)]: the frame afterwards, and the value the call
    returns ([None] when the frame is changed in place). *)
Definition dropna (inplace : bool) (df : DataFrame) : DataFrame * option DataFrame :=
  if inplace then (dropna_rows df, None) else (df, Some (dropna_rows df)).

(** [df.columns = names] *)
Definition set_columns (names : list string) (df : DataFrame) : result DataFrame :=
  if (length names =? length (columns df))%nat then Ok (mkDF names (rows df))
  else Raise ValueError.

Fixpoint set_nth {A : Type} (i : nat) (v : A) (l : list A) : list A :=
  match i, l with
  | O, _ :: t => v :: t
  | S i', x :: t => x :: set_nth i' v t
  | _, [] => []
  end.

Definition set_column (i : nat) (vals : list cell) (rs : list row) : list row :=
  map (fun vr : cell * row => (fst (snd vr), set_nth i (fst vr) (snd (snd vr))))
      (combine vals rs).

(** [df[names] = df[names].applymap(f)]: [f] runs over the selected columns
    one after the other, each from the first row to the last; nothing is
    assigned when [f] raises. *)
Definition applymap_on (names : list string) (f : cell -> result cell)
    (df : DataFrame) : result DataFrame :=
  ps <- locate names (columns df) ;;
  vals <- mapM (fun i => mapM f (column i df)) ps ;;
  Ok (mkDF (columns df)
           (fold_left (fun rs iv => set_column (fst iv) (snd iv) rs)
                      (combine ps vals) (rows df))).

Fixpoint is_unique (l : list Z) : bool :=
  match l with
  | [] => true
  | x :: l' => negb (existsb (Z.eqb x) l') && is_unique l'
  end.

(** [df.drop(label, axis=0)]: the rows of that label go.  A label that no row
    has is an error on an index without repeated labels; on an index with
    repeated labels the rows are filtered without any check. *)
Definition drop_row (label : Z) (df : DataFrame) : result DataFrame :=
  if negb (is_unique (map fst (rows df)))
     || existsb (fun r : row => fst r =? label) (rows df) then
    Ok (mkDF (columns df) (filter (fun r : row => negb (fst r =? label)) (rows df)))
  else Raise ValueError.

(** [df[name] = vals]: replaces the column when it exists, appends it
    otherwise. *)
Definition setitem (name : string) (vals : list cell) (df : DataFrame) : DataFrame :=
  match col_pos name (columns df) with
  | Some i => mkDF (columns df) (set_column i vals (rows df))
  | None =>
      mkDF (columns df ++ [name])
           (map (fun vr : cell * row => (fst (snd vr), snd (snd vr) ++ [fst vr]))
                (combine vals (rows df)))
  end.

(** [df[name] = c] for a scalar [c] *)
Definition setitem_const (name : string) (c : cell) (df : DataFrame) : DataFrame :=
  setitem name (repeat c (length (rows df))) df.

Definition insert_at {A : Type} (loc : nat) (x : A) (l : list A) : list A :=
  firstn loc l ++ x :: skipn loc l.

(** [df.insert(loc, name, c)] *)
Definition insert (loc : nat) (name : string) (c : cell) (df : DataFrame) : result DataFrame :=
  if existsb (String.eqb name) (columns df) then Raise ValueError
  else if (length (columns df) <? loc)%nat then Raise IndexError
  else Ok (mkDF (insert_at loc name (columns df))
                (map (fun r : row => (fst r, insert_at loc c (snd r))) (rows df))).

(** [df[target] = df[source].apply(f)] *)
Definition setitem_apply (target source : string) (f : cell -> result cell)
    (df : DataFrame) : result DataFrame :=
  ps <- locate [source] (columns df) ;;
  vals <- mapM f (column (hd O ps) df) ;;
  Ok (setitem target vals df).

Fixpoint remove_nth {A : Type} (i : nat) (l : list A) : list A :=
  match i, l with
  | O, _ :: t => t
  | S i', x :: t => x :: remove_nth i' t
  | _, [] => []
  end.

Fixpoint nodupb (l : list string) : bool :=
  match l with
  | [] => true
  | x :: l' => negb (existsb (String.eqb x) l') && nodupb l'
  end.

(** The cells at the positions where the mask holds. *)
Fixpoint keep_where {A : Type} (mask : list bool) (l : list A) : list A :=
  match mask, l with
  | m :: mask', x :: l' => if m then x :: keep_where mask' l' else keep_where mask' l'
  | _, _ => []
  end.

(** [df.drop(name, axis=1)]: as for the rows, a name that no column has is an
    error when the column names are distinct; when a name is repeated, every
    column of the dropped name goes and nothing is checked. *)
Definition drop_column (name : string) (df : DataFrame) : result DataFrame :=
  if nodupb (columns df) then
    match col_pos name (columns df) with
    | Some i => Ok (mkDF (remove_nth i (columns df))
                         (map (fun r : row => (fst r, remove_nth i (snd r))) (rows df)))
    | None => Raise ValueError
    end
  else
    let mask := map (fun c => negb (String.eqb c name)) (columns df) in
    Ok (mkDF (keep_where mask (columns df))
             (map (fun r : row => (fst r, keep_where mask (snd r))) (rows df))).

Fixpoint list_eqb (l1 l2 : list string) : bool :=
  match l1, l2 with
  | [], [] => true
  | x :: l1', y :: l2' => String.eqb x y && list_eqb l1' l2'
  | _, _ => false
  end.

Fixpoint insert_sorted (x : string) (l : list string) : list string :=
  match l with
  | [] => [x]
  | y :: l' => if String.leb x y then x :: l else y :: insert_sorted x l'
  end.

Definition sort_labels (l : list string) : list string :=
  fold_right insert_sorted [] l.

(** Column types, as pandas infers them from the cells. *)
Inductive dtype : Type := int64 | float64_t | object.

Definition is_int (c : cell) : bool :=
  match c with Int _ => true | _ => false end.

Definition is_num (c : cell) : bool :=
  match c with Int _ | Flt _ => true | Str _ => false end.

Definition dtype_of (cs : list cell) : dtype :=
  if forallb is_int cs then int64
  else if forallb is_num cs then float64_t
  else object.

Definition to_f64 (c : cell) : option float64 :=
  match c with
  | Int z => Some (f64_of_Z z)
  | Flt f => Some f
  | Str _ => None
  end.

(** A cell as a column of type [d] stores it: a float column holds an
    integer as the nearest binary64. *)
Definition astype (d : dtype) (c : cell) : cell :=
  match d, c with
  | float64_t, Int z => Flt (f64_of_Z z)
  | _, _ => c
  end.

Fixpoint astypes (ds : list dtype) (cells : list cell) : list cell :=
  match ds, cells with
  | d :: ds', c :: cells' => astype d c :: astypes ds' cells'
  | _, _ => cells
  end.

Definition cast_row (ds : list dtype) (r : row) : row := (fst r, astypes ds (snd r)).

(** The types of the first [n] columns of the rows. *)
Definition dtypes (n : nat) (rs : list row) : list dtype :=
  map (fun i => dtype_of (map (fun r : row => get_cell i (snd r)) rs)) (seq 0 n).

(** Rows put under one another: each of the [n] columns takes the type that
    holds all its cells, and every row is stored in these types. *)
Definition unify (n : nat) (rs : list row) : list row :=
  map (cast_row (dtypes n rs)) rs.

(** [pd.concat([a, b])]: the rows of [a], then the rows of [b], with their
    labels.  Equal column lists are kept; otherwise the result has the sorted
    union of the columns and every row is re-labelled to it, which pandas
    refuses when a frame repeats a column label.  A column of the result has
    one type: integers under floats or missing values become floats. *)
Definition concat (a b : DataFrame) : result DataFrame :=
  if list_eqb (columns a) (columns b) then
    Ok (mkDF (columns a) (unify (length (columns a)) (rows a ++ rows b)))
  else if nodupb (columns a) && nodupb (columns b) then
    let cols := sort_labels (nodup string_dec (columns a ++ columns b)) in
    Ok (mkDF cols
          (unify (length cols)
             (map (reindex_columns cols (columns a)) (rows a)
              ++ map (reindex_columns cols (columns b)) (rows b))))
  else Raise InvalidIndexError.

(** One step of a column sum: int64 values add modulo 2^64, floats add in
    binary64 and skip missing values. *)
Definition sum_step (d : dtype) (acc c : cell) : cell :=
  match d with
  | int64 =>
      match acc, c with
      | Int a, Int b => Int (int64_wrap (a + b))
      | _, _ => acc
      end
  | _ =>
      match to_f64 acc, to_f64 c with
      | Some a, Some b => if isnull c then acc else Flt (f64_add a b)
      | _, _ => acc
      end
  end.

Definition sum_zero (d : dtype) : cell :=
  match d with
  | int64 => Int 0
  | _ => Flt (S754_zero false)
  end.

Fixpoint zip3 {A B C D : Type} (f : A -> B -> C -> D)
    (la : list A) (lb : list B) (lc : list C) : list D :=
  match la, lb, lc with
  | a :: la', b :: lb', c :: lc' => f a b c :: zip3 f la' lb' lc'
  | _, _, _ => []
  end.

(** Adds the values of one row to the running sums of its group; the groups
    are kept in ascending key order. *)
Fixpoint add_to_group (ds : list dtype) (k : Z) (vals : list cell)
    (groups : list row) : list row :=
  match groups with
  | [] => [(k, zip3 sum_step ds (map sum_zero ds) vals)]
  | (k', sums) :: gs =>
      if k <? k' then (k, zip3 sum_step ds (map sum_zero ds) vals) :: groups
      else if k =? k' then (k', zip3 sum_step ds sums vals) :: gs
      else (k', sums) :: add_to_group ds k vals gs
  end.

Definition group_key (c : cell) : result Z :=
  match c with
  | Int k => Ok k
  | _ => Raise NotModelled
  end.

(** [df.groupby(key).aggregate({c: 'sum' for c in names})]: one pass over the
    rows, the result is indexed by the keys in ascending order. *)
Definition groupby_sum (key : string) (names : list string) (df : DataFrame)
    : result DataFrame :=
  kp <- locate [key] (columns df) ;;
  ps <- locate names (columns df) ;;
  keys <- mapM group_key (column (hd O kp) df) ;;
  let ds := map (fun i => dtype_of (column i df)) ps in
  if existsb (fun d => match d with object => true | _ => false end) ds then
    Raise NotModelled
  else
    Ok (mkDF names
          (fold_left (fun groups kr =>
                        add_to_group ds (fst kr)
                          (map (fun i => get_cell i (snd (snd kr))) ps) groups)
                     (combine keys (rows df)) [])).

(** Element-wise [/] of two columns: true division in binary64. *)
Definition true_divide (a b : cell) : result cell :=
  match to_f64 a, to_f64 b with
  | Some x, Some y => Ok (Flt (f64_div x y))
  | _, _ => Raise NotModelled
  end.

(** [df[target] = df[num] / df[den]] *)
Definition setitem_div (target num den : string) (df : DataFrame) : result DataFrame :=
  ps <- locate [num; den] (columns df) ;;
  vals <- mapM (fun r : row =>
                  true_divide (get_cell (nth 0 ps O) (snd r))
                              (get_cell (nth 1 ps O) (snd r))) (rows df) ;;
  Ok (setitem target vals df).

(** The row with a given label, when there is one. *)
Fixpoint loc (label : Z) (rs : list row) : option (list cell) :=
  match rs with
  | [] => None
  | (l, r) :: rs' => if l =? label then Some r else loc label rs'
  end.

End Pandas.

Export Pandas.

(** ** The notebook *)

Module Notebook.

(** [lambda x: int(x.replace(',', ''))]; a cell that is not a string has no
    [replace] method. *)
Definition to_int (x : cell) : result cell :=
  match x with
  | Str s => z <- int_of_str (replace "," "" s) ;; Ok (Int z)
  | _ => Raise AttributeError
  end.

(** [lambda x: int(x)], the first attempt of the notebook. *)
Definition plain_int (x : cell) : result cell :=
  match x with
  | Str s => z <- int_of_str s ;; Ok (Int z)
  | Int z => Ok (Int z)
  | Flt f => z <- int_of_float f ;; Ok (Int z)
  end.

(** A cell whose error the notebook shows before it goes on with the next
    cell: when the statement raises, nothing has been assigned. *)
Definition attempt (stmt : DataFrame -> result DataFrame) (df : DataFrame) : DataFrame :=
  match stmt df with
  | Ok df' => df'
  | Raise _ => df
  end.

(** [lambda x: x[:-4]]; a number cannot be sliced. *)
Definition trim_suffix (x : cell) : result cell :=
  match x with
  | Str s => Ok (Str (slice_to (-4) s))
  | _ => Raise TypeError
  end.

(** *** Years 04-05 *)

Definition columns_to_keep04 : list string :=
  ["RCDT"; "School"; "Total Sch. Enroll."; "Polio Prot."].

Definition cols04 : list string := ["Total Sch. Enroll."; "Polio Prot."].

Definition columns_we_want : list string :=
  ["rcdt"; "enrollment"; "protected"; "year"].

(** The cells under "Years 04-05": select the columns and drop the rows with
    a missing value, ... *)
Definition select04 (e : RawExtract) : DataFrame :=
  let df04 := read_csv e in
  let df04 := ix_columns columns_to_keep04 df04 in
  fst (dropna true df04).

(** ... then coerce the two counts: first with [int] alone, which the commas
    of the file make fail, then with the commas removed. *)
Definition clean04 (e : RawExtract) : result DataFrame :=
  let df04 := select04 e in
  let df04 := attempt (applymap_on cols04 plain_int) df04 in
  applymap_on cols04 to_int df04.

(** The cell that prepares [df04] for the master table: drop the school, add
    the year, rename. *)
Definition finish04 (df04 : DataFrame) : result DataFrame :=
  df04 <- drop_column "School" df04 ;;
  let df04 := setitem_const "year" (Int 2004) df04 in
  set_columns columns_we_want df04.

Definition normalize04 (e : RawExtract) : result DataFrame :=
  df04 <- clean04 e ;; finish04 df04.

(** *** Years 09-10 *)

Definition columns_to_keep09 : list string := ["RCDTS"; "Enrollment"; "PolioProt"].

(** [columns] in the notebook. *)
Definition master_columns : list string :=
  ["rcdts"; "enrollment"; "protected"; "year"].

(** The counts of this extract are kept as [read_csv] typed them. *)
Definition clean09 (e : RawExtract) : result DataFrame :=
  let df09 := read_csv e in
  df09 <- getitem_columns columns_to_keep09 df09 ;;
  Ok (fst (dropna true df09)).

Definition finish09 (df09 : DataFrame) : result DataFrame :=
  let df09 := setitem_const "Year" (Int 2009) df09 in
  set_columns master_columns df09.

Definition normalize09 (e : RawExtract) : result DataFrame :=
  df09 <- clean09 e ;; finish09 df09.

(** *** Years 14-15 *)

Definition new_column_names : list string := ["RCDTS"; "Enrolled"; "Protected"].

Definition cols14 : list string := ["Enrolled"; "Protected"].

(** The label of the row the notebook found to be corrupt. *)
Definition sentinel : Z := 4876.

(** Rows from 2 on, columns 0, 3 and 8, no missing values, new names, ... *)
Definition select14 (e : RawExtract) : result DataFrame :=
  let df14 := read_csv e in
  df14 <- ix_rows_from 2 [0%nat; 3%nat; 8%nat] df14 ;;
  let df14 := fst (dropna true df14) in
  set_columns new_column_names df14.

(** ... then the coercion of the two counts and the removal of the corrupt
    row. *)
Definition clean14 (e : RawExtract) : result DataFrame :=
  df14 <- select14 e ;;
  df14 <- applymap_on cols14 to_int df14 ;;
  drop_row sentinel df14.

Definition finish14 (df14 : DataFrame) : result DataFrame :=
  let df14 := setitem_const "Year" (Int 2014) df14 in
  set_columns master_columns df14.

Definition normalize14 (e : RawExtract) : result DataFrame :=
  df14 <- clean14 e ;; finish14 df14.

(** *** Data concatenation *)

(** From [pd.concat([df14, df09])] to [pd.concat([df, df04])]. *)
Definition master (df14 df09 df04 : DataFrame) : result DataFrame :=
  df <- concat df14 df09 ;;
  df <- insert 1 "rcdt" (Int 0) df ;;
  df <- setitem_apply "rcdt" "rcdts" trim_suffix df ;;
  df <- drop_column "rcdts" df ;;
  concat df df04.

(** The statements of the notebook up to the master table, grouped by the
    frame they act on. *)
Definition notebook (e04 e09 e14 : RawExtract) : result DataFrame :=
  df04 <- normalize04 e04 ;;
  df09 <- normalize09 e09 ;;
  df14 <- normalize14 e14 ;;
  master df14 df09 df04.

(** *** Data analysis *)

(** [df_year] with its [prot_perc] column. *)
Definition aggregate_by_year (df : DataFrame) : result DataFrame :=
  df_year <- groupby_sum "year" ["enrollment"; "protected"] df ;;
  setitem_div "prot_perc" "protected" "enrollment" df_year.

End Notebook.

Export Notebook.

(** ** The table of the specification *)

(** A row of the normalized table: identifier, enrolled, protected, year. *)
Record NormalizedRow : Type := mkRow {
  id : string;
  enrolled : Z;
  protected : Z;
  year : Z
}.

Definition cells_of (r : NormalizedRow) : list cell :=
  [Str (id r); Int (enrolled r); Int (protected r); Int (year r)].

(** The rows of a normalized table, labelled from [k] on. *)
Definition rows_from (k : nat) (t : list NormalizedRow) : list row :=
  combine (map Z.of_nat (seq k (length t))) (map cells_of t).

(** The master frame that holds a normalized table. *)
Definition frame_of (t : list NormalizedRow) : DataFrame :=
  mkDF columns_we_want (rows_from 0 t).

Definition in_year (y : Z) (t : list NormalizedRow) : list NormalizedRow :=
  filter (fun r => year r =? y) t.

Definition total (f : NormalizedRow -> Z) (t : list NormalizedRow) : Z :=
  fold_right Z.add 0 (map f t).

(** ** Reading a grouped decimal numeral, after the specification *)


(** The digits of the numeral, most significant first, separators removed. *)
Fixpoint digits_of (s : string) : list Z :=
  match s with
  | String c s' => if is_digit c then digit_val c :: digits_of s' else digits_of s'
  | EmptyString => []
  end.

(** The base-10 value of a list of digits. *)
Fixpoint decimal_value (ds : list Z) : Z :=
  match ds with
  | [] => 0
  | d :: ds' => d * 10 ^ Z.of_nat (length ds') + decimal_value ds'
  end.

Fixpoint all_digits (s : string) : bool :=
  match s with
  | String c s' => is_digit c && all_digits s'
  | EmptyString => true
  end.

(** ** Group sums over a normalized table *)

(** The running sums of [groupby_sum] when both summed columns hold integers:
    a year with its two totals. *)
Definition year_sums : Type := (Z * (Z * Z))%type.

Fixpoint add_sums (k e p : Z) (g : list year_sums) : list year_sums :=
  match g with
  | [] => [(k, (0 + e, 0 + p))]
  | (k', (se, sp)) :: g' =>
      if k <? k' then (k, (0 + e, 0 + p)) :: g
      else if k =? k' then (k', (se + e, sp + p)) :: g'
      else (k', (se, sp)) :: add_sums k e p g'
  end.

Definition sums_of (t : list NormalizedRow) : list year_sums :=
  fold_left (fun g r => add_sums (year r) (enrolled r) (protected r) g) t [].

(** The quotient of two integers in IEEE binary64 arithmetic: both are
    rounded to the nearest binary64 and divided with rounding to nearest. *)
Definition ratio (p e : Z) : spec_float :=
  SFdiv 53 1024 (binary_normalize 53 1024 p 0 false)
                (binary_normalize 53 1024 e 0 false).

(** The int64 that a sum of integers leaves: the sum itself when it fits,
    and otherwise the number of the int64 range that differs from it by a
    multiple of 2^64. *)
Definition int64_sum (z : Z) : Z :=
  let m := z mod 2 ^ 64 in if m <? 2 ^ 63 then m else m - 2 ^ 64.



Definition sums_row (s : year_sums) : row :=
  (fst s, [Int (int64_sum (fst (snd s))); Int (int64_sum (snd (snd s)))]).

Definition year_row (s : year_sums) : row :=
  (fst s, [Int (int64_sum (fst (snd s))); Int (int64_sum (snd (snd s)));
           Flt (ratio (int64_sum (snd (snd s))) (int64_sum (fst (snd s))))]).

Fixpoint lookup_sums (y : Z) (g : list year_sums) : option (Z * Z) :=
  match g with
  | [] => None
  | (k, s) :: g' => if k =? y then Some s else lookup_sums y g'
  end.

Definition has_year (y : Z) (t : list NormalizedRow) : bool :=
  existsb (fun r => year r =? y) t.


Definition sorted_years (g : list year_sums) : Prop :=
  StronglySorted Z.lt (map fst g).

(** ** Vocabulary of the properties *)

Definition labels (df : DataFrame) : list Z := map fst (rows df).

(** The rows of a frame that have a missing value. *)
Definition blank_rows (df : DataFrame) : list row :=
  filter (fun r : row => existsb isnull (snd r)) (rows df).

(** The value of a cell after a successful coercion. *)
Definition to_int_val (c : cell) : cell :=
  match to_int c with
  | Ok v => v
  | Raise _ => c
  end.

(** The value of a cell after a successful first attempt. *)
Definition plain_int_val (c : cell) : cell :=
  match plain_int c with
  | Ok v => v
  | Raise _ => c
  end.

(** A count that is a string the coercion refuses. *)
Definition unparsable (c : cell) : Prop :=
  exists s, c = Str s /\ int_of_str (replace "," "" s) = Raise ValueError.

Definition is_str (c : cell) : bool :=
  match c with Str _ => true | _ => false end.

(** The normalized row of a selected row of the 04-05 extract (identifier,
    school, enrolled, protected) and of the 14-15 extract (identifier,
    enrolled, protected), once the counts are coerced. *)
Definition out04 (r : row) : row :=
  (fst r, [get_cell 0 (snd r); to_int_val (get_cell 2 (snd r));
           to_int_val (get_cell 3 (snd r)); Int 2004]).

Definition out14 (r : row) : row :=
  (fst r, [get_cell 0 (snd r); to_int_val (get_cell 1 (snd r));
           to_int_val (get_cell 2 (snd r)); Int 2014]).

Definition width (n : nat) (df : DataFrame) : Prop :=
  Forall (fun r : row => length (snd r) = n) (rows df).

(** The frames on which the notebook calls [dropna]. *)
Definition projected04 (e : RawExtract) : DataFrame :=
  ix_columns columns_to_keep04 (read_csv e).

Definition projected09 (e : RawExtract) : result DataFrame :=
  getitem_columns columns_to_keep09 (read_csv e).

Definition projected14 (e : RawExtract) : result DataFrame :=
  ix_rows_from 2 [0%nat; 3%nat; 8%nat] (read_csv e).

(** The cells of the rows under a field name, with a missing value for the
    rows of a table that lacks the field. *)
Definition field (cols : list string) (name : string) (rs : list row) : list cell :=
  map (fun r : row => cell_at cols name (snd r)) rs.

Definition is_flt (c : cell) : bool :=
  match c with Flt _ => true | _ => false end.

(** The key of a master row: its identifier and its year. *)
Definition key_of (r : row) : cell * cell :=
  (get_cell 0 (snd r), get_cell 3 (snd r)).

(** The (id, year) pairs of a master table. *)
Definition keys (df : DataFrame) : list (cell * cell) := map key_of (rows df).

(** ** Sample extracts *)

(** A 04-05 extract: a county line without school-level values and two
    schools of one district. *)
Definition sample04 : RawExtract :=
  mkRaw ["RCDT"; "School"; "Total Sch. Enroll."; "Polio Prot."]
    [[Str "Adams County"; NaN; NaN; NaN];
     [Str "0100100"; Str "2001"; Str "1,234"; Str "1,200"];
     [Str "0100100"; Str "2002"; Str "50"; Str "40"]].

(** The same with a count that is not a numeral in the last line. *)
Definition sample04_bad : RawExtract :=
  mkRaw ["RCDT"; "School"; "Total Sch. Enroll."; "Polio Prot."]
    [[Str "Adams County"; NaN; NaN; NaN];
     [Str "0100100"; Str "2001"; Str "1,234"; Str "1,200"];
     [Str "0100100"; Str "2002"; Str "5o"; Str "40"]].

(** The same with a negative count in the last line. *)
Definition sample04_neg : RawExtract :=
  mkRaw ["RCDT"; "School"; "Total Sch. Enroll."; "Polio Prot."]
    [[Str "Adams County"; NaN; NaN; NaN];
     [Str "0100100"; Str "2001"; Str "1,234"; Str "1,200"];
     [Str "0100100"; Str "2002"; Str "-5"; Str "3"]].

(** A 09-10 extract: two schools of one district, counts read as floats. *)
Definition sample09 : RawExtract :=
  mkRaw ["RCDTS"; "Enrollment"; "PolioProt"]
    [[Str "010010010002001"; Flt (f64_of_Z 12); Flt (f64_of_Z 11)];
     [Str "010010010002002"; Flt (f64_of_Z 7); Flt (f64_of_Z 7)]].

(** The same with a county line and a school without its protected count. *)
Definition sample09_gaps : RawExtract :=
  mkRaw ["RCDTS"; "Enrollment"; "PolioProt"]
    [[Str "Adams County"; NaN; NaN];
     [Str "010010010002001"; Flt (f64_of_Z 12); Flt (f64_of_Z 11)];
     [Str "010010010002002"; Flt (f64_of_Z 7); NaN]].

Definition blank_line : list cell := repeat NaN 9.

(** A 14-15 extract: two header lines, two schools, empty lines up to the
    corrupt line 4876. *)
Definition sample14 : RawExtract :=
  mkRaw ["RCDTS"; "c1"; "c2"; "c3"; "c4"; "c5"; "c6"; "c7"; "c8"]
    ([[Str "RCDTS"; NaN; NaN; Str "Total"; NaN; NaN; NaN; NaN; Str "Polio"];
      [NaN; NaN; NaN; Str "Enrollment"; NaN; NaN; NaN; NaN; Str "Protected"];
      [Str "010010010002001"; NaN; NaN; Str "1,010"; NaN; NaN; NaN; NaN; Str "990"];
      [Str "010010020002001"; NaN; NaN; Str "25"; NaN; NaN; NaN; NaN; Str "25"]]
     ++ repeat blank_line 4872
     ++ [[Str "Total"; NaN; NaN; Str "2,000,000"; NaN; NaN; NaN; NaN; Str "7"]]).

(** [sample14] with the two lines exchanged: the line of the totals comes
    right after the schools and a third school stands on line 4876. *)
Definition sample14_moved : RawExtract :=
  mkRaw ["RCDTS"; "c1"; "c2"; "c3"; "c4"; "c5"; "c6"; "c7"; "c8"]
    ([[Str "RCDTS"; NaN; NaN; Str "Total"; NaN; NaN; NaN; NaN; Str "Polio"];
      [NaN; NaN; NaN; Str "Enrollment"; NaN; NaN; NaN; NaN; Str "Protected"];
      [Str "010010010002001"; NaN; NaN; Str "1,010"; NaN; NaN; NaN; NaN; Str "990"];
      [Str "010010020002001"; NaN; NaN; Str "25"; NaN; NaN; NaN; NaN; Str "25"];
      [Str "Total"; NaN; NaN; Str "2,000,000"; NaN; NaN; NaN; NaN; Str "7"]]
     ++ repeat blank_line 4871
     ++ [[Str "010010030002001"; NaN; NaN; Str "30"; NaN; NaN; NaN; NaN; Str "29"]]).

(** [sample14] with no protected count on line 4876. *)
Definition sample14_blank : RawExtract :=
  mkRaw ["RCDTS"; "c1"; "c2"; "c3"; "c4"; "c5"; "c6"; "c7"; "c8"]
    ([[Str "RCDTS"; NaN; NaN; Str "Total"; NaN; NaN; NaN; NaN; Str "Polio"];
      [NaN; NaN; NaN; Str "Enrollment"; NaN; NaN; NaN; NaN; Str "Protected"];
      [Str "010010010002001"; NaN; NaN; Str "1,010"; NaN; NaN; NaN; NaN; Str "990"];
      [Str "010010020002001"; NaN; NaN; Str "25"; NaN; NaN; NaN; NaN; Str "25"]]
     ++ repeat blank_line 4872
     ++ [[Str "Total"; NaN; NaN; Str "2,000,000"; NaN; NaN; NaN; NaN; NaN]]).

Definition sample14_out : DataFrame :=
  mkDF master_columns
    [(2, [Str "010010010002001"; Int 1010; Int 990; Int 2014]);
     (3, [Str "010010020002001"; Int 25; Int 25; Int 2014])].

Definition sample04_out : DataFrame :=
  mkDF columns_we_want
    [(1, [Str "0100100"; Int 1234; Int 1200; Int 2004]);
     (2, [Str "0100100"; Int 50; Int 40; Int 2004])].

(** The master table of the three samples: next to the float counts of the
    09-10 extract all counts are floats. *)
Definition sample_master : DataFrame :=
  mkDF columns_we_want
    [(2, [Str "01001001000"; Flt (f64_of_Z 1010); Flt (f64_of_Z 990); Int 2014]);
     (3, [Str "01001002000"; Flt (f64_of_Z 25); Flt (f64_of_Z 25); Int 2014]);
     (0, [Str "01001001000"; Flt (f64_of_Z 12); Flt (f64_of_Z 11); Int 2009]);
     (1, [Str "01001001000"; Flt (f64_of_Z 7); Flt (f64_of_Z 7); Int 2009]);
     (1, [Str "0100100"; Flt (f64_of_Z 1234); Flt (f64_of_Z 1200); Int 2004]);
     (2, [Str "0100100"; Flt (f64_of_Z 50); Flt (f64_of_Z 40); Int 2004])].

(** The 09-10 sample before its year is added. *)
Definition sample09_clean : DataFrame :=
  mkDF ["rcdts"; "enrollment"; "protected"]
    [(0, [Str "010010010002001"; Flt (f64_of_Z 12); Flt (f64_of_Z 11)])].

(** [sample14_out] and [sample09_clean] merged: the counts and the year of
    the first table are floats now. *)
Definition sample_union_float : DataFrame :=
  mkDF ["enrollment"; "protected"; "rcdts"; "year"]
    [(2, [Flt (f64_of_Z 1010); Flt (f64_of_Z 990); Str "010010010002001";
          Flt (f64_of_Z 2014)]);
     (3, [Flt (f64_of_Z 25); Flt (f64_of_Z 25); Str "010010020002001";
          Flt (f64_of_Z 2014)]);
     (0, [Flt (f64_of_Z 12); Flt (f64_of_Z 11); Str "010010010002001"; NaN])].

(** [sample14_out] and [sample04_out] merged without the identifier step:
    their schemas differ in one field name. *)
Definition sample_union : DataFrame :=
  mkDF ["enrollment"; "protected"; "rcdt"; "rcdts"; "year"]
    [(2, [Int 1010; Int 990; NaN; Str "010010010002001"; Int 2014]);
     (3, [Int 25; Int 25; NaN; Str "010010020002001"; Int 2014]);
     (1, [Int 1234; Int 1200; Str "0100100"; NaN; Int 2004]);
     (2, [Int 50; Int 40; Str "0100100"; NaN; Int 2004])].

(** [sample14] with a count that is not a numeral. *)
Definition sample14_bad : RawExtract :=
  mkRaw ["RCDTS"; "c1"; "c2"; "c3"; "c4"; "c5"; "c6"; "c7"; "c8"]
    ([[Str "RCDTS"; NaN; NaN; Str "Total"; NaN; NaN; NaN; NaN; Str "Polio"];
      [NaN; NaN; NaN; Str "Enrollment"; NaN; NaN; NaN; NaN; Str "Protected"];
      [Str "010010010002001"; NaN; NaN; Str "1,010"; NaN; NaN; NaN; NaN; Str "990"];
      [Str "010010020002001"; NaN; NaN; Str "25"; NaN; NaN; NaN; NaN; Str "2S"]]
     ++ repeat blank_line 4872
     ++ [[Str "Total"; NaN; NaN; Str "2,000,000"; NaN; NaN; NaN; NaN; Str "7"]]).

Definition sample14_bad_selected : DataFrame :=
  mkDF new_column_names
    [(2, [Str "010010010002001"; Str "1,010"; Str "990"]);
     (3, [Str "010010020002001"; Str "25"; Str "2S"]);
     (4876, [Str "Total"; Str "2,000,000"; Str "7"])].

(** The rows and columns of [sample14] on which [dropna] is called. *)
Definition sample14_projected : DataFrame :=
  mkDF ["RCDTS"; "c3"; "c8"]
    ([(2, [Str "010010010002001"; Str "1,010"; Str "990"]);
      (3, [Str "010010020002001"; Str "25"; Str "25"])]
     ++ combine (map Z.of_nat (seq 4 4872)) (repeat [NaN; NaN; NaN] 4872)
     ++ [(4876, [Str "Total"; Str "2,000,000"; Str "7"])]).

Definition sample09_out : DataFrame :=
  mkDF master_columns
    [(0, [Str "010010010002001"; Flt (f64_of_Z 12); Flt (f64_of_Z 11); Int 2009]);
     (1, [Str "010010010002002"; Flt (f64_of_Z 7); Flt (f64_of_Z 7); Int 2009])].

(** ** Vocabulary of the further properties *)

(** The string has an occurrence of the character. *)
Fixpoint contains (c : ascii) (s : string) : bool :=
  match s with
  | String a s' => Ascii.eqb a c || contains c s'
  | EmptyString => false
  end.

(** A count that the coercion accepts: a string that reads as a base-10
    integer once its separators are removed. *)
Definition parsable (c : cell) : Prop :=
  exists s z, c = Str s /\ int_of_str (replace "," "" s) = Ok z.

(** A count that is written with a comma. *)
Definition with_comma (c : cell) : bool :=
  match c with
  | Str s => contains "," s
  | _ => false
  end.

(** A master row after the identifier step: the first cell, a string, has
    lost its last four characters. *)
Definition trim_row (r : row) : row :=
  (fst r,
   match snd r with
   | Str s :: cells => Str (slice_to (-4) s) :: cells
   | cells => cells
   end).

(** The rows of a normalized extract: four cells, the last one the year. *)
Definition rows_of_year (y : Z) (df : DataFrame) : Prop :=
  Forall (fun r : row => length (snd r) = 4%nat /\ get_cell 3 (snd r) = Int y)
         (rows df).

(** ** Further sample extracts *)

(** A 04-05 extract whose file names the enrollment column differently. *)
Definition sample04_renamed : RawExtract :=
  mkRaw ["RCDT"; "School"; "Enrollment"; "Polio Prot."]
    [[Str "0100100"; Str "2001"; Str "1,234"; Str "1,200"];
     [Str "0100100"; Str "2002"; Str "50"; Str "40"]].

(** A 04-05 extract whose counts are all below one thousand. *)
Definition sample04_plain : RawExtract :=
  mkRaw ["RCDT"; "School"; "Total Sch. Enroll."; "Polio Prot."]
    [[Str "0100100"; Str "2001"; Str "234"; Str "200"];
     [Str "0100100"; Str "2002"; Str "50"; Str "40"]].

(** A 09-10 extract with the column names of the 04-05 file. *)
Definition sample09_renamed : RawExtract :=
  mkRaw ["RCDT"; "School"; "Total Sch. Enroll."; "Polio Prot."]
    [[Str "0100100"; Str "2001"; Flt (f64_of_Z 12); Flt (f64_of_Z 11)]].

(** A 14-15 extract of four lines, and one of five columns. *)
Definition sample14_short : RawExtract :=
  mkRaw ["RCDTS"; "c1"; "c2"; "c3"; "c4"; "c5"; "c6"; "c7"; "c8"]
    [[Str "RCDTS"; NaN; NaN; Str "Total"; NaN; NaN; NaN; NaN; Str "Polio"];
     [NaN; NaN; NaN; Str "Enrollment"; NaN; NaN; NaN; NaN; Str "Protected"];
     [Str "010010010002001"; NaN; NaN; Str "1,010"; NaN; NaN; NaN; NaN; Str "990"];
     [Str "010010020002001"; NaN; NaN; Str "25"; NaN; NaN; NaN; NaN; Str "25"]].

Definition sample14_narrow : RawExtract :=
  mkRaw ["RCDTS"; "c1"; "c2"; "c3"; "c4"]
    [[Str "010010010002001"; NaN; NaN; Str "1,010"; Str "990"]].

(** The identifier that [trim_suffix] returns for a string. *)
Definition trim_val (c : cell) : cell :=
  match c with
  | Str s => Str (slice_to (-4) s)
  | _ => c
  end.

(** The identifiers of rows. *)
Definition ids (rs : list row) : list cell :=
  map (fun r : row => get_cell 0 (snd r)) rs.

(** The key of a row of the 14-15 or 09-10 table once its identifier is
    cut. *)
Definition trimmed_key (r : row) : cell * cell :=
  (trim_val (get_cell 0 (snd r)), get_cell 3 (snd r)).

(** A row of four cells whose counts are both of one kind and whose year is
    an integer. *)
Definition counted (kind : cell -> bool) (r : row) : Prop :=
  length (snd r) = 4%nat
  /\ kind (get_cell 1 (snd r)) = true /\ kind (get_cell 2 (snd r)) = true
  /\ is_int (get_cell 3 (snd r)) = true.

(** The column types of a master table that holds float counts. *)
Definition master_dtypes : list dtype := [object; float64_t; float64_t; int64].

(** The year of a master row is one of the three years. *)
Definition year_of_extract (r : row) : Prop :=
  get_cell 3 (snd r) = Int 2014 \/ get_cell 3 (snd r) = Int 2009
  \/ get_cell 3 (snd r) = Int 2004.

(** A 09-10 table whose identifiers were read as numbers. *)
Definition sample09_numeric : DataFrame :=
  mkDF master_columns
    [(0, [Int 10010010002001; Flt (f64_of_Z 12); Flt (f64_of_Z 11); Int 2009])].

(** A master row that the aggregate can read: an integer year and two counts
    that are numbers. *)
Definition numeric_row (r : row) : Prop :=
  is_int (get_cell 3 (snd r)) = true
  /\ is_num (get_cell 1 (snd r)) = true /\ is_num (get_cell 2 (snd r)) = true.

(** A row of running sums: two cells, both numbers. *)
Definition sums_shape (g : row) : Prop :=
  exists a b, snd g = [a; b] /\ is_num a = true /\ is_num b = true.

(** The quotient cell of a row of sums. *)
Definition quotient_of (g : row) : cell :=
  match true_divide (get_cell 1 (snd g)) (get_cell 0 (snd g)) with
  | Ok v => v
  | Raise _ => NaN
  end.

(** The pass of [groupby_sum] over the keyed rows, for two summed columns at
    positions 1 and 2. *)
Definition fold_sums (d1 d2 : dtype) (krs : list (Z * row)) (g : list row) : list row :=
  fold_left (fun groups (kr : Z * row) =>
               add_to_group [d1; d2] (fst kr)
                 (map (fun i => get_cell i (snd (snd kr))) [1%nat; 2%nat]) groups)
            krs g.

(** A 04-05 extract whose counts were read as numbers. *)
Definition sample04_numeric : RawExtract :=
  mkRaw ["RCDT"; "School"; "Total Sch. Enroll."; "Polio Prot."]
    [[Str "0100100"; Str "2001"; Int 234; Int 200];
     [Str "0100100"; Str "2002"; Int 50; Int 40]].

(* ================================================================== *)
(** * Properties *)

(** ** Strings and coercion *)

Lemma take_zero (s : string) : take 0 s = "".
Proof. destruct s; reflexivity. Qed.

Lemma slice_to_neg (k : Z) (s : string) :
  k < 0 ->
  slice_to k s = take (String.length s - Z.to_nat (- k))%nat s.
Proof.
  intros Hk. unfold slice_to.
  destruct (Z.ltb_spec k 0) as [_|]; [|lia].
  f_equal. lia.
Qed.

(** C10: the truncation [x[:-4]] is total on strings: it keeps the first
    [len - 4] characters, and on every string of at most four characters,
    the empty one included, it returns the empty string and raises nothing. *)
Theorem trim_suffix_short (s : string) :
  trim_suffix (Str s) = Ok (Str (take (String.length s - 4)%nat s))
  /\ ((String.length s <= 4)%nat -> trim_suffix (Str s) = Ok (Str "")).
Proof.
  assert (E : trim_suffix (Str s) = Ok (Str (take (String.length s - 4)%nat s))).
  { unfold trim_suffix. rewrite slice_to_neg by lia. reflexivity. }
  split; [exact E|].
  intros Hlen. rewrite E.
  replace (String.length s - 4)%nat with 0%nat by lia.
  now rewrite take_zero.
Qed.

Lemma trim_suffix_short_witness :
  (String.length "abc" <= 4)%nat /\ trim_suffix (Str "abc") = Ok (Str "")
  /\ trim_suffix (Str "") = Ok (Str "").
Proof.
  split; [simpl; lia|].
  split.
  - apply (proj2 (trim_suffix_short "abc")). simpl; lia.
  - apply (proj2 (trim_suffix_short "")). simpl; lia.
Defined.

Example trim_suffix_rcdts : trim_suffix (Str "123456789999") = Ok (Str "12345678").
Proof. reflexivity. Qed.




Lemma int_of_str_digit_head (c : ascii) (r : string) :
  is_digit c = true ->
  int_of_str (String c r) =
    (let '(v, rest) := read_digits 0 (String c r) in
     if all_space rest then Ok v else Raise ValueError).
Proof.
  destruct c as [[] [] [] [] [] [] [] []]; try discriminate; intros _;
    unfold int_of_str; cbn [lstrip is_space];
    match goal with |- context [is_digit ?a] => change (is_digit a) with true end;
    cbv iota; reflexivity.
Qed.


Lemma contains_lstrip (c : ascii) (s : string) :
  is_space c = false -> contains c s = true -> contains c (lstrip s) = true.
Proof.
  intros Hc. induction s as [|a s IH]; simpl; [auto|].
  destruct (is_space a) eqn:Ha; [|auto].
  destruct (Ascii.eqb_spec a c) as [->|_]; [congruence|]. exact IH.
Qed.

Lemma contains_read_digits (c : ascii) (s : string) (acc : Z) :
  is_digit c = false -> contains c s = true ->
  contains c (snd (read_digits acc s)) = true.
Proof.
  intros Hc. revert acc. induction s as [|a s IH]; intros acc H; [discriminate|].
  cbn [read_digits]. destruct (is_digit a) eqn:Ha; [|exact H].
  apply IH. simpl in H.
  destruct (Ascii.eqb_spec a c) as [->|_]; [congruence|exact H].
Qed.

Lemma contains_not_space (c : ascii) (s : string) :
  is_space c = false -> contains c s = true -> all_space s = false.
Proof.
  intros Hc. induction s as [|a s IH]; simpl; [discriminate|].
  destruct (Ascii.eqb_spec a c) as [->|_]; simpl; intros H.
  - now rewrite Hc.
  - rewrite (IH H). apply andb_false_r.
Qed.

(** The part of [int_of_str] after the sign, on a string with a comma. *)
Lemma digits_with_comma (neg : bool) (s2 : string) :
  contains "," s2 = true ->
  match s2 with
  | String c _ =>
      if is_digit c then
        let '(v, rest) := read_digits 0 s2 in
        if all_space rest then Ok (if neg then - v else v) else Raise ValueError
      else Raise ValueError
  | EmptyString => Raise ValueError
  end = Raise ValueError.
Proof.
  intros H. destruct s2 as [|c r]; [reflexivity|].
  destruct (is_digit c); [|reflexivity].
  pose proof (contains_read_digits "," _ 0 eq_refl H) as Hr.
  destruct (read_digits 0 (String c r)) as [v rest]. cbn [snd] in Hr.
  now rewrite (contains_not_space "," rest eq_refl Hr).
Qed.

Lemma comma_refused (s : string) :
  contains "," s = true -> int_of_str s = Raise ValueError.
Proof.
  intros H. apply (contains_lstrip "," s eq_refl) in H.
  unfold int_of_str. destruct (lstrip s) as [|a r]; [discriminate|].
  destruct a as [[] [] [] [] [] [] [] []]; cbv iota beta;
    first [ exact (digits_with_comma false _ H)
          | exact (digits_with_comma false (lstrip r)
                     (contains_lstrip "," r eq_refl H))
          | exact (digits_with_comma true (lstrip r)
                     (contains_lstrip "," r eq_refl H)) ].
Qed.

Lemma replace_no_comma (s : string) :
  contains "," s = false -> replace "," "" s = s.
Proof.
  induction s as [|a s IH]; [reflexivity|]. simpl. rewrite Ascii.eqb_sym.
  destruct (Ascii.eqb "," a); [discriminate|]. simpl. intros H. now rewrite IH.
Qed.

(** What the coercion refuses with its commas removed, [int] alone refuses
    as well. *)
Lemma plain_refuses (s : string) (x : exn) :
  int_of_str (replace "," "" s) = Raise x -> int_of_str s = Raise ValueError.
Proof.
  intros H. destruct (contains "," s) eqn:C; [now apply comma_refused|].
  rewrite (replace_no_comma s C) in H. rewrite H. f_equal.
  clear - H. unfold int_of_str in H.
  repeat match type of H with
         | context [match ?x with _ => _ end] => destruct x
         end; congruence.
Qed.

Lemma space_not_digit (c : ascii) : is_space c = true -> is_digit c = false.
Proof.
  destruct c as [[] [] [] [] [] [] [] []]; try discriminate; reflexivity.
Qed.

Lemma digit_not_space (c : ascii) : is_digit c = true -> is_space c = false.
Proof.
  destruct c as [[] [] [] [] [] [] [] []]; try discriminate; reflexivity.
Qed.

Lemma lstrip_app_space (pre s : string) :
  all_space pre = true -> lstrip (pre ++ s) = lstrip s.
Proof.
  induction pre as [|a pre IH]; simpl; [reflexivity|].
  intros H. apply andb_true_iff in H as [Ha Hp]. rewrite Ha. now apply IH.
Qed.

Lemma read_digits_app (d post : string) (acc : Z) :
  all_digits d = true -> all_space post = true ->
  read_digits acc (d ++ post) =
    (acc * 10 ^ Z.of_nat (String.length d) + decimal_value (digits_of d), post).
Proof.
  intros Hd Hp. revert acc. induction d as [|c d IH]; intros acc.
  - simpl. replace (acc * 1 + 0) with acc by lia.
    destruct post as [|a post]; [reflexivity|].
    simpl in Hp. apply andb_true_iff in Hp as [Ha _].
    simpl. now rewrite (space_not_digit a Ha).
  - simpl in Hd. apply andb_true_iff in Hd as [Hc Hd].
    cbn [append read_digits digits_of String.length]. rewrite Hc.
    rewrite (IH Hd). cbn [decimal_value]. f_equal.
    assert (L : length (digits_of d) = String.length d).
    { clear - Hd. induction d as [|a d IH]; simpl in *; [reflexivity|].
      apply andb_true_iff in Hd as [Ha Hd]. rewrite Ha. simpl. now rewrite IH. }
    rewrite L, Nat2Z.inj_succ, Z.pow_succ_r by lia. ring.
Qed.

Lemma int_of_str_unsigned (d post : string) :
  all_digits d = true -> d <> "" -> all_space post = true ->
  int_of_str (d ++ post) = Ok (decimal_value (digits_of d)).
Proof.
  intros Hd Hne Hp. destruct d as [|c d']; [congruence|].
  pose proof Hd as Hd'. simpl in Hd'. apply andb_true_iff in Hd' as [Hc _].
  change (String c d' ++ post)%string with (String c (d' ++ post)).
  rewrite (int_of_str_digit_head c _ Hc).
  change (String c (d' ++ post)) with (String c d' ++ post)%string.
  rewrite (read_digits_app _ _ 0 Hd Hp), Hp. reflexivity.
Qed.

Lemma int_of_str_lstrip (pre s : string) :
  all_space pre = true -> int_of_str (pre ++ s) = int_of_str s.
Proof.
  intros H. unfold int_of_str. now rewrite (lstrip_app_space pre s H).
Qed.



(** ** The aggregate per year *)

Lemma mapM_map {A B : Type} (f : A -> result B) (g : A -> B) (l : list A) :
  (forall x, In x l -> f x = Ok (g x)) -> mapM f l = Ok (map g l).
Proof.
  induction l as [|x l IH]; intros H; simpl; [reflexivity|].
  rewrite (H x (or_introl eq_refl)). simpl.
  rewrite IH by (intros; apply H; now right). reflexivity.
Qed.

(** The two descriptions of an overflowing int64 sum agree. *)
Lemma int64_wrap_sum (z : Z) : int64_wrap z = int64_sum z.
Proof.
  unfold int64_wrap, int64_sum.
  pose proof (Z.mod_pos_bound z (2 ^ 64) ltac:(lia)) as Hm.
  rewrite <- (Zplus_mod_idemp_l z).
  destruct (Z.ltb_spec (z mod 2 ^ 64) (2 ^ 63)) as [L|G].
  - rewrite Z.mod_small by lia. lia.
  - replace (z mod 2 ^ 64 + 2 ^ 63) with (z mod 2 ^ 64 - 2 ^ 63 + 1 * 2 ^ 64) by lia.
    rewrite Z_mod_plus_full, Z.mod_small by lia. lia.
Qed.

Lemma int64_wrap_add (a b : Z) : int64_wrap (int64_wrap a + b) = int64_wrap (a + b).
Proof.
  unfold int64_wrap. f_equal.
  replace ((a + 2 ^ 63) mod 2 ^ 64 - 2 ^ 63 + b + 2 ^ 63)
    with ((a + 2 ^ 63) mod 2 ^ 64 + b) by lia.
  rewrite Zplus_mod_idemp_l. f_equal. lia.
Qed.

Lemma int64_sum_add (a b : Z) : int64_wrap (int64_sum a + b) = int64_sum (a + b).
Proof. now rewrite <- !int64_wrap_sum, int64_wrap_add. Qed.


Section FrameOf.

Lemma map_rows_from (f : list cell -> cell) (k : nat) (t : list NormalizedRow) :
  map (fun r : row => f (snd r)) (rows_from k t) = map (fun r => f (cells_of r)) t.
Proof.
  revert k; induction t as [|r t IH]; intros k; [reflexivity|].
  unfold rows_from in *. simpl. now rewrite IH.
Qed.

Lemma add_to_group_sums (k e p : Z) (g : list year_sums) :
  add_to_group [int64; int64] k [Int e; Int p] (map sums_row g)
  = map sums_row (add_sums k e p g).
Proof.
  induction g as [|[k' [se sp]] g IH].
  - cbn [map add_to_group add_sums zip3 sum_step sum_zero sums_row fst snd].
    now rewrite !int64_wrap_sum.
  - cbn [map add_to_group add_sums sums_row fst snd].
    destruct (k <? k').
    + cbn [map zip3 sum_step sum_zero sums_row fst snd]. now rewrite !int64_wrap_sum.
    + destruct (k =? k').
      * cbn [zip3 sum_step map sums_row fst snd]. now rewrite !int64_sum_add.
      * cbn [map sums_row fst snd]. now rewrite <- IH.
Qed.

Lemma fold_rows_from (k : nat) (t : list NormalizedRow) (g : list year_sums) :
  fold_left
    (fun groups (kr : Z * row) =>
       add_to_group [int64; int64] (fst kr)
         (map (fun i => get_cell i (snd (snd kr))) [1%nat; 2%nat]) groups)
    (combine (map year t) (rows_from k t)) (map sums_row g)
  = map sums_row
      (fold_left (fun g r => add_sums (year r) (enrolled r) (protected r) g) t g).
Proof.
  revert k g; induction t as [|r t IH]; intros k g; [reflexivity|].
  unfold rows_from in *. cbn [length seq map combine fold_left fst snd].
  change (get_cell 1 (cells_of r)) with (Int (enrolled r)).
  change (get_cell 2 (cells_of r)) with (Int (protected r)).
  rewrite add_to_group_sums. apply IH.
Qed.

Lemma groupby_sum_frame_of (t : list NormalizedRow) :
  groupby_sum "year" ["enrollment"; "protected"] (frame_of t)
  = Ok (mkDF ["enrollment"; "protected"] (map sums_row (sums_of t))).
Proof.
  unfold groupby_sum.
  change (locate ["year"] (columns (frame_of t))) with (Ok [3%nat]).
  change (locate ["enrollment"; "protected"] (columns (frame_of t)))
    with (Ok [1%nat; 2%nat]).
  cbn [bind hd map].
  unfold column, frame_of; cbn [rows].
  rewrite !map_rows_from.
  rewrite (mapM_map group_key (fun c => match c with Int z => z | _ => 0 end))
    by (intros x Hx; apply in_map_iff in Hx as [r [<- _]]; reflexivity).
  rewrite map_map. cbn [bind].
  assert (D : forall f : NormalizedRow -> Z,
             dtype_of (map (fun r => Int (f r)) t) = int64).
  { intros f. unfold dtype_of.
    replace (forallb is_int (map (fun r => Int (f r)) t)) with true; [reflexivity|].
    symmetry. apply forallb_forall. intros x Hx.
    apply in_map_iff in Hx as [r [<- _]]. reflexivity. }
  change (map (fun r => get_cell 1 (cells_of r)) t)
    with (map (fun r => Int (enrolled r)) t).
  change (map (fun r => get_cell 2 (cells_of r)) t)
    with (map (fun r => Int (protected r)) t).
  rewrite !D. cbn [existsb orb].
  do 2 f_equal.
  change (map (fun x => match get_cell 3 (cells_of x) with
                        | Int z => z | _ => 0 end) t) with (map year t).
  apply (fold_rows_from 0 t []).
Qed.

End FrameOf.

Lemma setitem_div_sums (g : list year_sums) :
  setitem_div "prot_perc" "protected" "enrollment"
    (mkDF ["enrollment"; "protected"] (map sums_row g))
  = Ok (mkDF ["enrollment"; "protected"; "prot_perc"] (map year_row g)).
Proof.
  unfold setitem_div.
  change (locate _ _) with (Ok [1%nat; 0%nat]).
  cbn [bind nth rows].
  rewrite (mapM_map _ (fun r : row =>
             match snd r with
             | [Int e; Int p] => Flt (ratio p e)
             | _ => NaN
             end)).
  2:{ intros x Hx. apply in_map_iff in Hx as [[k [e p]] [<- _]]. reflexivity. }
  cbn [bind]. unfold setitem. cbn [columns col_pos String.eqb Ascii.eqb Bool.eqb option_map rows app].
  do 2 f_equal.
  induction g as [|[k [e p]] g IH]; [reflexivity|].
  cbn [map combine fst snd sums_row year_row app]. f_equal. apply IH.
Qed.

Lemma aggregate_frame_of (t : list NormalizedRow) :
  aggregate_by_year (frame_of t)
  = Ok (mkDF ["enrollment"; "protected"; "prot_perc"] (map year_row (sums_of t))).
Proof.
  unfold aggregate_by_year. rewrite groupby_sum_frame_of. cbn [bind].
  apply setitem_div_sums.
Qed.

Section GroupSums.

Implicit Types (g : list year_sums) (t : list NormalizedRow).

Lemma add_sums_above (lo k e p : Z) g :
  lo < k -> Forall (Z.lt lo) (map fst g) ->
  Forall (Z.lt lo) (map fst (add_sums k e p g)).
Proof.
  intros Hk. induction g as [|[k' [se sp]] g IH]; intros H; simpl.
  - repeat constructor; assumption.
  - inversion H as [|? ? H1 H2]; subst.
    destruct (k <? k'); [constructor; assumption|].
    destruct (k =? k'); simpl; constructor; auto.
Qed.

Lemma add_sums_sorted (k e p : Z) g :
  sorted_years g -> sorted_years (add_sums k e p g).
Proof.
  unfold sorted_years.
  induction g as [|[k' [se sp]] g IH]; intros H; simpl.
  - repeat constructor.
  - inversion H as [|? ? H1 H2]; subst.
    destruct (Z.ltb_spec k k') as [Hlt|Hge].
    + simpl. constructor; [exact H|].
      constructor; [exact Hlt|].
      eapply Forall_impl; [|exact H2]. intros; lia.
    + destruct (Z.eqb_spec k k') as [->|Hne]; simpl.
      * constructor; assumption.
      * constructor; [now apply IH|].
        apply add_sums_above; [lia|assumption].
Qed.

Lemma lookup_sums_above (y : Z) g :
  Forall (Z.lt y) (map fst g) -> lookup_sums y g = None.
Proof.
  induction g as [|[k s] g IH]; intros H; simpl; [reflexivity|].
  inversion H; subst. simpl in *.
  destruct (Z.eqb_spec k y); [lia|auto].
Qed.

Lemma lookup_add_sums (y k e p : Z) g :
  sorted_years g ->
  lookup_sums y (add_sums k e p g) =
    if k =? y then
      Some (match lookup_sums k g with
            | Some (se, sp) => (se + e, sp + p)
            | None => (0 + e, 0 + p)
            end)
    else lookup_sums y g.
Proof.
  unfold sorted_years.
  induction g as [|[k' [se sp]] g IH]; intros H.
  - simpl. destruct (k =? y); reflexivity.
  - inversion H as [|? ? H1 H2]; subst.
    cbn [add_sums lookup_sums].
    destruct (Z.ltb_spec k k') as [Hlt|Hge].
    + cbn [lookup_sums].
      destruct (Z.eqb_spec k' k) as [|_]; [lia|].
      rewrite (lookup_sums_above k g)
        by (eapply Forall_impl; [|exact H2]; intros; lia).
      destruct (k =? y); reflexivity.
    + destruct (Z.eqb_spec k k') as [->|Hne]; cbn [lookup_sums].
      * rewrite Z.eqb_refl. destruct (k' =? y); reflexivity.
      * destruct (Z.eqb_spec k' k) as [|_]; [congruence|].
        rewrite (IH H1).
        destruct (Z.eqb_spec k' y) as [->|]; [|reflexivity].
        destruct (Z.eqb_spec k y); [congruence|reflexivity].
Qed.

Lemma sums_of_snoc t (r : NormalizedRow) :
  sums_of (t ++ [r]) = add_sums (year r) (enrolled r) (protected r) (sums_of t).
Proof. unfold sums_of. now rewrite fold_left_app. Qed.

Lemma sums_of_sorted t : sorted_years (sums_of t).
Proof.
  induction t as [|r t IH] using rev_ind.
  - constructor.
  - rewrite sums_of_snoc. now apply add_sums_sorted.
Qed.

Lemma total_snoc (f : NormalizedRow -> Z) (y : Z) t (r : NormalizedRow) :
  total f (in_year y (t ++ [r]))
  = total f (in_year y t) + (if year r =? y then f r else 0).
Proof.
  unfold total, in_year. rewrite filter_app, map_app, fold_right_app. simpl.
  generalize (map f (filter (fun r0 => year r0 =? y) t)) as l.
  destruct (year r =? y); simpl; induction l; simpl; lia.
Qed.

Lemma has_year_snoc (y : Z) t (r : NormalizedRow) :
  has_year y (t ++ [r]) = has_year y t || (year r =? y).
Proof. unfold has_year. rewrite existsb_app. simpl. now rewrite orb_false_r. Qed.

Lemma in_year_absent (y : Z) t : has_year y t = false -> in_year y t = [].
Proof.
  unfold has_year, in_year. induction t as [|r t IH]; simpl; [reflexivity|].
  destruct (year r =? y); simpl; [discriminate|exact IH].
Qed.

(** The one-pass accumulation computes, for each year of the table, the
    totals of the rows of that year. *)
Lemma lookup_sums_of (y : Z) t :
  lookup_sums y (sums_of t) =
    if has_year y t
    then Some (total enrolled (in_year y t), total protected (in_year y t))
    else None.
Proof.
  induction t as [|r t IH] using rev_ind; [reflexivity|].
  rewrite sums_of_snoc, lookup_add_sums by apply sums_of_sorted.
  rewrite has_year_snoc, !total_snoc.
  destruct (Z.eqb_spec (year r) y) as [E|N].
  - rewrite E, IH, orb_true_r.
    destruct (has_year y t) eqn:Hy; [reflexivity|].
    now rewrite (in_year_absent y t Hy).
  - rewrite IH, orb_false_r. destruct (has_year y t); repeat f_equal; lia.
Qed.


End GroupSums.





(** Quotients in binary64. *)
Example ratio_values :
  ratio 130 150 = S754_finite false 7806239354108860 (-53)
  /\ ratio 1 2 = S754_finite false 4503599627370496 (-53)
  /\ ratio 5 0 = S754_infinity false /\ ratio (-5) 0 = S754_infinity true
  /\ ratio 0 0 = S754_nan.
Proof. repeat split. Qed.




(** ** Statements that can raise *)

Section MapM.

Context {A B : Type} (f : A -> result B).

Lemma mapM_ok_inv (l : list A) (vs : list B) :
  mapM f l = Ok vs -> Forall2 (fun x v => f x = Ok v) l vs.
Proof.
  revert vs; induction l as [|x l IH]; intros vs H; simpl in H.
  - injection H as <-. constructor.
  - destruct (f x) as [v|] eqn:Hx; [|discriminate]. simpl in H.
    destruct (mapM f l) as [vs'|]; [|discriminate]. simpl in H.
    injection H as <-. constructor; auto.
Qed.

Lemma mapM_ok_map (g : A -> B) (l : list A) (vs : list B) :
  (forall x v, In x l -> f x = Ok v -> v = g x) ->
  mapM f l = Ok vs -> vs = map g l.
Proof.
  intros Hg H. apply mapM_ok_inv in H.
  induction H as [|x v l vs Hx _ IH]; [reflexivity|].
  simpl. f_equal.
  - apply Hg; [now left|exact Hx].
  - apply IH. intros; apply Hg; [now right|assumption].
Qed.

Lemma mapM_raise_inv (l : list A) (e : exn) :
  mapM f l = Raise e -> Exists (fun x => f x = Raise e) l.
Proof.
  induction l as [|x l IH]; intros H; simpl in H; [discriminate|].
  destruct (f x) as [v|e'] eqn:Hx; simpl in H.
  - destruct (mapM f l) as [vs'|e'']; simpl in H; [discriminate|].
    injection H as ->. right. now apply IH.
  - injection H as ->. now left.
Qed.

Lemma mapM_raises (l : list A) :
  Exists (fun x => exists e, f x = Raise e) l -> exists e, mapM f l = Raise e.
Proof.
  induction 1 as [x l [e Hx]|x l _ [e IH]]; simpl.
  - rewrite Hx. simpl. eauto.
  - destruct (f x); simpl; [rewrite IH; simpl|]; eauto.
Qed.

End MapM.

Lemma set_column_map {X : Type} (G : X -> cell) (L : X -> Z) (H : X -> list cell)
    (i : nat) (xs : list X) :
  set_column i (map G xs) (map (fun x => (L x, H x)) xs)
  = map (fun x => (L x, set_nth i (G x) (H x))) xs.
Proof.
  unfold set_column. induction xs as [|x xs IH]; [reflexivity|].
  simpl. now rewrite IH.
Qed.

Lemma fold_set_columns (g : cell -> cell) (ps : list nat) (rs : list row)
    (H : row -> list cell) :
  fold_left (fun acc (iv : nat * list cell) => set_column (fst iv) (snd iv) acc)
    (combine ps (map (fun i => map (fun r : row => g (get_cell i (snd r))) rs) ps))
    (map (fun r : row => (fst r, H r)) rs)
  = map (fun r : row =>
           (fst r, fold_left (fun cells i => set_nth i (g (get_cell i (snd r))) cells)
                     ps (H r))) rs.
Proof.
  revert H; induction ps as [|i ps IH]; intros H; [reflexivity|].
  cbn [map combine fold_left fst snd].
  rewrite (set_column_map (fun r : row => g (get_cell i (snd r))) fst H).
  apply (IH (fun r => set_nth i (g (get_cell i (snd r))) (H r))).
Qed.

(** What [applymap_on] returns when it returns: every selected cell has been
    mapped without error and is replaced by its image; labels, column names
    and the other cells are as before. *)
Lemma applymap_on_ok (names : list string) (f : cell -> result cell)
    (g : cell -> cell) (df df' : DataFrame) :
  (forall c v, f c = Ok v -> v = g c) ->
  applymap_on names f df = Ok df' ->
  exists ps,
    locate names (columns df) = Ok ps
    /\ columns df' = columns df
    /\ rows df' =
         map (fun r : row =>
                (fst r, fold_left (fun cells i => set_nth i (g (get_cell i (snd r))) cells)
                          ps (snd r))) (rows df)
    /\ forall i r, In i ps -> In r (rows df) ->
                   f (get_cell i (snd r)) = Ok (g (get_cell i (snd r))).
Proof.
  intros Hg H. unfold applymap_on in H.
  destruct (locate names (columns df)) as [ps|] eqn:Hps; [|discriminate].
  cbn [bind] in H.
  destruct (mapM (fun i => mapM f (column i df)) ps) as [vals|] eqn:Hv; [|discriminate].
  cbn [bind] in H. injection H as <-.
  exists ps. split; [reflexivity|]. split; [reflexivity|].
  assert (E : vals = map (fun i => map (fun r : row => g (get_cell i (snd r))) (rows df)) ps).
  { refine (mapM_ok_map (fun i => mapM f (column i df)) _ ps vals _ Hv).
    intros i v _ Hi. unfold column in Hi.
    rewrite <- (map_map (fun r : row => get_cell i (snd r)) g).
    apply (mapM_ok_map f g _ v); [|exact Hi].
    intros c w _. apply Hg. }
  split.
  - cbn [columns rows]. rewrite E.
    rewrite <- (fold_set_columns g ps (rows df) snd). f_equal.
    rewrite <- (map_id (rows df)) at 1.
    apply map_ext. now intros [].
  - intros i r Hi Hr.
    apply mapM_ok_inv in Hv.
    assert (Hcol : exists v, mapM f (column i df) = Ok v).
    { clear - Hv Hi. induction Hv as [|j v ps vals Hj _ IH]; [contradiction|].
      destruct Hi as [->|Hi]; eauto. }
    destruct Hcol as [v Hcol]. apply mapM_ok_inv in Hcol.
    unfold column in Hcol.
    assert (Hc : exists w, f (get_cell i (snd r)) = Ok w).
    { clear - Hcol Hr. remember (map _ (rows df)) as l eqn:El.
      revert Hr El. generalize (rows df) as rs.
      induction Hcol as [|c w l vs Hc _ IH]; intros rs Hr El.
      - destruct rs; [contradiction|discriminate].
      - destruct rs as [|r0 rs]; [contradiction|].
        simpl in El. injection El as -> ->.
        destruct Hr as [->|Hr]; eauto. }
    destruct Hc as [w Hw]. rewrite Hw. f_equal. now apply Hg.
Qed.

Lemma applymap_on_raises (names : list string) (f : cell -> result cell)
    (df : DataFrame) (ps : list nat) :
  locate names (columns df) = Ok ps ->
  Exists (fun r : row => Exists (fun i => exists e, f (get_cell i (snd r)) = Raise e) ps)
         (rows df) ->
  exists e, applymap_on names f df = Raise e
            /\ Exists (fun r : row => Exists (fun i => f (get_cell i (snd r)) = Raise e) ps)
                      (rows df).
Proof.
  intros Hps Hbad. unfold applymap_on. rewrite Hps. cbn [bind].
  destruct (mapM (fun i => mapM f (column i df)) ps) as [vals|e] eqn:Hv.
  - exfalso. apply Exists_exists in Hbad as [r [Hr Hi]].
    apply Exists_exists in Hi as [i [Hi [e He]]].
    apply mapM_ok_inv in Hv.
    assert (Hcol : exists v, mapM f (column i df) = Ok v).
    { clear - Hv Hi. induction Hv as [|j v ps vals Hj _ IH]; [contradiction|].
      destruct Hi as [->|Hi]; eauto. }
    destruct Hcol as [v Hcol].
    assert (Hex : Exists (fun c => exists e, f c = Raise e) (column i df)).
    { apply Exists_exists. exists (get_cell i (snd r)). split; [|eauto].
      unfold column. apply in_map_iff. eauto. }
    apply mapM_raises in Hex as [e' He']. congruence.
  - exists e. split; [reflexivity|].
    apply mapM_raise_inv in Hv. apply Exists_exists in Hv as [i [Hi Hcol]].
    apply mapM_raise_inv in Hcol. apply Exists_exists in Hcol as [c [Hc Hf]].
    unfold column in Hc. apply in_map_iff in Hc as [r [<- Hr]].
    apply Exists_exists. exists r. split; [exact Hr|].
    apply Exists_exists. eauto.
Qed.

Lemma int_of_str_raise (s : string) (e : exn) :
  int_of_str s = Raise e -> e = ValueError.
Proof.
  unfold int_of_str.
  repeat match goal with
         | |- context [match ?x with _ => _ end] => destruct x
         end; congruence.
Qed.

Lemma to_int_ok (c v : cell) :
  to_int c = Ok v -> v = to_int_val c /\ is_int v = true /\ is_str c = true.
Proof.
  unfold to_int_val. intros H. rewrite H. split; [reflexivity|].
  destruct c as [s| |]; try discriminate. simpl in H.
  destruct (int_of_str _); [|discriminate]. injection H as <-. auto.
Qed.

Lemma to_int_raise (c : cell) (e : exn) :
  to_int c = Raise e ->
  (e = ValueError \/ e = AttributeError) /\ (is_str c = true -> e = ValueError).
Proof.
  destruct c as [s| |]; simpl; intros H.
  - destruct (int_of_str _) eqn:Hs; [discriminate|]. simpl in H.
    injection H as <-. apply int_of_str_raise in Hs. auto.
  - injection H as <-. split; [auto|discriminate].
  - injection H as <-. split; [auto|discriminate].
Qed.

Lemma unparsable_raises (c : cell) : unparsable c -> to_int c = Raise ValueError.
Proof. intros [s [-> H]]. simpl. now rewrite H. Qed.

Lemma length_set_nth {A : Type} (i : nat) (v : A) (l : list A) :
  length (set_nth i v l) = length l.
Proof.
  revert i; induction l as [|x l IH]; intros [|i]; simpl; auto.
Qed.

Lemma nth_set_nth_same {A : Type} (i : nat) (v d : A) (l : list A) :
  (i < length l)%nat -> nth i (set_nth i v l) d = v.
Proof.
  revert i; induction l as [|x l IH]; intros [|i] H; simpl in *; try lia; auto.
  apply IH. lia.
Qed.

Lemma nth_set_nth_other {A : Type} (i j : nat) (v d : A) (l : list A) :
  i <> j -> nth i (set_nth j v l) d = nth i l d.
Proof.
  revert i j; induction l as [|x l IH]; intros [|i] [|j] H; simpl; auto;
    try congruence.
Qed.

Lemma fold_set_nth_at (g : cell -> cell) (r : list cell) (i : nat)
    (ps : list nat) (cells : list cell) :
  length cells = length r -> (i < length r)%nat ->
  In i ps \/ get_cell i cells = g (get_cell i r) ->
  get_cell i (fold_left (fun cs j => set_nth j (g (get_cell j r)) cs) ps cells)
  = g (get_cell i r).
Proof.
  revert cells; induction ps as [|j ps IH]; intros cells Hl Hi H.
  - destruct H as [[]|H]. exact H.
  - cbn [fold_left]. apply IH; [now rewrite length_set_nth|exact Hi|].
    destruct (Nat.eq_dec i j) as [<-|N].
    + right. unfold get_cell at 1. apply nth_set_nth_same. lia.
    + destruct H as [[E|H]|H]; [congruence|now left|].
      right. unfold get_cell at 1. rewrite nth_set_nth_other by exact N. exact H.
Qed.

Lemma mapM_length {A B : Type} (f : A -> result B) (l : list A) (vs : list B) :
  mapM f l = Ok vs -> length vs = length l.
Proof.
  intros H. apply mapM_ok_inv in H. symmetry. eapply Forall2_length; eauto.
Qed.

Lemma applymap_on_succeeds (names : list string) (f : cell -> result cell)
    (df : DataFrame) (ps : list nat) :
  locate names (columns df) = Ok ps ->
  (forall i r, In i ps -> In r (rows df) ->
               exists v, f (get_cell i (snd r)) = Ok v) ->
  exists df', applymap_on names f df = Ok df'.
Proof.
  intros Hps Hok. unfold applymap_on. rewrite Hps. cbn [bind].
  destruct (mapM (fun i => mapM f (column i df)) ps) as [vals|x] eqn:E;
    [cbn [bind]; eauto|].
  exfalso. apply mapM_raise_inv, Exists_exists in E as [i [Hi E]].
  apply mapM_raise_inv, Exists_exists in E as [c [Hc E]].
  unfold column in Hc. apply in_map_iff in Hc as [r [<- Hr]].
  destruct (Hok i r Hi Hr) as [v Hv]. congruence.
Qed.

Lemma parsable_to_int (c : cell) : parsable c -> exists v, to_int c = Ok v.
Proof. intros [s [z [-> H]]]. simpl. rewrite H. simpl. eauto. Qed.

(** ** Column names *)

Lemma col_pos_some (name : string) (cols : list string) :
  In name cols -> exists i, col_pos name cols = Some i /\ nth i cols "" = name.
Proof.
  induction cols as [|c cols IH]; intros H; [contradiction|].
  simpl. destruct (String.eqb_spec c name) as [->|N].
  - exists 0%nat. auto.
  - destruct H as [->|H]; [contradiction|].
    destruct (IH H) as [i [Hi Hn]]. rewrite Hi. exists (S i). auto.
Qed.

Lemma col_pos_lt (name : string) (cols : list string) (i : nat) :
  col_pos name cols = Some i -> (i < length cols)%nat.
Proof.
  revert i; induction cols as [|c cols IH]; intros i H; [discriminate|].
  simpl in H. destruct (String.eqb c name).
  - injection H as <-. simpl. lia.
  - destruct (col_pos name cols) as [j|]; [|discriminate].
    injection H as <-. specialize (IH j eq_refl). simpl. lia.
Qed.

Lemma col_pos_none (name : string) (cols : list string) :
  ~ In name cols -> col_pos name cols = None.
Proof.
  induction cols as [|c cols IH]; intros H; [reflexivity|].
  simpl. destruct (String.eqb_spec c name) as [->|_].
  - exfalso. apply H. now left.
  - rewrite IH; [reflexivity|]. intros Hin. apply H. now right.
Qed.

Lemma locate_missing (names cols : list string) :
  Exists (fun n => ~ In n cols) names -> locate names cols = Raise KeyError.
Proof.
  intros H. unfold locate.
  destruct (mapM _ names) as [ps|x] eqn:E.
  - exfalso. apply mapM_ok_inv in E.
    induction E as [|n p names ps Hn _ IH]; [inversion H|].
    inversion H as [? ? Hm|? ? Hm]; subst; [|auto].
    rewrite (col_pos_none _ _ Hm) in Hn. discriminate.
  - apply mapM_raise_inv, Exists_exists in E as [n [_ Hn]].
    destruct (col_pos n cols); [discriminate|congruence].
Qed.

Lemma locate_present (names cols : list string) :
  Forall (fun n => In n cols) names -> exists ps, locate names cols = Ok ps.
Proof.
  intros H. unfold locate.
  exists (map (fun n => match col_pos n cols with Some i => i | None => O end) names).
  apply mapM_map. intros n Hn. rewrite Forall_forall in H.
  destruct (col_pos_some n cols (H n Hn)) as [i [Hi _]]. now rewrite Hi.
Qed.

Lemma filter_nil {X : Type} (P : X -> bool) (l : list X) :
  (forall x, In x l -> P x = false) -> filter P l = [].
Proof.
  induction l as [|x l IH]; intros H; [reflexivity|].
  simpl. rewrite (H x (or_introl eq_refl)). apply IH. intros; apply H. now right.
Qed.

(** ** Row labels *)

Lemma map_fst_combine {X Y : Type} (l1 : list X) (l2 : list Y) :
  length l1 = length l2 -> map fst (combine l1 l2) = l1.
Proof.
  revert l2; induction l1 as [|x l1 IH]; intros [|y l2] H; try discriminate;
    [reflexivity|].
  simpl. f_equal. apply IH. now injection H.
Qed.

Lemma read_csv_labels (e : RawExtract) : NoDup (labels (read_csv e)).
Proof.
  unfold labels, read_csv. cbn [rows].
  rewrite map_fst_combine by now rewrite length_map, length_seq.
  apply Finite.Injective_map_NoDup; [|apply seq_NoDup].
  intros x y. apply Nat2Z.inj.
Qed.

Lemma NoDup_labels_filter (P : row -> bool) (rs : list row) :
  NoDup (map fst rs) -> NoDup (map fst (filter P rs)).
Proof.
  induction rs as [|r rs IH]; intros H; [constructor|].
  inversion H as [|? ? Hn Hd]; subst. simpl.
  destruct (P r); [|now apply IH].
  simpl. constructor; [|now apply IH].
  intros Hin. apply Hn. apply in_map_iff in Hin as [r' [E Hr']].
  apply filter_In in Hr' as [Hr' _]. rewrite <- E. now apply in_map.
Qed.

Lemma NoDup_labels_eq (rs : list row) (r r' : row) :
  NoDup (map fst rs) -> In r rs -> In r' rs -> fst r = fst r' -> r = r'.
Proof.
  induction rs as [|r0 rs IH]; intros H Hr Hr' E; [contradiction|].
  inversion H as [|? ? Hn Hd]; subst.
  destruct Hr as [->|Hr], Hr' as [->|Hr']; auto.
  - exfalso. apply Hn. rewrite E. now apply in_map.
  - exfalso. apply Hn. rewrite <- E. now apply in_map.
Qed.

Lemma filter_split_length {X : Type} (P : X -> bool) (l : list X) :
  (length (filter (fun x => negb (P x)) l) + length (filter P l) = length l)%nat.
Proof.
  induction l as [|x l IH]; [reflexivity|].
  simpl. destruct (P x); simpl; lia.
Qed.

Lemma filter_out_label (s : Z) (rs : list row) :
  NoDup (map fst rs) -> In s (map fst rs) ->
  (length (filter (fun r : row => negb (fst r =? s)%Z) rs) + 1 = length rs)%nat.
Proof.
  induction rs as [|r rs IH]; intros H Hin; [contradiction|].
  inversion H as [|? ? Hn Hd]; subst. simpl.
  destruct (Z.eqb_spec (fst r) s) as [E|N]; simpl.
  - rewrite E in Hn.
    replace (filter (fun r0 : row => negb (fst r0 =? s)) rs) with rs; [lia|].
    clear - Hn. induction rs as [|r0 rs IH]; [reflexivity|].
    simpl in *. destruct (Z.eqb_spec (fst r0) s) as [E|_]; [tauto|].
    simpl. f_equal. apply IH. tauto.
  - destruct Hin as [E|Hin]; [contradiction|].
    specialize (IH Hd Hin). lia.
Qed.

Lemma is_unique_NoDup (l : list Z) : NoDup l -> is_unique l = true.
Proof.
  induction 1 as [|x l Hx _ IH]; [reflexivity|].
  simpl. rewrite IH, andb_true_r. apply negb_true_iff.
  destruct (existsb (Z.eqb x) l) eqn:E; [|reflexivity].
  apply existsb_exists in E as [y [Hy E]]. apply Z.eqb_eq in E. now subst.
Qed.

(** Dropping a label from an index without repeated labels. *)
Lemma drop_row_unique (label : Z) (df : DataFrame) :
  NoDup (map fst (rows df)) ->
  drop_row label df =
    if existsb (fun r : row => fst r =? label) (rows df)
    then Ok (mkDF (columns df) (filter (fun r : row => negb (fst r =? label)) (rows df)))
    else Raise ValueError.
Proof. intros H. unfold drop_row. now rewrite (is_unique_NoDup _ H). Qed.

(** ** The three normalizations *)

Lemma setitem_const_new (name : string) (c : cell) (df : DataFrame) :
  col_pos name (columns df) = None ->
  setitem_const name c df
  = mkDF (columns df ++ [name]) (map (fun r : row => (fst r, snd r ++ [c])) (rows df)).
Proof.
  intros H. unfold setitem_const, setitem. rewrite H. f_equal.
  induction (rows df) as [|r rs IH]; [reflexivity|].
  simpl. now rewrite IH.
Qed.

Lemma width_cells4 (df : DataFrame) (r : row) :
  width 4 df -> In r (rows df) -> exists a b c d, snd r = [a; b; c; d].
Proof.
  intros W Hr. unfold width in W. rewrite Forall_forall in W.
  specialize (W r Hr). destruct (snd r) as [|a [|b [|c [|d [|x l]]]]]; try discriminate.
  eauto.
Qed.

Lemma width_cells3 (df : DataFrame) (r : row) :
  width 3 df -> In r (rows df) -> exists a b c, snd r = [a; b; c].
Proof.
  intros W Hr. unfold width in W. rewrite Forall_forall in W.
  specialize (W r Hr). destruct (snd r) as [|a [|b [|c [|x l]]]]; try discriminate.
  eauto.
Qed.

Lemma select04_columns (e : RawExtract) : columns (select04 e) = columns_to_keep04.
Proof. reflexivity. Qed.

Lemma select04_width (e : RawExtract) : width 4 (select04 e).
Proof.
  unfold width, select04, dropna, dropna_rows, ix_columns. cbn [fst rows].
  apply Forall_forall. intros r Hr. apply filter_In in Hr as [Hr _].
  apply in_map_iff in Hr as [r0 [<- _]]. reflexivity.
Qed.

Lemma select04_nonnull (e : RawExtract) (r : row) :
  In r (rows (select04 e)) -> existsb isnull (snd r) = false.
Proof.
  unfold select04, dropna, dropna_rows. cbn [fst rows]. intros Hr.
  apply filter_In in Hr as [_ Hr]. now apply negb_true_iff.
Qed.

(** *** The first coercion attempt *)

Lemma fold_set_column_nil (ivs : list (nat * list cell)) :
  fold_left (fun rs (iv : nat * list cell) => set_column (fst iv) (snd iv) rs) ivs [] = [].
Proof.
  induction ivs as [|iv ivs IH]; [reflexivity|].
  cbn [fold_left]. unfold set_column at 2. now rewrite combine_nil.
Qed.

(** On a frame without rows [applymap] has nothing to map. *)
Lemma applymap_on_no_rows (names : list string) (f : cell -> result cell)
    (df : DataFrame) (ps : list nat) :
  locate names (columns df) = Ok ps -> rows df = [] ->
  applymap_on names f df = Ok df.
Proof.
  intros Hps Hr. unfold applymap_on. rewrite Hps. cbn [bind].
  unfold column. rewrite Hr. cbn [map mapM].
  rewrite (mapM_map _ (fun _ : nat => @nil cell)) by reflexivity.
  cbn [bind]. rewrite fold_set_column_nil.
  destruct df as [cs rs]. cbn [rows] in Hr. now subst.
Qed.

Lemma plain_int_ok (c v : cell) :
  plain_int c = Ok v -> v = plain_int_val c /\ is_int v = true.
Proof.
  unfold plain_int_val. intros H. rewrite H. split; [reflexivity|].
  destruct c as [s|z|f]; simpl in H.
  - destruct (int_of_str s); [|discriminate]. now injection H as <-.
  - now injection H as <-.
  - destruct (int_of_float f); [|discriminate]. now injection H as <-.
Qed.

(** The first attempt either maps every count of the selected rows or stops
    at one of them. *)
Lemma plain_int_cases (rs : list row) :
  Forall (fun r : row => (exists v, plain_int (get_cell 2 (snd r)) = Ok v)
                         /\ (exists v, plain_int (get_cell 3 (snd r)) = Ok v)) rs
  \/ Exists (fun r : row => (exists x, plain_int (get_cell 2 (snd r)) = Raise x)
                            \/ (exists x, plain_int (get_cell 3 (snd r)) = Raise x)) rs.
Proof.
  induction rs as [|r rs IH]; [left; constructor|].
  destruct IH as [IH|IH]; [|right; now right].
  destruct (plain_int (get_cell 2 (snd r))) eqn:E2; [|right; left; left; eauto].
  destruct (plain_int (get_cell 3 (snd r))) eqn:E3; [|right; left; right; eauto].
  left. constructor; [|exact IH]. rewrite E2, E3. split; eauto.
Qed.

(** When the first attempt raises, as on the file of the notebook, nothing
    is assigned and the second coercion cell works on the selected rows. *)
Lemma first_attempt_raises (e : RawExtract) :
  Exists (fun r : row => (exists x, plain_int (get_cell 2 (snd r)) = Raise x)
                         \/ (exists x, plain_int (get_cell 3 (snd r)) = Raise x))
         (rows (select04 e)) ->
  clean04 e = applymap_on cols04 to_int (select04 e).
Proof.
  intros H. unfold clean04, attempt.
  destruct (applymap_on_raises cols04 plain_int (select04 e) [2%nat; 3%nat] eq_refl)
    as [x [Hx _]].
  { eapply Exists_impl; [|exact H]. intros r [Hr|Hr].
    - now left.
    - right. now left. }
  now rewrite Hx.
Qed.

(** When the first attempt succeeds on at least one row, the counts are
    integers by the time the second coercion cell runs, and that cell raises
    [AttributeError] at the first count. *)
Lemma first_attempt_passes (e : RawExtract) :
  rows (select04 e) <> [] ->
  Forall (fun r : row => (exists v, plain_int (get_cell 2 (snd r)) = Ok v)
                         /\ (exists v, plain_int (get_cell 3 (snd r)) = Ok v))
         (rows (select04 e)) ->
  clean04 e = Raise AttributeError.
Proof.
  intros Hne H. rewrite Forall_forall in H.
  destruct (applymap_on_succeeds cols04 plain_int (select04 e) [2%nat; 3%nat] eq_refl)
    as [d Hd].
  { intros i r [<-|[<-|[]]] Hr; now apply H. }
  unfold clean04, attempt. rewrite Hd.
  apply (applymap_on_ok _ _ plain_int_val) in Hd;
    [|intros c v Hc; now apply plain_int_ok in Hc].
  destruct Hd as [ps [Hps [Hc [Hr Hok]]]].
  change (locate cols04 (columns (select04 e))) with (Ok [2%nat; 3%nat]) in Hps.
  injection Hps as <-.
  pose proof (select04_width e) as W.
  destruct (rows (select04 e)) as [|r0 rs] eqn:Er; [congruence|].
  assert (E : exists a b c d', snd r0 = [a; b; c; d']).
  { unfold width in W. rewrite Er in W. inversion W as [|? ? L _]; subst.
    destruct (snd r0) as [|a [|b [|c [|d' [|y l]]]]]; try discriminate. eauto. }
  destruct E as [a [b [c [d' E]]]].
  specialize (Hok 2%nat r0 (or_introl eq_refl) (or_introl eq_refl)).
  apply plain_int_ok in Hok as [_ Hint].
  unfold applymap_on. rewrite Hc.
  change (locate cols04 (columns (select04 e))) with (Ok [2%nat; 3%nat]).
  cbn [bind mapM]. unfold column at 1. rewrite Hr.
  cbn [map snd fst fold_left mapM]. rewrite E in Hint |- *.
  cbn [set_nth get_cell nth] in Hint |- *.
  destruct (plain_int_val c); try discriminate. reflexivity.
Qed.

(** The two ways the coercion cells of the 04-05 extract can go. *)
Lemma clean04_cases (e : RawExtract) :
  clean04 e = applymap_on cols04 to_int (select04 e)
  \/ (rows (select04 e) <> [] /\ clean04 e = Raise AttributeError).
Proof.
  destruct (plain_int_cases (rows (select04 e))) as [P|F].
  - destruct (rows (select04 e)) as [|r0 rs] eqn:Er.
    + left. unfold clean04, attempt.
      now rewrite !(applymap_on_no_rows cols04 _ (select04 e) [2%nat; 3%nat] eq_refl Er).
    + right. split; [discriminate|].
      apply first_attempt_passes; rewrite Er; [discriminate|exact P].
  - left. now apply first_attempt_raises.
Qed.

(** What the 04-05 normalization returns when it returns. *)
Lemma normalize04_ok (e : RawExtract) (df : DataFrame) :
  normalize04 e = Ok df ->
  columns df = columns_we_want
  /\ rows df = map out04 (rows (select04 e))
  /\ forall r, In r (rows (select04 e)) ->
       to_int (get_cell 2 (snd r)) = Ok (to_int_val (get_cell 2 (snd r)))
       /\ to_int (get_cell 3 (snd r)) = Ok (to_int_val (get_cell 3 (snd r))).
Proof.
  unfold normalize04. intros H.
  destruct (clean04_cases e) as [E|[_ E]]; rewrite E in H; [|discriminate].
  destruct (applymap_on cols04 to_int (select04 e)) as [d|] eqn:Ha; [|discriminate].
  cbn [bind] in H.
  apply (applymap_on_ok _ _ to_int_val) in Ha; [|intros c v Hc; now apply to_int_ok in Hc].
  destruct Ha as [ps [Hps [Hc [Hr Hok]]]].
  change (locate cols04 (columns (select04 e))) with (Ok [2%nat; 3%nat]) in Hps.
  injection Hps as <-.
  destruct d as [cs rs]. cbn [columns rows] in Hc, Hr. subst cs.
  rewrite select04_columns in H.
  unfold finish04, drop_column in H.
  change (nodupb (columns {| columns := columns_to_keep04; rows := rs |}))
    with true in H.
  change (col_pos "School" (columns {| columns := columns_to_keep04; rows := rs |}))
    with (Some 1%nat) in H.
  cbn [bind columns rows] in H.
  rewrite setitem_const_new in H by reflexivity.
  unfold set_columns in H. cbn [columns rows] in H.
  change (length columns_we_want =? length (remove_nth 1 columns_to_keep04 ++ ["year"]))%nat
    with true in H.
  injection H as <-. cbn [columns rows].
  split; [reflexivity|]. split.
  - rewrite Hr, !map_map. apply map_ext_in. intros r Hin.
    destruct (width_cells4 _ r (select04_width e) Hin) as [a [b [c [d0 E0]]]].
    unfold out04. cbn [fst snd fold_left]. rewrite E0. reflexivity.
  - intros r Hin. split; apply Hok; simpl; auto.
Qed.

Lemma select14_ok (e : RawExtract) (d : DataFrame) :
  select14 e = Ok d ->
  columns d = new_column_names
  /\ rows d = filter (fun r : row => negb (existsb isnull (snd r)))
                (map (take_positions [0%nat; 3%nat; 8%nat])
                   (filter (fun r : row => 2 <=? fst r) (rows (read_csv e))))
  /\ width 3 d.
Proof.
  unfold select14, ix_rows_from. intros H.
  destruct (forallb _ _); [|discriminate].
  cbn [bind dropna fst dropna_rows columns rows] in H.
  unfold set_columns in H. cbn [columns rows map length Nat.eqb] in H.
  injection H as <-. cbn [columns rows].
  split; [reflexivity|]. split; [reflexivity|].
  apply Forall_forall. intros r Hr. apply filter_In in Hr as [Hr _].
  apply in_map_iff in Hr as [r0 [<- _]]. reflexivity.
Qed.

Lemma select14_unique (e : RawExtract) (d : DataFrame) :
  select14 e = Ok d -> NoDup (map fst (rows d)).
Proof.
  intros H. destruct (select14_ok e d H) as [_ [Hr _]]. rewrite Hr.
  apply NoDup_labels_filter. rewrite map_map.
  apply (NoDup_labels_filter _ _ (read_csv_labels e)).
Qed.

Lemma filter_map_labels (h : row -> row) (P : Z -> bool) (rs : list row) :
  (forall r, fst (h r) = fst r) ->
  filter (fun r : row => P (fst r)) (map h rs)
  = map h (filter (fun r : row => P (fst r)) rs).
Proof.
  intros Hh. induction rs as [|r rs IH]; [reflexivity|].
  cbn [map filter]. rewrite Hh, IH. now destruct (P (fst r)).
Qed.

(** What the 14-15 normalization returns when it returns. *)
Lemma normalize14_ok (e : RawExtract) (df : DataFrame) :
  normalize14 e = Ok df ->
  exists d,
    select14 e = Ok d
    /\ columns df = master_columns
    /\ rows df = map out14 (filter (fun r : row => negb (fst r =? sentinel)) (rows d))
    /\ In sentinel (labels d)
    /\ forall r, In r (rows d) ->
         to_int (get_cell 1 (snd r)) = Ok (to_int_val (get_cell 1 (snd r)))
         /\ to_int (get_cell 2 (snd r)) = Ok (to_int_val (get_cell 2 (snd r))).
Proof.
  unfold normalize14, clean14. intros H.
  destruct (select14 e) as [d|] eqn:Hs; [|discriminate]. cbn [bind] in H.
  destruct (select14_ok e d Hs) as [Hcd [_ Hw]].
  destruct (applymap_on cols14 to_int d) as [d'|] eqn:Ha; [|discriminate].
  cbn [bind] in H.
  apply (applymap_on_ok _ _ to_int_val) in Ha; [|intros c v Hc; now apply to_int_ok in Hc].
  destruct Ha as [ps [Hps [Hc [Hr Hok]]]].
  rewrite Hcd in Hps.
  change (locate cols14 new_column_names) with (Ok [1%nat; 2%nat]) in Hps.
  injection Hps as <-.
  destruct d' as [cs rs]. cbn [columns rows] in Hc, Hr. rewrite Hcd in Hc. subst cs.
  assert (Hl : map fst rs = map fst (rows d)).
  { rewrite Hr, map_map. reflexivity. }
  rewrite drop_row_unique in H
    by (cbn [rows]; rewrite Hl; exact (select14_unique e d Hs)).
  cbn [columns rows] in H.
  destruct (existsb (fun r : row => fst r =? sentinel) rs) eqn:Hex; [|discriminate].
  cbn [bind] in H. unfold finish14 in H.
  rewrite setitem_const_new in H by reflexivity.
  unfold set_columns in H. cbn [columns rows] in H.
  change (length master_columns =? length (new_column_names ++ ["Year"]))%nat
    with true in H.
  injection H as <-. cbn [columns rows].
  exists d. split; [reflexivity|]. split; [reflexivity|].
  split; [|split].
  - rewrite Hr.
    rewrite (filter_map_labels _ (fun l => negb (l =? sentinel))) by reflexivity.
    rewrite map_map. apply map_ext_in. intros r Hin.
    apply filter_In in Hin as [Hin _].
    destruct (width_cells3 _ r Hw Hin) as [a [b [c E]]].
    unfold out14. cbn [fst snd fold_left]. rewrite E. reflexivity.
  - unfold labels. rewrite <- Hl.
    apply existsb_exists in Hex as [r [Hin Hlab]].
    apply Z.eqb_eq in Hlab. rewrite <- Hlab. now apply in_map.
  - intros r Hin. split; apply Hok; simpl; auto.
Qed.

Lemma labels_map_filter (h : row -> row) (P : row -> bool) (rs : list row) (l : Z) :
  (forall r, fst (h r) = fst r) ->
  In l (map fst (map h (filter P rs))) ->
  exists r, In r rs /\ fst r = l /\ P r = true.
Proof.
  intros Hh H. rewrite map_map in H. apply in_map_iff in H as [r [E Hr]].
  apply filter_In in Hr as [Hr HP]. rewrite Hh in E. eauto.
Qed.

Lemma labels_filter (Q : Z -> bool) (rs : list row) :
  map fst (filter (fun r : row => Q (fst r)) rs) = filter Q (map fst rs).
Proof.
  induction rs as [|r rs IH]; [reflexivity|].
  simpl. destruct (Q (fst r)); simpl; now rewrite IH.
Qed.

Lemma to_int_parsable (c : cell) : to_int c = Ok (to_int_val c) -> parsable c.
Proof.
  destruct c as [s| |]; try discriminate. cbn [to_int]. intros H.
  destruct (int_of_str (replace "," "" s)) as [z|] eqn:E; [|discriminate].
  exists s, z. auto.
Qed.

(** C7, as stated, fails: what the 14-15 mapping denies is a line of the
    file, not an identifier, and not whatever the other fields hold.  With
    the line of the totals on line 4 and a school on line 4876, the totals
    are kept and the school is gone; and when line 4876 lacks a count, no row
    is excluded at all: the normalization raises. *)
Lemma sentinel_is_a_line_number :
  normalize14 sample14_moved
  = Ok (mkDF master_columns
          [(2, [Str "010010010002001"; Int 1010; Int 990; Int 2014]);
           (3, [Str "010010020002001"; Int 25; Int 25; Int 2014]);
           (4, [Str "Total"; Int 2000000; Int 7; Int 2014])])
  /\ normalize14 sample14_blank = Raise ValueError.
Proof. split; vm_compute; reflexivity. Qed.

(** C7, amended: the 14-15 mapping excludes the row of line label 4876,
    whatever its identifier.  When the normalization returns a table, the
    row of that label is among the selected rows, both counts of every
    selected row, this one included, read as integers, and the table holds
    the other selected rows, all of them and in order, so a row with any
    identifier on another line is kept.  When no selected row has the label
    4876, because the file is shorter or the line lacks a field, or when a
    count of that row does not read as an integer, the normalization raises
    and returns no table. *)
Theorem sentinel_row_excluded (e : RawExtract) (d : DataFrame) :
  select14 e = Ok d ->
  (forall df, normalize14 e = Ok df ->
     In sentinel (labels d)
     /\ ~ In sentinel (labels df)
     /\ labels df = filter (fun l => negb (l =? sentinel)) (labels d)
     /\ rows df = map out14 (filter (fun r : row => negb (fst r =? sentinel)) (rows d))
     /\ forall r, In r (rows d) ->
          parsable (get_cell 1 (snd r)) /\ parsable (get_cell 2 (snd r)))
  /\ (~ In sentinel (labels d) -> exists x, normalize14 e = Raise x)
  /\ (forall r, In r (rows d) -> fst r = sentinel ->
        unparsable (get_cell 1 (snd r)) \/ unparsable (get_cell 2 (snd r)) ->
        exists x, normalize14 e = Raise x).
Proof.
  intros Hs.
  assert (A : forall df, normalize14 e = Ok df ->
     In sentinel (labels d)
     /\ ~ In sentinel (labels df)
     /\ labels df = filter (fun l => negb (l =? sentinel)) (labels d)
     /\ rows df = map out14 (filter (fun r : row => negb (fst r =? sentinel)) (rows d))
     /\ forall r, In r (rows d) ->
          parsable (get_cell 1 (snd r)) /\ parsable (get_cell 2 (snd r))).
  { intros df H. apply normalize14_ok in H as [d0 [Hs0 [_ [Hr [Hin Hok]]]]].
    assert (d0 = d) by congruence. subst d0.
    assert (L : labels df = filter (fun l => negb (l =? sentinel)) (labels d)).
    { unfold labels. rewrite Hr, map_map. cbn [out14 fst].
      apply (labels_filter (fun l => negb (l =? sentinel))). }
    split; [exact Hin|]. split; [|split; [exact L|split; [exact Hr|]]].
    - rewrite L. intros Hl. apply filter_In in Hl as [_ Hl].
      rewrite Z.eqb_refl in Hl. discriminate.
    - intros r Hr0. destruct (Hok r Hr0) as [H1 H2].
      split; now apply to_int_parsable. }
  split; [exact A|]. split.
  - intros Hn. destruct (normalize14 e) as [df|x] eqn:E; [|eauto].
    destruct (A df eq_refl) as [Hin _]. contradiction.
  - intros r Hr _ Hbad. destruct (normalize14 e) as [df|x] eqn:E; [|eauto].
    destruct (A df eq_refl) as [_ [_ [_ [_ Hp]]]].
    destruct (Hp r Hr) as [[s1 [z1 [E1 P1]]] [s2 [z2 [E2 P2]]]].
    destruct Hbad as [[s [Es Hb]]|[s [Es Hb]]]; congruence.
Qed.

Lemma sentinel_row_excluded_witness :
  (exists d, select14 sample14 = Ok d
     /\ In sentinel (labels d)
     /\ ~ In sentinel (labels sample14_out)
     /\ labels sample14_out = filter (fun l => negb (l =? sentinel)) (labels d))
  /\ exists x, normalize14 sample14_blank = Raise x.
Proof.
  split.
  - eexists. split; [vm_compute; reflexivity|].
    destruct (proj1 (sentinel_row_excluded sample14 _ ltac:(vm_compute; reflexivity))
                sample14_out ltac:(vm_compute; reflexivity))
      as [H1 [H2 [H3 _]]].
    auto.
  - apply (proj1 (proj2 (sentinel_row_excluded sample14_blank
             (mkDF new_column_names
                [(2, [Str "010010010002001"; Str "1,010"; Str "990"]);
                 (3, [Str "010010020002001"; Str "25"; Str "25"])])
             ltac:(vm_compute; reflexivity)))).
    cbn. unfold sentinel. intuition discriminate.
Defined.

(** C5, as stated, fails twice: the coercion accepts a numeral with a minus
    sign, so a normalized 04-05 row can hold a negative count; and the 09-10
    counts are never coerced, so they stay the floats that were read. *)
Lemma counts_negative_or_float :
  normalize04 sample04_neg
  = Ok (mkDF columns_we_want
          [(1, [Str "0100100"; Int 1234; Int 1200; Int 2004]);
           (2, [Str "0100100"; Int (-5); Int 3; Int 2004])])
  /\ normalize09 sample09 = Ok sample09_out.
Proof. split; reflexivity. Qed.

Lemma normalize09_ok (e : RawExtract) (df : DataFrame) :
  normalize09 e = Ok df ->
  exists ps,
    locate columns_to_keep09 (header e) = Ok ps
    /\ rows df = map (fun r : row => (fst r, snd r ++ [Int 2009]))
                   (filter (fun r : row => negb (existsb isnull (snd r)))
                      (map (take_positions ps) (rows (read_csv e)))).
Proof.
  unfold normalize09, clean09, getitem_columns. intros H.
  change (columns (read_csv e)) with (header e) in H.
  destruct (locate columns_to_keep09 (header e)) as [ps|]; [|discriminate].
  cbn [bind dropna fst] in H. unfold finish09 in H.
  rewrite setitem_const_new in H by reflexivity.
  unfold set_columns in H. cbn [columns rows dropna_rows] in H.
  change (length master_columns =? length (columns_to_keep09 ++ ["Year"]))%nat
    with true in H.
  injection H as <-. exists ps. split; reflexivity.
Qed.

(** C5, amended: every row that the 04-05 or the 14-15 normalization returns
    has integer enrolled and protected fields (of either sign); every row
    that the 09-10 normalization returns has the enrolled and protected cells
    of its line of the extract, as they were read. *)
Theorem coerced_counts_are_integers (e : RawExtract) (df : DataFrame) :
  (normalize04 e = Ok df \/ normalize14 e = Ok df ->
   Forall (fun r : row =>
             exists n p, get_cell 1 (snd r) = Int n /\ get_cell 2 (snd r) = Int p)
          (rows df))
  /\ (normalize09 e = Ok df ->
      Forall (fun r : row =>
                exists r0, In r0 (rows (read_csv e)) /\ fst r0 = fst r
                  /\ get_cell 1 (snd r) = cell_at (header e) "Enrollment" (snd r0)
                  /\ get_cell 2 (snd r) = cell_at (header e) "PolioProt" (snd r0))
             (rows df)).
Proof.
  assert (I : forall c, to_int c = Ok (to_int_val c) -> exists z, to_int_val c = Int z).
  { intros c H. apply to_int_ok in H as [_ [H _]].
    destruct (to_int_val c); try discriminate. eauto. }
  split.
  - intros [H|H]; apply Forall_forall; intros r Hr.
    + apply normalize04_ok in H as [_ [Hrows Hok]].
      rewrite Hrows in Hr. apply in_map_iff in Hr as [r0 [<- Hr0]].
      destruct (Hok r0 Hr0) as [H2 H3].
      destruct (I _ H2) as [n En], (I _ H3) as [p Ep].
      exists n, p. unfold out04, get_cell. cbn [snd nth]. auto.
    + apply normalize14_ok in H as [d [_ [_ [Hrows [_ Hok]]]]].
      rewrite Hrows in Hr. apply in_map_iff in Hr as [r0 [<- Hr0]].
      apply filter_In in Hr0 as [Hr0 _].
      destruct (Hok r0 Hr0) as [H1 H2].
      destruct (I _ H1) as [n En], (I _ H2) as [p Ep].
      exists n, p. unfold out14, get_cell. cbn [snd nth]. auto.
  - intros H. apply normalize09_ok in H as [ps [Hps Hrows]].
    unfold locate in Hps. cbn [columns_to_keep09 mapM] in Hps.
    destruct (col_pos "RCDTS" (header e)) as [i0|]; [|discriminate].
    destruct (col_pos "Enrollment" (header e)) as [i1|] eqn:E1; [|discriminate].
    destruct (col_pos "PolioProt" (header e)) as [i2|] eqn:E2; [|discriminate].
    cbn [bind] in Hps. injection Hps as <-.
    apply Forall_forall. intros r Hr. rewrite Hrows in Hr.
    apply in_map_iff in Hr as [r1 [<- Hr1]].
    apply filter_In in Hr1 as [Hr1 _].
    apply in_map_iff in Hr1 as [r0 [<- Hr0]].
    exists r0. unfold cell_at. rewrite E1, E2.
    split; [exact Hr0|]. repeat split.
Qed.

Lemma coerced_counts_are_integers_witness :
  Forall (fun r : row =>
            exists n p, get_cell 1 (snd r) = Int n /\ get_cell 2 (snd r) = Int p)
         (rows sample04_out)
  /\ Forall (fun r : row =>
               exists n p, get_cell 1 (snd r) = Int n /\ get_cell 2 (snd r) = Int p)
            (rows sample14_out)
  /\ Forall (fun r : row =>
               exists r0, In r0 (rows (read_csv sample09)) /\ fst r0 = fst r
                 /\ get_cell 1 (snd r) = cell_at (header sample09) "Enrollment" (snd r0)
                 /\ get_cell 2 (snd r) = cell_at (header sample09) "PolioProt" (snd r0))
            (rows sample09_out).
Proof.
  split; [|split].
  - apply (proj1 (coerced_counts_are_integers sample04 sample04_out)).
    left. reflexivity.
  - apply (proj1 (coerced_counts_are_integers sample14 sample14_out)).
    right. vm_compute. reflexivity.
  - apply (proj2 (coerced_counts_are_integers sample09 sample09_out)).
    reflexivity.
Defined.

(** C3, as stated, fails: one count that is not a numeral makes the whole
    normalization raise; the line with the valid counts is not returned. *)
Lemma bad_count_aborts_extract :
  normalize04 sample04_bad = Raise ValueError
  /\ forall df, normalize04 sample04_bad <> Ok df.
Proof. split; [reflexivity|discriminate]. Qed.

(** C3, amended: when a count of some selected row is a string that cannot
    be read as a base-10 integer after its separators are removed, the
    normalization of the extract raises and returns no row at all; the
    exception is a [ValueError] when all counts are strings. *)
Theorem bad_count_raises (e : RawExtract) :
  (Exists (fun r : row => unparsable (get_cell 2 (snd r))
                          \/ unparsable (get_cell 3 (snd r)))
          (rows (select04 e)) ->
   exists x, normalize04 e = Raise x
     /\ (Forall (fun r : row => is_str (get_cell 2 (snd r)) = true
                                /\ is_str (get_cell 3 (snd r)) = true)
                (rows (select04 e)) -> x = ValueError))
  /\ (forall d, select14 e = Ok d ->
      Exists (fun r : row => unparsable (get_cell 1 (snd r))
                             \/ unparsable (get_cell 2 (snd r)))
             (rows d) ->
      exists x, normalize14 e = Raise x
        /\ (Forall (fun r : row => is_str (get_cell 1 (snd r)) = true
                                   /\ is_str (get_cell 2 (snd r)) = true)
                   (rows d) -> x = ValueError)).
Proof.
  split.
  - intros Hbad.
    assert (Hc : clean04 e = applymap_on cols04 to_int (select04 e)).
    { apply first_attempt_raises. eapply Exists_impl; [|exact Hbad].
      intros r [[s [Es Hs]]|[s [Es Hs]]]; [left|right]; rewrite Es; simpl;
        rewrite (plain_refuses s _ Hs); simpl; eauto. }
    destruct (applymap_on_raises cols04 to_int (select04 e) [2%nat; 3%nat] eq_refl)
      as [x [Hx Hwho]].
    { eapply Exists_impl; [|exact Hbad]. intros r [H|H].
      - left. eauto using unparsable_raises.
      - right. left. eauto using unparsable_raises. }
    exists x. split.
    + unfold normalize04. rewrite Hc. now rewrite Hx.
    + intros Hstr. apply Exists_exists in Hwho as [r [Hr Hi]].
      rewrite Forall_forall in Hstr. destruct (Hstr r Hr) as [S2 S3].
      inversion Hi as [? ? H|? ? Hi']; subst.
      * now apply to_int_raise in H as [_ H]; apply H.
      * inversion Hi' as [? ? H|? ? Hi'']; subst; [|inversion Hi''].
        now apply to_int_raise in H as [_ H]; apply H.
  - intros d Hd Hbad.
    destruct (select14_ok e d Hd) as [Hc _].
    destruct (applymap_on_raises cols14 to_int d [1%nat; 2%nat]) as [x [Hx Hwho]].
    { now rewrite Hc. }
    { eapply Exists_impl; [|exact Hbad]. intros r [H|H].
      - left. eauto using unparsable_raises.
      - right. left. eauto using unparsable_raises. }
    exists x. split.
    + unfold normalize14, clean14. rewrite Hd. cbn [bind]. now rewrite Hx.
    + intros Hstr. apply Exists_exists in Hwho as [r [Hr Hi]].
      rewrite Forall_forall in Hstr. destruct (Hstr r Hr) as [S1 S2].
      inversion Hi as [? ? H|? ? Hi']; subst.
      * now apply to_int_raise in H as [_ H]; apply H.
      * inversion Hi' as [? ? H|? ? Hi'']; subst; [|inversion Hi''].
        now apply to_int_raise in H as [_ H]; apply H.
Qed.

Lemma bad_count_raises_witness :
  (exists x, normalize04 sample04_bad = Raise x
     /\ (Forall (fun r : row => is_str (get_cell 2 (snd r)) = true
                                /\ is_str (get_cell 3 (snd r)) = true)
                (rows (select04 sample04_bad)) -> x = ValueError))
  /\ (exists x, normalize14 sample14_bad = Raise x
        /\ (Forall (fun r : row => is_str (get_cell 1 (snd r)) = true
                                   /\ is_str (get_cell 2 (snd r)) = true)
                   (rows sample14_bad_selected) -> x = ValueError)).
Proof.
  split.
  - apply (proj1 (bad_count_raises sample04_bad)).
    apply Exists_cons_tl, Exists_cons_hd. left.
    exists "5o". split; reflexivity.
  - apply (proj2 (bad_count_raises sample14_bad) sample14_bad_selected).
    + vm_compute. reflexivity.
    + apply Exists_cons_tl, Exists_cons_hd. right.
      exists "2S". split; reflexivity.
Defined.

Lemma projected04_labels (e : RawExtract) : NoDup (labels (projected04 e)).
Proof.
  unfold projected04, ix_columns, labels. cbn [rows].
  rewrite map_map. apply read_csv_labels.
Qed.

Lemma projected14_labels (e : RawExtract) (d : DataFrame) :
  projected14 e = Ok d -> NoDup (labels d).
Proof.
  unfold projected14, ix_rows_from, labels.
  destruct (forallb _ _); [|discriminate]. intros [= <-]. cbn [rows].
  rewrite map_map. apply (NoDup_labels_filter _ _ (read_csv_labels e)).
Qed.

Lemma blank_not_kept (d : DataFrame) (r : row) :
  NoDup (labels d) -> In r (blank_rows d) ->
  ~ In (fst r) (labels (dropna_rows d)).
Proof.
  intros Hd Hr Hin. unfold blank_rows in Hr. apply filter_In in Hr as [Hr Hb].
  unfold labels, dropna_rows in Hin. cbn [rows] in Hin.
  apply in_map_iff in Hin as [r' [E Hr']]. apply filter_In in Hr' as [Hr' Hn].
  assert (r' = r) by (eapply NoDup_labels_eq; eauto). subst r'.
  rewrite Hb in Hn. discriminate.
Qed.

Lemma normalize09_eq (e : RawExtract) :
  normalize09 e =
    (ps <- locate columns_to_keep09 (header e) ;;
     Ok (mkDF master_columns
           (map (fun r : row => (fst r, snd r ++ [Int 2009]))
              (filter (fun r : row => negb (existsb isnull (snd r)))
                 (map (take_positions ps) (rows (read_csv e))))))).
Proof.
  unfold normalize09, clean09, getitem_columns.
  change (columns (read_csv e)) with (header e).
  destruct (locate columns_to_keep09 (header e)) as [ps|]; [|reflexivity].
  cbn [bind dropna fst]. unfold finish09.
  rewrite setitem_const_new by reflexivity. reflexivity.
Qed.

Lemma projected09_labels (e : RawExtract) (d : DataFrame) :
  projected09 e = Ok d -> NoDup (labels d).
Proof.
  unfold projected09, getitem_columns, labels.
  destruct (locate _ _); [|discriminate]. cbn [bind]. intros [= <-]. cbn [rows].
  rewrite map_map. apply read_csv_labels.
Qed.

(** C8, as stated, fails in its second half: the notebook reports no
    exclusion count.  On an extract with one line that lacks a value, the
    call of [dropna] returns [None] and the normalization returns the frame
    of the remaining rows and nothing else. *)
Lemma dropna_reports_no_count :
  length (blank_rows (projected04 sample04)) = 1%nat
  /\ snd (dropna true (projected04 sample04)) = None
  /\ normalize04 sample04 = Ok sample04_out.
Proof. repeat split. Qed.

(** C8, amended: in each of the three extracts, every row of the selected
    columns that has a missing value is absent from the normalized output,
    and the null filter removes exactly these rows: in the 04-05 and the
    09-10 extract the rows of the output and the rows with a missing value
    add up to the selected rows, in the 14-15 extract one more row, that of
    line 4876, is removed.  The count of the excluded rows is reported
    nowhere; it is this difference of the row numbers. *)
Theorem missing_rows_excluded (e : RawExtract) (df : DataFrame) :
  (normalize04 e = Ok df ->
   (forall r, In r (blank_rows (projected04 e)) -> ~ In (fst r) (labels df))
   /\ (length (rows df) + length (blank_rows (projected04 e))
       = length (rows (projected04 e)))%nat)
  /\ (forall d, projected09 e = Ok d -> normalize09 e = Ok df ->
      (forall r, In r (blank_rows d) -> ~ In (fst r) (labels df))
      /\ (length (rows df) + length (blank_rows d) = length (rows d))%nat)
  /\ (forall d, projected14 e = Ok d -> normalize14 e = Ok df ->
      (forall r, In r (blank_rows d) -> ~ In (fst r) (labels df))
      /\ (length (rows df) + length (blank_rows d) + 1 = length (rows d))%nat).
Proof.
  split; [|split].
  - intros H. apply normalize04_ok in H as [_ [Hrows _]].
    change (select04 e) with (dropna_rows (projected04 e)) in Hrows.
    assert (Hl : labels df = labels (dropna_rows (projected04 e))).
    { unfold labels. rewrite Hrows, map_map. reflexivity. }
    split.
    + intros r Hr. rewrite Hl. apply blank_not_kept; [apply projected04_labels|exact Hr].
    + rewrite Hrows, length_map. unfold dropna_rows, blank_rows. cbn [rows].
      apply (filter_split_length (fun r : row => existsb isnull (snd r))).
  - intros d Hd H. pose proof (projected09_labels e d Hd) as Hnd.
    rewrite normalize09_eq in H.
    unfold projected09, getitem_columns in Hd.
    change (columns (read_csv e)) with (header e) in Hd.
    destruct (locate columns_to_keep09 (header e)) as [ps|]; [|discriminate].
    cbn [bind] in H, Hd. injection H as <-. injection Hd as <-.
    split.
    + intros r Hr Hl. apply (blank_not_kept _ r Hnd Hr).
      unfold labels, dropna_rows in *. cbn [rows] in *.
      rewrite map_map in Hl. exact Hl.
    + cbn [rows]. rewrite length_map. unfold blank_rows. cbn [rows].
      apply (filter_split_length (fun r : row => existsb isnull (snd r))).
  - intros d Hd H. apply normalize14_ok in H as [d' [Hs [_ [Hrows [Hin _]]]]].
    unfold select14 in Hs. fold (projected14 e) in Hs. rewrite Hd in Hs.
    cbn [bind dropna fst] in Hs. unfold set_columns in Hs.
    destruct (_ =? _)%nat; [|discriminate]. injection Hs as <-.
    cbn [rows] in Hrows. unfold labels in Hin. cbn [rows] in Hin.
    pose proof (projected14_labels e d Hd) as Hnd.
    split.
    + intros r Hr Hl. apply (blank_not_kept d r Hnd Hr).
      unfold labels in Hl. rewrite Hrows in Hl.
      apply labels_map_filter in Hl as [r' [Hr' [E _]]]; [|reflexivity].
      rewrite <- E. unfold labels. now apply in_map.
    + rewrite Hrows, length_map.
      pose proof (filter_out_label sentinel (rows (dropna_rows d))
                    (NoDup_labels_filter _ _ Hnd) Hin) as H1.
      pose proof (filter_split_length (fun r : row => existsb isnull (snd r)) (rows d)) as H2.
      unfold blank_rows. unfold dropna_rows in H1 |- *. cbn [rows] in H1 |- *. lia.
Qed.

Lemma missing_rows_excluded_witness :
  ((forall r, In r (blank_rows (projected04 sample04)) ->
              ~ In (fst r) (labels sample04_out))
   /\ (length (rows sample04_out) + length (blank_rows (projected04 sample04))
       = length (rows (projected04 sample04)))%nat)
  /\ (exists d df, projected09 sample09_gaps = Ok d
        /\ normalize09 sample09_gaps = Ok df
        /\ length (blank_rows d) = 2%nat
        /\ (forall r, In r (blank_rows d) -> ~ In (fst r) (labels df))
        /\ (length (rows df) + length (blank_rows d) = length (rows d))%nat)
  /\ ((forall r, In r (blank_rows sample14_projected) ->
                 ~ In (fst r) (labels sample14_out))
      /\ (length (rows sample14_out) + length (blank_rows sample14_projected) + 1
          = length (rows sample14_projected))%nat).
Proof.
  split; [|split].
  - apply (proj1 (missing_rows_excluded sample04 sample04_out)). reflexivity.
  - eexists. eexists. split; [reflexivity|]. split; [reflexivity|].
    split; [reflexivity|].
    apply (proj1 (proj2 (missing_rows_excluded sample09_gaps _)));
      reflexivity.
  - apply (proj2 (proj2 (missing_rows_excluded sample14 sample14_out))
             sample14_projected);
      vm_compute; reflexivity.
Defined.

(** ** The shape of a normalized extract *)


Lemma read_csv_labels_eq (e : RawExtract) :
  labels (read_csv e) = map Z.of_nat (seq 0 (length (body e))).
Proof.
  unfold labels, read_csv. cbn [rows].
  apply map_fst_combine. now rewrite length_map, length_seq.
Qed.

Lemma read_csv_label_range (e : RawExtract) (l : Z) :
  In l (labels (read_csv e)) -> 0 <= l < Z.of_nat (length (body e)).
Proof.
  rewrite read_csv_labels_eq. intros H.
  apply in_map_iff in H as [k [<- Hk]]. apply in_seq in Hk. lia.
Qed.

Lemma select14_labels (e : RawExtract) (d : DataFrame) (l : Z) :
  select14 e = Ok d -> In l (labels d) ->
  In l (labels (read_csv e)) /\ 2 <= l.
Proof.
  intros Hs Hl. destruct (select14_ok e d Hs) as [_ [Hr _]].
  unfold labels in Hl. rewrite Hr in Hl.
  apply in_map_iff in Hl as [r [<- Hin]].
  apply filter_In in Hin as [Hin _].
  apply in_map_iff in Hin as [r0 [<- Hin]].
  apply filter_In in Hin as [Hin Hge]. cbn [take_positions fst].
  split; [now apply in_map|]. now apply Z.leb_le.
Qed.

Lemma rows_of_year_map (y : Z) (h : row -> row) (cols : list string) (rs : list row) :
  (forall r, In r rs -> length (snd (h r)) = 4%nat /\ get_cell 3 (snd (h r)) = Int y) ->
  rows_of_year y (mkDF cols (map h rs)).
Proof.
  intros H. unfold rows_of_year. cbn [rows]. apply Forall_forall.
  intros r Hr. apply in_map_iff in Hr as [r0 [<- Hr0]]. now apply H.
Qed.

Lemma normalize04_shape (e : RawExtract) (df : DataFrame) :
  normalize04 e = Ok df ->
  columns df = columns_we_want /\ rows_of_year 2004 df
  /\ NoDup (labels df) /\ incl (labels df) (labels (read_csv e)).
Proof.
  intros H.
  apply normalize04_ok in H as [Hc [Hr _]].
  destruct df as [cs rs]. cbn [columns rows] in Hc, Hr. subst cs rs.
  split; [reflexivity|]. split; [apply rows_of_year_map; intros r _; split; reflexivity|].
  unfold labels. cbn [rows]. rewrite map_map. cbn [out04 fst].
  change (map (fun x : row => fst x) (rows (select04 e)))
    with (labels (dropna_rows (projected04 e))).
  split.
  - unfold labels, dropna_rows. cbn [rows].
    apply NoDup_labels_filter, projected04_labels.
  - intros l Hl. unfold labels, dropna_rows, projected04, ix_columns in Hl.
    cbn [rows] in Hl. apply in_map_iff in Hl as [r [<- Hin]].
    apply filter_In in Hin as [Hin _].
    apply in_map_iff in Hin as [r0 [<- Hin]].
    unfold labels. apply in_map_iff. exists r0. now split.
Qed.

Lemma normalize09_shape (e : RawExtract) (df : DataFrame) :
  normalize09 e = Ok df ->
  columns df = master_columns /\ rows_of_year 2009 df
  /\ NoDup (labels df) /\ incl (labels df) (labels (read_csv e)).
Proof.
  intros H.
  rewrite normalize09_eq in H.
  destruct (locate columns_to_keep09 (header e)) as [ps|] eqn:Hps; [|discriminate].
  cbn [bind] in H. injection H as <-.
  assert (Lp : length ps = 3%nat) by (apply mapM_length in Hps; exact Hps).
  split; [reflexivity|]. split; [|split].
  - apply rows_of_year_map. intros r Hr.
    apply filter_In in Hr as [Hr _]. apply in_map_iff in Hr as [r0 [<- _]].
    cbn [take_positions snd].
    destruct ps as [|a [|b [|c [|x ps]]]]; try discriminate. split; reflexivity.
  - unfold labels. cbn [rows]. rewrite map_map. cbn [fst].
    apply (NoDup_labels_filter (fun r : row => negb (existsb isnull (snd r)))).
    rewrite map_map. apply read_csv_labels.
  - intros l Hl. unfold labels in Hl. cbn [rows] in Hl.
    apply in_map_iff in Hl as [r [<- Hin]]. apply in_map_iff in Hin as [r1 [<- Hin]].
    apply filter_In in Hin as [Hin _].
    apply in_map_iff in Hin as [r0 [<- Hin]].
    unfold labels. apply in_map_iff. exists r0. now split.
Qed.

Lemma normalize14_shape (e : RawExtract) (df : DataFrame) :
  normalize14 e = Ok df ->
  columns df = master_columns /\ rows_of_year 2014 df
  /\ NoDup (labels df) /\ incl (labels df) (labels (read_csv e)).
Proof.
  intros H.
  apply normalize14_ok in H as [d [Hs [Hc [Hr _]]]].
  destruct df as [cs rs]. cbn [columns rows] in Hc, Hr. subst cs rs.
  split; [reflexivity|]. split; [apply rows_of_year_map; intros r _; split; reflexivity|].
  unfold labels. cbn [rows]. rewrite map_map. cbn [out14 fst].
  pose proof (select14_ok e d Hs) as [_ [Hd _]].
  split.
  - apply NoDup_labels_filter. rewrite Hd.
    apply NoDup_labels_filter. rewrite map_map.
    apply (NoDup_labels_filter _ _ (read_csv_labels e)).
  - intros l Hl. apply in_map_iff in Hl as [r [<- Hin]].
    apply filter_In in Hin as [Hin _].
    apply (select14_labels e d (fst r) Hs). now apply in_map.
Qed.

Lemma rows_of_year_width (y : Z) (df : DataFrame) : rows_of_year y df -> width 4 df.
Proof.
  unfold rows_of_year, width. apply Forall_impl. now intros r [H _].
Qed.

Lemma trim_row_shape (r : row) :
  length (snd (trim_row r)) = length (snd r)
  /\ get_cell 3 (snd (trim_row r)) = get_cell 3 (snd r).
Proof.
  unfold trim_row. cbn [snd]. destruct (snd r) as [|[s| |] l]; split; reflexivity.
Qed.

(** ** Concatenation *)

Lemma list_eqb_eq (l1 l2 : list string) : list_eqb l1 l2 = true <-> l1 = l2.
Proof.
  revert l2; induction l1 as [|x l1 IH]; intros [|y l2]; simpl;
    try (split; [discriminate|discriminate]); [tauto|].
  rewrite andb_true_iff, String.eqb_eq, IH.
  split; [intros [-> ->]; reflexivity|intros [= -> ->]; auto].
Qed.

Lemma nodupb_NoDup (l : list string) : NoDup l -> nodupb l = true.
Proof.
  induction 1 as [|x l Hx _ IH]; [reflexivity|].
  simpl. rewrite IH, andb_true_r. apply negb_true_iff.
  destruct (existsb (String.eqb x) l) eqn:E; [|reflexivity].
  apply existsb_exists in E as [y [Hy E]]. apply String.eqb_eq in E. now subst.
Qed.

Lemma insert_sorted_perm (x : string) (l : list string) :
  Permutation (insert_sorted x l) (x :: l).
Proof.
  induction l as [|y l IH]; simpl; [reflexivity|].
  destruct (String.leb x y); [reflexivity|].
  rewrite IH. apply perm_swap.
Qed.

Lemma sort_labels_perm (l : list string) : Permutation (sort_labels l) l.
Proof.
  induction l as [|x l IH]; simpl; [reflexivity|].
  rewrite insert_sorted_perm. now constructor.
Qed.

(** Under its new labels a re-labelled row shows, for each label, the cell
    the row had under that label, or a missing value. *)
Lemma cell_at_reindex (new old : list string) (name : string) (r : row) :
  In name new ->
  cell_at new name (snd (reindex_columns new old r)) = cell_at old name (snd r).
Proof.
  intros H. unfold reindex_columns. cbn [snd].
  unfold cell_at at 1.
  destruct (col_pos_some name new H) as [i [Hi Hn]]. rewrite Hi.
  unfold get_cell.
  pose proof (col_pos_lt _ _ _ Hi) as Hlt.
  rewrite (nth_indep _ _ (cell_at old "" (snd r)))
    by now rewrite length_map.
  rewrite (map_nth (fun n => cell_at old n (snd r))). now rewrite Hn.
Qed.

(** *** Column types *)

Lemma length_astypes (ds : list dtype) (cells : list cell) :
  length (astypes ds cells) = length cells.
Proof.
  revert cells; induction ds as [|d ds IH]; intros [|c cells]; simpl; auto.
Qed.

(** A cell of a row that is stored in column types is the cell of the row,
    stored in the type of its column. *)
Lemma get_cell_astypes (ds : list dtype) (cells : list cell) (i : nat) :
  get_cell i (astypes ds cells) = astype (nth i ds object) (get_cell i cells).
Proof.
  unfold get_cell.
  revert cells i; induction ds as [|d ds IH]; intros cells i.
  - destruct cells, i; reflexivity.
  - destruct cells as [|c cells].
    + destruct i; simpl; [now destruct d|now destruct (nth i ds object)].
    + destruct i; simpl; [reflexivity|apply IH].
Qed.

Lemma nth_dtypes (n : nat) (rs : list row) (i : nat) :
  (i < n)%nat ->
  nth i (dtypes n rs) object = dtype_of (map (fun r : row => get_cell i (snd r)) rs).
Proof.
  intros H. unfold dtypes.
  rewrite (nth_indep _ object (dtype_of (map (fun r : row => get_cell 0 (snd r)) rs)))
    by (now rewrite length_map, length_seq).
  rewrite (map_nth (fun i => dtype_of (map (fun r : row => get_cell i (snd r)) rs))).
  now rewrite seq_nth.
Qed.

Lemma unify_labels (n : nat) (rs : list row) : map fst (unify n rs) = map fst rs.
Proof. unfold unify. rewrite map_map. reflexivity. Qed.

(** A column of unified rows holds the cells of the column, all stored in
    the type of the column. *)
Lemma unify_column (n : nat) (rs : list row) (i : nat) :
  (i < n)%nat ->
  map (fun r : row => get_cell i (snd r)) (unify n rs)
  = map (astype (dtype_of (map (fun r : row => get_cell i (snd r)) rs)))
        (map (fun r : row => get_cell i (snd r)) rs).
Proof.
  intros H. unfold unify. rewrite !map_map. apply map_ext. intros r.
  cbn [cast_row snd]. now rewrite get_cell_astypes, nth_dtypes.
Qed.

Lemma dtype_of_int (cs : list cell) : forallb is_int cs = true -> dtype_of cs = int64.
Proof. intros H. unfold dtype_of. now rewrite H. Qed.

Lemma dtype_of_float (cs : list cell) :
  forallb is_num cs = true -> existsb is_flt cs = true -> dtype_of cs = float64_t.
Proof.
  intros Hn Hf. unfold dtype_of. rewrite Hn.
  destruct (forallb is_int cs) eqn:Hi; [|reflexivity].
  apply existsb_exists in Hf as [c [Hc Hf]].
  rewrite forallb_forall in Hi. specialize (Hi c Hc). now destruct c.
Qed.

Lemma dtype_of_object (cs : list cell) : existsb is_str cs = true -> dtype_of cs = object.
Proof.
  intros Hs. apply existsb_exists in Hs as [c [Hc Hs]]. unfold dtype_of.
  destruct (forallb is_int cs) eqn:Hi.
  { rewrite forallb_forall in Hi. specialize (Hi c Hc). now destruct c. }
  destruct (forallb is_num cs) eqn:Hn; [|reflexivity].
  rewrite forallb_forall in Hn. specialize (Hn c Hc). now destruct c.
Qed.

(** In a column of numbers with a float or a missing value no integer is
    left: the integers are stored as floats. *)
Lemma astype_no_int (cs : list cell) :
  forallb is_num cs = true -> existsb is_flt cs = true ->
  Forall (fun x => is_flt x = true) (map (astype (dtype_of cs)) cs).
Proof.
  intros Hn Hf. rewrite (dtype_of_float cs Hn Hf).
  apply Forall_forall. intros x Hx. apply in_map_iff in Hx as [c [<- Hc]].
  rewrite forallb_forall in Hn. specialize (Hn c Hc). now destruct c.
Qed.

(** *** Tables of different schemas *)

Lemma field_reindex (new old : list string) (c : string) (i : nat) (rs : list row) :
  col_pos c new = Some i ->
  map (fun r : row => get_cell i (snd r)) (map (reindex_columns new old) rs)
  = field old c rs.
Proof.
  intros Hi. unfold field. rewrite map_map. apply map_ext. intros r.
  assert (Hin : In c new).
  { clear - Hi. revert i Hi. induction new as [|x new IH]; intros i Hi; [discriminate|].
    simpl in Hi. destruct (String.eqb_spec x c) as [->|_]; [now left|].
    destruct (col_pos c new) as [j|]; [|discriminate]. right. now apply (IH j). }
  rewrite <- (cell_at_reindex new old c r Hin). unfold cell_at at 1. now rewrite Hi.
Qed.

Lemma field_missing (cols : list string) (c : string) (rs : list row) :
  ~ In c cols -> field cols c rs = map (fun _ => NaN) rs.
Proof.
  intros H. unfold field, cell_at. now rewrite (col_pos_none c cols H).
Qed.

(** C9, as stated, fails: two normalized tables whose schemas differ in one
    field name are merged without any error, into a table over the union of
    the fields, with missing values where a table lacks a field; where the
    field that a table lacks holds numbers, the integers of the other table
    come back as floats. *)
Lemma concat_mismatch_merges :
  columns sample14_out <> columns sample04_out
  /\ concat sample14_out sample04_out = Ok sample_union
  /\ columns sample14_out <> columns sample09_clean
  /\ concat sample14_out sample09_clean = Ok sample_union_float.
Proof. repeat split; discriminate. Qed.

(** C9, amended: for two tables with rows whose schemas (lists of distinct
    field names) differ, the concatenation raises no error; it returns the
    table whose fields are those of either input, each once, and whose rows
    are the rows of the first table followed by the rows of the second, with
    their labels.  Under each field the result holds the cells the rows had
    under that field, a missing value for the rows of a table that lacks the
    field, all stored in the one type of the column; so under a field of
    numbers that one table lacks the result holds floats only. *)
Theorem concat_schema_mismatch (a b : DataFrame) :
  NoDup (columns a) -> NoDup (columns b) -> columns a <> columns b ->
  rows a <> [] -> rows b <> [] ->
  exists df,
    concat a b = Ok df
    /\ (forall c, In c (columns df) <-> In c (columns a) \/ In c (columns b))
    /\ NoDup (columns df)
    /\ labels df = labels a ++ labels b
    /\ (forall c, In c (columns df) ->
          field (columns df) c (rows df)
          = map (astype (dtype_of (field (columns a) c (rows a)
                                   ++ field (columns b) c (rows b))))
                (field (columns a) c (rows a) ++ field (columns b) c (rows b)))
    /\ (forall c, In c (columns df) ->
          ~ In c (columns a) \/ ~ In c (columns b) ->
          forallb is_num (field (columns a) c (rows a)
                          ++ field (columns b) c (rows b)) = true ->
          Forall (fun x => is_flt x = true) (field (columns df) c (rows df))).
Proof.
  intros Ha Hb Hne Hra Hrb. unfold concat.
  destruct (list_eqb (columns a) (columns b)) eqn:E;
    [apply list_eqb_eq in E; contradiction|].
  rewrite (nodupb_NoDup _ Ha), (nodupb_NoDup _ Hb). cbn [andb].
  eexists. split; [reflexivity|]. cbn [columns rows].
  set (cols := sort_labels (nodup string_dec (columns a ++ columns b))).
  pose proof (sort_labels_perm (nodup string_dec (columns a ++ columns b))) as P.
  fold cols in P.
  assert (F : forall c, In c cols ->
            field cols c
              (unify (length cols)
                 (map (reindex_columns cols (columns a)) (rows a)
                  ++ map (reindex_columns cols (columns b)) (rows b)))
            = map (astype (dtype_of (field (columns a) c (rows a)
                                     ++ field (columns b) c (rows b))))
                  (field (columns a) c (rows a) ++ field (columns b) c (rows b))).
  { intros c Hc. destruct (col_pos_some c cols Hc) as [i [Hi _]].
    pose proof (col_pos_lt _ _ _ Hi) as Hlt.
    transitivity
      (map (fun r : row => get_cell i (snd r))
         (unify (length cols)
            (map (reindex_columns cols (columns a)) (rows a)
             ++ map (reindex_columns cols (columns b)) (rows b)))).
    { unfold field. apply map_ext. intros r. unfold cell_at. now rewrite Hi. }
    rewrite (unify_column _ _ i Hlt), map_app.
    now rewrite !(field_reindex cols _ c i _ Hi). }
  split; [|split; [|split; [|split]]].
  - intros c. split; intros H.
    + apply (Permutation_in _ P), nodup_In in H. now apply in_app_iff.
    + apply (Permutation_in _ (Permutation_sym P)), nodup_In. now apply in_app_iff.
  - apply (Permutation_NoDup (Permutation_sym P)), NoDup_nodup.
  - unfold labels. cbn [rows]. rewrite unify_labels, map_app, !map_map. reflexivity.
  - exact F.
  - intros c Hc Hlack Hnum. rewrite (F c Hc).
    apply astype_no_int; [exact Hnum|].
    rewrite existsb_app. apply orb_true_iff.
    destruct Hlack as [Hl|Hl]; [left|right]; rewrite (field_missing _ c _ Hl).
    + destruct (rows a); [congruence|reflexivity].
    + destruct (rows b); [congruence|reflexivity].
Qed.

Lemma concat_schema_mismatch_witness :
  exists df,
    concat sample14_out sample09_clean = Ok df
    /\ labels df = [2; 3; 0]
    /\ field (columns df) "rcdts" (rows df)
       = [Str "010010010002001"; Str "010010020002001"; Str "010010010002001"]
    /\ Forall (fun x => is_flt x = true) (field (columns df) "year" (rows df)).
Proof.
  destruct (concat_schema_mismatch sample14_out sample09_clean)
    as [df [H [Hc [_ [Hl [Hf Hn]]]]]].
  - repeat constructor; simpl; intuition discriminate.
  - repeat constructor; simpl; intuition discriminate.
  - discriminate.
  - discriminate.
  - discriminate.
  - exists df. split; [exact H|]. split; [exact Hl|]. split.
    + rewrite Hf; [reflexivity|]. apply Hc. left. simpl. auto.
    + apply Hn; [apply Hc; left; simpl; auto 10|right; simpl; intuition discriminate|].
      reflexivity.
Defined.


(** *** The master table *)

Lemma identifier_step_rows (vals : list cell) (rs : list row) :
  Forall (fun r : row => length (snd r) = 4%nat) rs ->
  map (fun r : row => (fst r, remove_nth 0 (snd r)))
    (set_column 1 vals (map (fun r : row => (fst r, insert_at 1 (Int 0) (snd r))) rs))
  = set_column 0 vals rs.
Proof.
  intros H. revert vals. induction H as [|r rs Hr _ IH]; intros vals.
  - destruct vals; reflexivity.
  - destruct vals as [|v vals]; [reflexivity|].
    unfold set_column in *. cbn [map combine fst snd]. rewrite IH. f_equal.
    destruct (snd r) as [|a [|b [|c [|d [|x l]]]]]; try discriminate. reflexivity.
Qed.

Lemma unify_width (n k : nat) (rs : list row) :
  Forall (fun r : row => length (snd r) = k) rs ->
  Forall (fun r : row => length (snd r) = k) (unify n rs).
Proof.
  intros H. unfold unify. apply Forall_forall. intros r Hr.
  apply in_map_iff in Hr as [r0 [<- Hr0]]. cbn [cast_row snd].
  rewrite length_astypes. rewrite Forall_forall in H. now apply H.
Qed.

(** From the first concatenation to the second: inserting the [rcdt] column,
    filling it from [rcdts] and dropping [rcdts] amounts to replacing the
    identifier of every row of the first two tables in place. *)
Lemma master_eq (df14 df09 df04 : DataFrame) :
  columns df14 = master_columns -> columns df09 = master_columns ->
  columns df04 = columns_we_want ->
  width 4 df14 -> width 4 df09 ->
  master df14 df09 df04 =
    (vals <- mapM trim_suffix (ids (unify 4 (rows df14 ++ rows df09))) ;;
     Ok (mkDF columns_we_want
           (unify 4 (set_column 0 vals (unify 4 (rows df14 ++ rows df09))
                     ++ rows df04)))).
Proof.
  intros H14 H09 H04 W14 W09.
  assert (W : Forall (fun r : row => length (snd r) = 4%nat)
                (unify 4 (rows df14 ++ rows df09))).
  { apply unify_width, Forall_app. split; assumption. }
  unfold master, concat. rewrite H14, H09.
  change (list_eqb master_columns master_columns) with true. cbn [bind].
  change (length master_columns) with 4%nat.
  set (rs := unify 4 (rows df14 ++ rows df09)) in *.
  unfold insert. cbn [columns rows].
  change (existsb (String.eqb "rcdt") master_columns) with false.
  change (length master_columns <? 1)%nat with false. cbn [bind].
  unfold setitem_apply. cbn [columns].
  change (locate ["rcdts"] (insert_at 1 "rcdt" master_columns)) with (Ok [0%nat]).
  cbn [bind hd]. unfold column. cbn [rows]. rewrite map_map. cbn [snd].
  replace (map (fun x : row => get_cell 0 (insert_at 1 (Int 0) (snd x))) rs)
    with (ids rs).
  2:{ unfold ids. apply map_ext_in. intros r Hr.
      rewrite Forall_forall in W. specialize (W r Hr).
      destruct (snd r) as [|a l]; [discriminate|reflexivity]. }
  destruct (mapM trim_suffix (ids rs)) as [vals|x]; [|reflexivity].
  cbn [bind]. unfold setitem. cbn [columns rows].
  change (col_pos "rcdt" (insert_at 1 "rcdt" master_columns)) with (Some 1%nat).
  unfold drop_column. cbn [columns rows].
  change (nodupb (insert_at 1 "rcdt" master_columns)) with true.
  change (col_pos "rcdts" (insert_at 1 "rcdt" master_columns)) with (Some 0%nat).
  cbn [bind columns rows].
  change (remove_nth 0 (insert_at 1 "rcdt" master_columns)) with columns_we_want.
  rewrite H04. change (list_eqb columns_we_want columns_we_want) with true.
  change (length columns_we_want) with 4%nat.
  now rewrite identifier_step_rows.
Qed.

Lemma trim_suffix_val (c v : cell) :
  trim_suffix c = Ok v -> v = trim_val c /\ is_str c = true.
Proof. destruct c; simpl; intros H; try discriminate. injection H as <-. auto. Qed.

Lemma set_column_trim (rs : list row) :
  Forall (fun r : row => is_str (get_cell 0 (snd r)) = true) rs ->
  set_column 0 (map trim_val (ids rs)) rs = map trim_row rs.
Proof.
  intros H. unfold set_column, ids. induction H as [|r rs Hr _ IH]; [reflexivity|].
  cbn [map combine fst snd]. rewrite IH. f_equal.
  unfold trim_row. destruct (snd r) as [|[s| |] l]; try discriminate. reflexivity.
Qed.

Lemma is_str_astype (d : dtype) (c : cell) : is_str (astype d c) = is_str c.
Proof. destruct d, c; reflexivity. Qed.

(** Storing a row in column types leaves a string what it is. *)
Lemma is_str_cast (ds : list dtype) (r : row) (i : nat) :
  is_str (get_cell i (snd (cast_row ds r))) = is_str (get_cell i (snd r)).
Proof. cbn [cast_row snd]. now rewrite get_cell_astypes, is_str_astype. Qed.

Lemma str_ids_cases (rs : list row) :
  Forall (fun r : row => is_str (get_cell 0 (snd r)) = true) rs
  \/ Exists (fun r : row => is_str (get_cell 0 (snd r)) = false) rs.
Proof.
  induction rs as [|r rs IH]; [left; constructor|].
  destruct IH as [IH|IH]; [|right; now right].
  destruct (is_str (get_cell 0 (snd r))) eqn:E; [left|right]; now constructor.
Qed.

(** The identifier step on identifiers that are strings. *)
Lemma master_rows (df14 df09 df04 : DataFrame) :
  columns df14 = master_columns -> columns df09 = master_columns ->
  columns df04 = columns_we_want ->
  width 4 df14 -> width 4 df09 ->
  Forall (fun r : row => is_str (get_cell 0 (snd r)) = true) (rows df14 ++ rows df09) ->
  master df14 df09 df04
  = Ok (mkDF columns_we_want
          (unify 4 (map trim_row (unify 4 (rows df14 ++ rows df09)) ++ rows df04))).
Proof.
  intros H14 H09 H04 W14 W09 Hs.
  rewrite (master_eq _ _ _ H14 H09 H04 W14 W09).
  assert (Hu : Forall (fun r : row => is_str (get_cell 0 (snd r)) = true)
                 (unify 4 (rows df14 ++ rows df09))).
  { unfold unify. apply Forall_forall. intros r Hr.
    apply in_map_iff in Hr as [r0 [<- Hr0]]. rewrite is_str_cast.
    rewrite Forall_forall in Hs. now apply Hs. }
  rewrite (mapM_map trim_suffix trim_val).
  - cbn [bind]. now rewrite set_column_trim.
  - intros c Hc. unfold ids in Hc. apply in_map_iff in Hc as [r [<- Hr]].
    rewrite Forall_forall in Hu. specialize (Hu r Hr).
    destruct (get_cell 0 (snd r)); try discriminate. reflexivity.
Qed.

(** The identifier step on an identifier that is not a string. *)
Lemma master_raises (df14 df09 df04 : DataFrame) :
  columns df14 = master_columns -> columns df09 = master_columns ->
  columns df04 = columns_we_want ->
  width 4 df14 -> width 4 df09 ->
  Exists (fun r : row => is_str (get_cell 0 (snd r)) = false) (rows df14 ++ rows df09) ->
  exists x, master df14 df09 df04 = Raise x.
Proof.
  intros H14 H09 H04 W14 W09 H.
  rewrite (master_eq _ _ _ H14 H09 H04 W14 W09).
  destruct (mapM trim_suffix _) as [vals|x] eqn:E; [|cbn [bind]; eauto].
  exfalso. apply mapM_ok_inv in E.
  apply Exists_exists in H as [r [Hr Hs]].
  assert (Hin : In (get_cell 0 (snd (cast_row (dtypes 4 (rows df14 ++ rows df09)) r)))
                  (ids (unify 4 (rows df14 ++ rows df09)))).
  { unfold ids, unify. rewrite map_map.
    apply (in_map (fun r : row => get_cell 0 (snd (cast_row _ r)))). exact Hr. }
  rewrite <- (is_str_cast (dtypes 4 (rows df14 ++ rows df09))) in Hs.
  clear - E Hin Hs. induction E as [|c v l vs Hc _ IH]; [contradiction|].
  destruct Hin as [->|Hin]; [|auto].
  apply trim_suffix_val in Hc as [_ Hc]. congruence.
Qed.

(** The master table, when the notebook builds one. *)
Lemma master_ok (df14 df09 df04 df : DataFrame) :
  columns df14 = master_columns -> columns df09 = master_columns ->
  columns df04 = columns_we_want ->
  width 4 df14 -> width 4 df09 ->
  master df14 df09 df04 = Ok df ->
  Forall (fun r : row => is_str (get_cell 0 (snd r)) = true) (rows df14 ++ rows df09)
  /\ df = mkDF columns_we_want
            (unify 4 (map trim_row (unify 4 (rows df14 ++ rows df09)) ++ rows df04)).
Proof.
  intros H14 H09 H04 W14 W09 H.
  destruct (str_ids_cases (rows df14 ++ rows df09)) as [Hs|Hs].
  - split; [exact Hs|].
    rewrite (master_rows _ _ _ H14 H09 H04 W14 W09 Hs) in H. now injection H.
  - destruct (master_raises _ _ _ H14 H09 H04 W14 W09 Hs) as [x Hx]. congruence.
Qed.

Lemma notebook_ok (e04 e09 e14 : RawExtract) (df : DataFrame) :
  notebook e04 e09 e14 = Ok df ->
  exists d04 d09 d14,
    normalize04 e04 = Ok d04 /\ normalize09 e09 = Ok d09 /\ normalize14 e14 = Ok d14
    /\ rows_of_year 2004 d04 /\ rows_of_year 2009 d09 /\ rows_of_year 2014 d14
    /\ Forall (fun r : row => is_str (get_cell 0 (snd r)) = true) (rows d14 ++ rows d09)
    /\ df = mkDF columns_we_want
              (unify 4 (map trim_row (unify 4 (rows d14 ++ rows d09)) ++ rows d04)).
Proof.
  unfold notebook. intros H.
  destruct (normalize04 e04) as [d04|] eqn:E04; [|discriminate].
  destruct (normalize09 e09) as [d09|] eqn:E09; [|discriminate].
  destruct (normalize14 e14) as [d14|] eqn:E14; [|discriminate].
  cbn [bind] in H.
  destruct (normalize04_shape e04 d04 E04) as [C04 [Y04 _]].
  destruct (normalize09_shape e09 d09 E09) as [C09 [Y09 _]].
  destruct (normalize14_shape e14 d14 E14) as [C14 [Y14 _]].
  destruct (master_ok _ _ _ _ C14 C09 C04 (rows_of_year_width _ _ Y14)
              (rows_of_year_width _ _ Y09) H) as [Hs Hdf].
  exists d04, d09, d14. auto 10.
Qed.

(** *** Identifiers and years in the master table *)

Lemma key_of_trim_row (r : row) : key_of (trim_row r) = trimmed_key r.
Proof.
  unfold key_of, trimmed_key. f_equal; [|apply trim_row_shape].
  unfold trim_row. cbn [snd]. destruct (snd r) as [|[s| |] l]; reflexivity.
Qed.

(** The identifiers and years of rows put under one another stay what they
    are when some identifier is a string and the years are integers. *)
Lemma key_of_unify (rs : list row) :
  existsb is_str (ids rs) = true ->
  forallb is_int (map (fun r : row => get_cell 3 (snd r)) rs) = true ->
  map key_of (unify 4 rs) = map key_of rs.
Proof.
  intros H0 H3. unfold unify. rewrite map_map. apply map_ext. intros r.
  unfold key_of. cbn [cast_row snd].
  rewrite !get_cell_astypes, !nth_dtypes by lia.
  fold (ids rs). now rewrite (dtype_of_object _ H0), (dtype_of_int _ H3).
Qed.

Lemma existsb_str_ids (rs : list row) :
  rs <> [] -> Forall (fun r : row => is_str (get_cell 0 (snd r)) = true) rs ->
  existsb is_str (ids rs) = true.
Proof.
  intros Hne H. destruct rs as [|r rs]; [congruence|].
  inversion H as [|? ? Hr _]; subst. cbn [ids map existsb]. now rewrite Hr.
Qed.

Lemma years_int (y : Z) (rs : list row) :
  Forall (fun r : row => length (snd r) = 4%nat /\ get_cell 3 (snd r) = Int y) rs ->
  forallb is_int (map (fun r : row => get_cell 3 (snd r)) rs) = true.
Proof.
  intros H. apply forallb_forall. intros c Hc.
  apply in_map_iff in Hc as [r [<- Hr]]. rewrite Forall_forall in H.
  destruct (H r Hr) as [_ ->]. reflexivity.
Qed.




(** The (id, year) pairs of the master table. *)
Lemma master_keys (d14 d09 d04 : DataFrame) :
  rows_of_year 2004 d04 -> rows_of_year 2009 d09 -> rows_of_year 2014 d14 ->
  Forall (fun r : row => is_str (get_cell 0 (snd r)) = true) (rows d14 ++ rows d09) ->
  rows d14 ++ rows d09 <> [] ->
  map key_of (unify 4 (map trim_row (unify 4 (rows d14 ++ rows d09)) ++ rows d04))
  = map trimmed_key (rows d14 ++ rows d09) ++ keys d04.
Proof.
  intros Y04 Y09 Y14 Hs Hne.
  assert (S1 : existsb is_str (ids (rows d14 ++ rows d09)) = true)
    by now apply existsb_str_ids.
  assert (I1 : forallb is_int (map (fun r : row => get_cell 3 (snd r))
                                 (rows d14 ++ rows d09)) = true).
  { rewrite map_app, forallb_app, (years_int 2014 _ Y14), (years_int 2009 _ Y09).
    reflexivity. }
  assert (K1 : map key_of (map trim_row (unify 4 (rows d14 ++ rows d09)))
               = map trimmed_key (rows d14 ++ rows d09)).
  { rewrite map_map.
    rewrite (map_ext _ _ (fun r => key_of_trim_row r)).
    change (map (fun r : row => trimmed_key r))
      with (map (fun r : row => (fun k : cell * cell => (trim_val (fst k), snd k))
                                  (key_of r))).
    rewrite <- (map_map key_of (fun k : cell * cell => (trim_val (fst k), snd k))).
    rewrite (key_of_unify _ S1 I1). rewrite map_map. reflexivity. }
  assert (K : map key_of (map trim_row (unify 4 (rows d14 ++ rows d09)) ++ rows d04)
              = map trimmed_key (rows d14 ++ rows d09) ++ keys d04).
  { rewrite map_app, K1. reflexivity. }
  rewrite key_of_unify; [exact K| |].
  - (* some identifier of the table is a string *)
    change (ids (map trim_row (unify 4 (rows d14 ++ rows d09)) ++ rows d04))
      with (map fst (map key_of
              (map trim_row (unify 4 (rows d14 ++ rows d09)) ++ rows d04)))
      || (unfold ids; rewrite <- (map_map key_of fst)).
    rewrite K, map_app, existsb_app. apply orb_true_iff. left.
    destruct (rows d14 ++ rows d09) as [|r rs]; [congruence|].
    inversion Hs as [|? ? Hr _]; subst.
    cbn [map existsb trimmed_key fst].
    destruct (get_cell 0 (snd r)); try discriminate. reflexivity.
  - (* the years are integers *)
    rewrite <- (map_map key_of snd).
    rewrite K, map_app, forallb_app. apply andb_true_iff. split.
    + rewrite map_map. cbn [trimmed_key snd]. exact I1.
    + unfold keys. rewrite map_map. cbn [key_of snd]. exact (years_int 2004 _ Y04).
Qed.




(* ================================================================== *)
(** * Further properties of the notebook *)

(** ** Reading integers *)

(** A blank may follow the sign. *)
Example int_of_str_sign_blank :
  int_of_str "- 5" = Ok (-5) /\ int_of_str " +  12 " = Ok 12
  /\ int_of_str "-" = Raise ValueError /\ int_of_str "- -5" = Raise ValueError.
Proof. repeat split. Qed.

(** X1: [int] refuses every string that holds a comma, which is the error
    the first coercion attempt of the notebook runs into. *)
Theorem int_of_str_comma (s : string) :
  contains "," s = true -> int_of_str s = Raise ValueError.
Proof.
  intros H. destruct (int_of_str s) as [z|x] eqn:E.
  - rewrite (comma_refused s H) in E. discriminate.
  - rewrite (comma_refused s H) in E. now rewrite <- E.
Qed.

Lemma int_of_str_comma_witness : int_of_str "12,345" = Raise ValueError.
Proof. apply (int_of_str_comma "12,345"). reflexivity. Defined.

(** X2: [int] accepts a numeral between blanks, with or without a sign: the
    digits are read in base 10 and a leading minus negates the value. *)
Theorem int_of_str_signed (pre d post : string) :
  all_space pre = true -> all_space post = true ->
  all_digits d = true -> d <> "" ->
  int_of_str (pre ++ d ++ post) = Ok (decimal_value (digits_of d))
  /\ int_of_str (pre ++ "+" ++ d ++ post) = Ok (decimal_value (digits_of d))
  /\ int_of_str (pre ++ "-" ++ d ++ post) = Ok (- decimal_value (digits_of d)).
Proof.
  intros Hpre Hpost Hd Hne.
  rewrite !(fun s => int_of_str_lstrip pre s Hpre).
  split; [now apply int_of_str_unsigned|].
  destruct d as [|c d']; [congruence|].
  pose proof Hd as Hd'. simpl in Hd'. apply andb_true_iff in Hd' as [Hc _].
  assert (L : lstrip (String c (d' ++ post)) = (String c d' ++ post)%string).
  { cbn [lstrip]. now rewrite (digit_not_space c Hc). }
  split; unfold int_of_str; cbn [append];
    [change (lstrip (String "+" (String c (d' ++ post))))
       with (String "+" (String c (d' ++ post)))
    |change (lstrip (String "-" (String c (d' ++ post))))
       with (String "-" (String c (d' ++ post)))];
    cbv iota beta; rewrite L; cbn [append]; rewrite Hc;
    change (String c (d' ++ post)) with (String c d' ++ post)%string;
    rewrite (read_digits_app _ _ 0 Hd Hpost), Hpost; reflexivity.
Qed.

Lemma int_of_str_signed_witness :
  int_of_str " 42 " = Ok 42 /\ int_of_str " +42 " = Ok 42
  /\ int_of_str " -42 " = Ok (-42).
Proof.
  apply (int_of_str_signed " " "42" " "); try reflexivity. discriminate.
Defined.

(** ** The identifier step *)

Lemma take_app_length (p a : string) : take (String.length p) (p ++ a) = p.
Proof.
  induction p as [|c p IH]; [exact (take_zero a)|]. simpl. now rewrite IH.
Qed.

Lemma length_append (p a : string) :
  String.length (p ++ a) = (String.length p + String.length a)%nat.
Proof. induction p as [|c p IH]; simpl; [reflexivity|]. now rewrite IH. Qed.

(** X3: [x[:-4]] removes exactly a suffix of four characters, so all
    identifiers that differ only in their last four characters are mapped to
    one identifier. *)
Theorem trim_suffix_drops_suffix (p a : string) :
  String.length a = 4%nat -> trim_suffix (Str (p ++ a)) = Ok (Str p).
Proof.
  intros Ha. unfold trim_suffix. rewrite slice_to_neg by lia.
  rewrite length_append, Ha.
  replace (String.length p + 4 - Z.to_nat (- -4))%nat with (String.length p) by lia.
  now rewrite take_app_length.
Qed.

Lemma trim_suffix_drops_suffix_witness :
  trim_suffix (Str "010010010002001") = Ok (Str "01001001000")
  /\ trim_suffix (Str "010010010002002") = Ok (Str "01001001000").
Proof.
  split.
  - apply (trim_suffix_drops_suffix "01001001000" "2001"). reflexivity.
  - apply (trim_suffix_drops_suffix "01001001000" "2002"). reflexivity.
Defined.

(** ** Running a cell again *)

(** X4: the coercion cell cannot be run twice.  Once it has succeeded on a
    frame with at least one row, the selected cells are integers, and running
    it again on the result raises [AttributeError]. *)
Theorem coercion_not_repeatable (names : list string) (df df' : DataFrame) :
  applymap_on names to_int df = Ok df' ->
  names <> [] -> rows df <> [] ->
  applymap_on names to_int df' = Raise AttributeError.
Proof.
  intros H Hn Hr.
  apply (applymap_on_ok _ _ to_int_val) in H;
    [|intros c v Hc; now apply to_int_ok in Hc].
  destruct H as [ps [Hps [Hc [Hrows Hok]]]].
  assert (Lp : length ps = length names) by (eapply mapM_length; exact Hps).
  destruct ps as [|p ps]; [destruct names; [congruence|discriminate]|].
  destruct (rows df) as [|r0 rs] eqn:Er; [congruence|].
  specialize (Hok p r0 (or_introl eq_refl) (or_introl eq_refl)).
  pose proof (to_int_ok _ _ Hok) as [_ [Hint Hstr]].
  assert (Hlt : (p < length (snd r0))%nat).
  { destruct (Nat.lt_ge_cases p (length (snd r0))) as [L|G]; [exact L|].
    unfold get_cell in Hstr. rewrite nth_overflow in Hstr by exact G. discriminate. }
  unfold applymap_on. rewrite Hc, Hps. cbn [bind mapM].
  unfold column at 1. rewrite Hrows. cbn [map snd mapM].
  rewrite (fold_set_nth_at to_int_val (snd r0) p (p :: ps) (snd r0) eq_refl Hlt)
    by (left; now left).
  destruct (to_int_val (get_cell p (snd r0))); try discriminate. reflexivity.
Qed.

Lemma coercion_not_repeatable_witness :
  exists df', applymap_on cols04 to_int (select04 sample04) = Ok df'
    /\ applymap_on cols04 to_int df' = Raise AttributeError.
Proof.
  eexists. split; [reflexivity|].
  apply (coercion_not_repeatable cols04 (select04 sample04));
    [reflexivity|discriminate|discriminate].
Defined.

(** ** Column names that are not there *)

(** X5: the 04-05 normalization does not notice a missing column.  When the
    header lacks one of the four column names that are kept, [.ix] fills the
    column with missing values, [dropna] removes every row, and the
    normalization returns the empty table without any error. *)
Theorem normalize04_missing_column (e : RawExtract) (name : string) :
  In name columns_to_keep04 -> ~ In name (header e) ->
  normalize04 e = Ok (mkDF columns_we_want []).
Proof.
  intros Hin Hmiss.
  assert (Hsel : select04 e = mkDF columns_to_keep04 []).
  { unfold select04, dropna, dropna_rows, ix_columns. cbn [fst columns rows].
    f_equal. apply filter_nil. intros r Hr.
    apply in_map_iff in Hr as [r0 [<- _]].
    apply negb_false_iff. unfold reindex_columns. cbn [snd columns_to_keep04 map existsb].
    pose proof (col_pos_none _ _ Hmiss) as Hn.
    change (columns (read_csv e)) with (header e).
    destruct Hin as [<-|[<-|[<-|[<-|[]]]]]; unfold cell_at at 1 2 3 4;
      rewrite Hn; cbn [NaN isnull orb];
      repeat match goal with
             | |- context [isnull ?c] => destruct (isnull c); cbn [orb]
             end; reflexivity. }
  unfold normalize04, clean04. rewrite Hsel. reflexivity.
Qed.

Lemma normalize04_missing_column_witness :
  normalize04 sample04_renamed = Ok (mkDF columns_we_want []).
Proof.
  apply (normalize04_missing_column sample04_renamed "Total Sch. Enroll.").
  - right. right. left. reflexivity.
  - simpl. intuition discriminate.
Defined.

(** X6: the 09-10 normalization depends on the header alone.  With the three
    column names in the header it returns a table, whatever the cells hold,
    since nothing is coerced; with one of them missing it raises
    [KeyError]. *)
Theorem normalize09_header (e : RawExtract) :
  (Forall (fun n => In n (header e)) columns_to_keep09 ->
   exists df, normalize09 e = Ok df /\ columns df = master_columns)
  /\ (Exists (fun n => ~ In n (header e)) columns_to_keep09 ->
      normalize09 e = Raise KeyError).
Proof.
  rewrite normalize09_eq. split; intros H.
  - destruct (locate_present _ _ H) as [ps ->]. cbn [bind]. eauto.
  - now rewrite (locate_missing _ _ H).
Qed.

Lemma normalize09_header_witness :
  (exists df, normalize09 sample09 = Ok df /\ columns df = master_columns)
  /\ normalize09 sample09_renamed = Raise KeyError.
Proof.
  split.
  - apply (proj1 (normalize09_header sample09)).
    repeat (apply Forall_cons; [simpl; auto 10|]). apply Forall_nil.
  - apply (proj2 (normalize09_header sample09_renamed)).
    apply Exists_cons_hd. simpl. intuition discriminate.
Defined.

(** ** What the 14-15 normalization needs *)

(** X7: the 14-15 normalization needs the line 4876.  On an extract of at
    most 4876 lines it returns no table: it raises, at the latest when it
    drops the row of that label. *)
Theorem normalize14_short_extract (e : RawExtract) :
  (length (body e) <= 4876)%nat -> exists x, normalize14 e = Raise x.
Proof.
  intros Hlen. destruct (normalize14 e) as [df|x] eqn:E; [|eauto].
  exfalso. apply normalize14_ok in E as [d [Hs [_ [_ [Hin _]]]]].
  apply (select14_labels e d _ Hs) in Hin as [Hin _].
  apply read_csv_label_range in Hin. unfold sentinel in Hin. lia.
Qed.

Lemma normalize14_short_extract_witness :
  exists x, normalize14 sample14_short = Raise x.
Proof.
  apply (normalize14_short_extract sample14_short). simpl. lia.
Defined.

(** X8: the 14-15 normalization takes the columns at positions 0, 3 and 8.
    On an extract of fewer than nine columns it raises [IndexError]. *)
Theorem normalize14_narrow_extract (e : RawExtract) :
  (length (header e) < 9)%nat -> normalize14 e = Raise IndexError.
Proof.
  intros Hlen. unfold normalize14, clean14, select14, ix_rows_from.
  change (columns (read_csv e)) with (header e). cbn [forallb].
  destruct (Nat.ltb_spec 8 (length (header e))) as [H|_]; [lia|].
  now rewrite !andb_false_r.
Qed.

Lemma normalize14_narrow_extract_witness :
  normalize14 sample14_narrow = Raise IndexError.
Proof.
  apply (normalize14_narrow_extract sample14_narrow). simpl. lia.
Defined.

(** ** When the normalizations succeed *)

Lemma finish04_total (d : DataFrame) :
  columns d = columns_to_keep04 -> exists df, finish04 d = Ok df.
Proof.
  intros Hc. unfold finish04, drop_column. rewrite Hc.
  change (nodupb columns_to_keep04) with true.
  change (col_pos "School" columns_to_keep04) with (Some 1%nat).
  cbn [bind]. rewrite setitem_const_new by reflexivity.
  unfold set_columns. cbn [columns].
  change (length columns_we_want =? length (remove_nth 1 columns_to_keep04 ++ ["year"]))%nat
    with true.
  eauto.
Qed.

Lemma parsable_plain (c : cell) :
  parsable c -> with_comma c = false -> exists v, plain_int c = Ok v.
Proof.
  intros [s [z [-> H]]] Hc. cbn [with_comma] in Hc.
  rewrite (replace_no_comma s Hc) in H. cbn [plain_int]. rewrite H. cbn [bind]. eauto.
Qed.

Lemma comma_plain (c : cell) : with_comma c = true -> exists x, plain_int c = Raise x.
Proof.
  destruct c as [s| |]; try discriminate. cbn [with_comma plain_int]. intros H.
  rewrite (comma_refused s H). cbn [bind]. eauto.
Qed.

(** X9: the 04-05 normalization needs a comma.  Let both counts of every
    selected row be strings that read as integers once their separators are
    removed.  When some count is written with a comma, as in the file of the
    notebook, the first attempt raises, the second coercion cell does the
    work and the normalization returns one row per selected row, in order,
    with the identifier, the two integers and the year 2004.  When no count
    has a comma and a row is selected, the first attempt succeeds, the counts
    are integers when the second coercion cell runs, and the normalization
    raises [AttributeError].  Without a selected row it returns the empty
    table. *)
Theorem normalize04_succeeds (e : RawExtract) :
  Forall (fun r : row => parsable (get_cell 2 (snd r))
                         /\ parsable (get_cell 3 (snd r)))
         (rows (select04 e)) ->
  (Exists (fun r : row => with_comma (get_cell 2 (snd r)) = true
                          \/ with_comma (get_cell 3 (snd r)) = true)
          (rows (select04 e)) ->
   normalize04 e = Ok (mkDF columns_we_want (map out04 (rows (select04 e)))))
  /\ (rows (select04 e) <> [] ->
      Forall (fun r : row => with_comma (get_cell 2 (snd r)) = false
                             /\ with_comma (get_cell 3 (snd r)) = false)
             (rows (select04 e)) ->
      normalize04 e = Raise AttributeError)
  /\ (rows (select04 e) = [] -> normalize04 e = Ok (mkDF columns_we_want [])).
Proof.
  intros H. rewrite Forall_forall in H.
  assert (Hok : clean04 e = applymap_on cols04 to_int (select04 e) ->
                normalize04 e = Ok (mkDF columns_we_want (map out04 (rows (select04 e))))).
  { intros Hc.
    assert (Hex : exists df, normalize04 e = Ok df).
    { destruct (applymap_on_succeeds cols04 to_int (select04 e) [2%nat; 3%nat] eq_refl)
        as [d Hd].
      { intros i r [<-|[<-|[]]] Hr; apply parsable_to_int; now apply H. }
      unfold normalize04. rewrite Hc, Hd. cbn [bind].
      apply finish04_total.
      apply (applymap_on_ok _ _ to_int_val) in Hd;
        [|intros c v Hv; now apply to_int_ok in Hv].
      destruct Hd as [_ [_ [Hd _]]]. exact Hd. }
    destruct Hex as [df Hdf]. rewrite Hdf.
    apply normalize04_ok in Hdf as [Hcs [Hr _]].
    destruct df as [cs rs]. cbn [columns rows] in Hcs, Hr. now subst. }
  split; [|split].
  - intros Hcomma. apply Hok, first_attempt_raises.
    eapply Exists_impl; [|exact Hcomma].
    intros r [Hr|Hr]; [left|right]; now apply comma_plain.
  - intros Hne Hplain. unfold normalize04.
    rewrite first_attempt_passes; [reflexivity|exact Hne|].
    apply Forall_forall. intros r Hr. rewrite Forall_forall in Hplain.
    destruct (H r Hr) as [P2 P3], (Hplain r Hr) as [C2 C3].
    split; now apply parsable_plain.
  - intros Hempty.
    destruct (clean04_cases e) as [Hc|[Hne _]]; [|contradiction].
    rewrite (Hok Hc), Hempty. reflexivity.
Qed.

Lemma normalize04_succeeds_witness :
  normalize04 sample04 = Ok (mkDF columns_we_want (map out04 (rows (select04 sample04))))
  /\ normalize04 sample04_plain = Raise AttributeError.
Proof.
  split.
  - apply (proj1 (normalize04_succeeds sample04
                    ltac:(repeat constructor; cbn; eexists; eexists; split; reflexivity))).
    apply Exists_cons_hd. left. reflexivity.
  - apply (proj1 (proj2 (normalize04_succeeds sample04_plain
                    ltac:(repeat constructor; cbn; eexists; eexists; split; reflexivity)))).
    + discriminate.
    + repeat constructor.
Defined.

(** X10: the 14-15 normalization succeeds whenever the selection succeeds,
    both counts of every selected row read as integers and one selected row
    has the label 4876; it then returns the other selected rows, in order,
    with the identifier, the two integers and the year 2014. *)
Theorem normalize14_succeeds (e : RawExtract) (d : DataFrame) :
  select14 e = Ok d ->
  Forall (fun r : row => parsable (get_cell 1 (snd r))
                         /\ parsable (get_cell 2 (snd r)))
         (rows d) ->
  In sentinel (labels d) ->
  normalize14 e
  = Ok (mkDF master_columns
          (map out14 (filter (fun r : row => negb (fst r =? sentinel)) (rows d)))).
Proof.
  intros Hs H Hin. rewrite Forall_forall in H.
  destruct (select14_ok e d Hs) as [Hcd _].
  assert (Hex : exists df, normalize14 e = Ok df).
  { destruct (applymap_on_succeeds cols14 to_int d [1%nat; 2%nat]) as [d' Hd'].
    { now rewrite Hcd. }
    { intros i r [<-|[<-|[]]] Hr; apply parsable_to_int; now apply H. }
    unfold normalize14, clean14. rewrite Hs. cbn [bind]. rewrite Hd'. cbn [bind].
    apply (applymap_on_ok _ _ to_int_val) in Hd';
      [|intros c v Hc; now apply to_int_ok in Hc].
    destruct Hd' as [ps [_ [Hc [Hr _]]]].
    rewrite drop_row_unique
      by (rewrite Hr, map_map; exact (select14_unique e d Hs)).
    assert (Hl : existsb (fun r : row => fst r =? sentinel) (rows d') = true).
    { apply existsb_exists. unfold labels in Hin.
      apply in_map_iff in Hin as [r [E Hr0]].
      exists (fst r, fold_left (fun cells i => set_nth i (to_int_val (get_cell i (snd r))) cells)
                       ps (snd r)).
      split; [rewrite Hr; apply in_map_iff; exists r; now split|].
      cbn [fst]. rewrite E. apply Z.eqb_refl. }
    rewrite Hl. cbn [bind]. unfold finish14.
    rewrite setitem_const_new by (cbn [columns]; now rewrite Hc, Hcd).
    unfold set_columns. cbn [columns]. rewrite Hc, Hcd. cbn. eauto. }
  destruct Hex as [df Hdf]. rewrite Hdf.
  apply normalize14_ok in Hdf as [d0 [Hs0 [Hc [Hr _]]]].
  assert (d0 = d) by congruence. subst d0.
  destruct df as [cs rs]. cbn [columns rows] in Hc, Hr. now subst.
Qed.

Lemma normalize14_succeeds_witness :
  exists d, select14 sample14 = Ok d
    /\ normalize14 sample14
       = Ok (mkDF master_columns
               (map out14 (filter (fun r : row => negb (fst r =? sentinel)) (rows d)))).
Proof.
  eexists. split; [vm_compute; reflexivity|].
  apply normalize14_succeeds.
  - vm_compute. reflexivity.
  - repeat constructor; cbn; eexists; eexists; split; reflexivity.
  - cbn. auto.
Defined.

(** ** Schema and labels of a normalized extract *)

(** X11: a normalized extract has the four fields of its schema in every
    row, with the year of the extract in the last one, and its rows carry
    distinct line numbers of the file, those of the lines that were kept. *)
Theorem normalized_shape (e : RawExtract) (df : DataFrame) :
  (normalize04 e = Ok df ->
   columns df = columns_we_want /\ rows_of_year 2004 df
   /\ NoDup (labels df) /\ incl (labels df) (labels (read_csv e)))
  /\ (normalize09 e = Ok df ->
      columns df = master_columns /\ rows_of_year 2009 df
      /\ NoDup (labels df) /\ incl (labels df) (labels (read_csv e)))
  /\ (normalize14 e = Ok df ->
      columns df = master_columns /\ rows_of_year 2014 df
      /\ NoDup (labels df) /\ incl (labels df) (labels (read_csv e))).
Proof.
  split; [|split]; intros H.
  - now apply normalize04_shape.
  - now apply normalize09_shape.
  - now apply normalize14_shape.
Qed.

Lemma normalized_shape_witness :
  (columns sample04_out = columns_we_want /\ rows_of_year 2004 sample04_out
   /\ NoDup (labels sample04_out)
   /\ incl (labels sample04_out) (labels (read_csv sample04)))
  /\ (columns sample09_out = master_columns /\ rows_of_year 2009 sample09_out
      /\ NoDup (labels sample09_out)
      /\ incl (labels sample09_out) (labels (read_csv sample09)))
  /\ (columns sample14_out = master_columns /\ rows_of_year 2014 sample14_out
      /\ NoDup (labels sample14_out)
      /\ incl (labels sample14_out) (labels (read_csv sample14))).
Proof.
  split; [|split].
  - apply (proj1 (normalized_shape sample04 sample04_out)). reflexivity.
  - apply (proj1 (proj2 (normalized_shape sample09 sample09_out))). reflexivity.
  - apply (proj2 (proj2 (normalized_shape sample14 sample14_out))).
    vm_compute. reflexivity.
Defined.

(** ** The rows of the master table *)

Lemma astype_idem (d : dtype) (c : cell) : astype d (astype d c) = astype d c.
Proof. destruct d, c; reflexivity. Qed.

Lemma astypes_idem (ds : list dtype) (cells : list cell) :
  astypes ds (astypes ds cells) = astypes ds cells.
Proof.
  revert cells; induction ds as [|d ds IH]; intros [|c cells]; simpl; auto.
  now rewrite astype_idem, IH.
Qed.

(** Cutting the identifier and storing the row in the types of the master
    table can be done in either order. *)
Lemma trim_row_cast (r : row) :
  trim_row (cast_row master_dtypes r) = cast_row master_dtypes (trim_row r).
Proof.
  unfold trim_row, cast_row. cbn [fst snd]. f_equal.
  destruct (snd r) as [|[s|z|f] cells]; reflexivity.
Qed.

Lemma existsb_map_Exists {X : Type} (p : cell -> bool) (f : X -> cell) (l : list X) :
  Exists (fun x => p (f x) = true) l -> existsb p (map f l) = true.
Proof.
  intros H. apply Exists_exists in H as [x [Hx Hp]].
  apply existsb_exists. exists (f x). split; [now apply in_map|exact Hp].
Qed.

Lemma forallb_map_Forall {X : Type} (p : cell -> bool) (f : X -> cell) (l : list X) :
  Forall (fun x => p (f x) = true) l -> forallb p (map f l) = true.
Proof.
  intros H. apply forallb_forall. intros c Hc.
  apply in_map_iff in Hc as [x [<- Hx]]. rewrite Forall_forall in H. now apply H.
Qed.

(** Rows of numbers, some identifier a string and some counts floats: the
    columns have the types of the master table. *)
Lemma dtypes_floats (rs : list row) :
  Exists (fun r : row => is_str (get_cell 0 (snd r)) = true) rs ->
  Forall (counted is_num) rs ->
  Exists (counted is_flt) rs ->
  dtypes 4 rs = master_dtypes.
Proof.
  intros H0 Hn Hf. unfold dtypes, master_dtypes. cbn [seq map].
  rewrite (dtype_of_object (map (fun r : row => get_cell 0 (snd r)) rs))
    by now apply existsb_map_Exists.
  rewrite (dtype_of_float (map (fun r : row => get_cell 1 (snd r)) rs)).
  2:{ apply forallb_map_Forall. eapply Forall_impl; [|exact Hn]. now intros r [_ [H _]]. }
  2:{ apply existsb_map_Exists. eapply Exists_impl; [|exact Hf]. now intros r [_ [H _]]. }
  rewrite (dtype_of_float (map (fun r : row => get_cell 2 (snd r)) rs)).
  2:{ apply forallb_map_Forall. eapply Forall_impl; [|exact Hn]. now intros r [_ [_ [H _]]]. }
  2:{ apply existsb_map_Exists. eapply Exists_impl; [|exact Hf]. now intros r [_ [_ [H _]]]. }
  rewrite (dtype_of_int (map (fun r : row => get_cell 3 (snd r)) rs)); [reflexivity|].
  apply forallb_map_Forall. eapply Forall_impl; [|exact Hn]. now intros r [_ [_ [_ H]]].
Qed.

(** Rows of integers: nothing is stored differently. *)
Lemma unify_ints (rs : list row) :
  Exists (fun r : row => is_str (get_cell 0 (snd r)) = true) rs ->
  Forall (counted is_int) rs ->
  unify 4 rs = rs.
Proof.
  intros H0 Hn. unfold unify, dtypes. cbn [seq map].
  rewrite (dtype_of_object (map (fun r : row => get_cell 0 (snd r)) rs))
    by now apply existsb_map_Exists.
  rewrite (dtype_of_int (map (fun r : row => get_cell 1 (snd r)) rs)).
  2:{ apply forallb_map_Forall. eapply Forall_impl; [|exact Hn]. now intros r [_ [H _]]. }
  rewrite (dtype_of_int (map (fun r : row => get_cell 2 (snd r)) rs)).
  2:{ apply forallb_map_Forall. eapply Forall_impl; [|exact Hn]. now intros r [_ [_ [H _]]]. }
  rewrite (dtype_of_int (map (fun r : row => get_cell 3 (snd r)) rs)).
  2:{ apply forallb_map_Forall. eapply Forall_impl; [|exact Hn]. now intros r [_ [_ [_ H]]]. }
  rewrite <- (map_id rs) at 2. apply map_ext_in. intros r Hr.
  rewrite Forall_forall in Hn. destruct (Hn r Hr) as [L _].
  destruct r as [l cells]. cbn [snd] in L. unfold cast_row. cbn [fst snd]. f_equal.
  destruct cells as [|a [|b [|c [|d [|x t]]]]]; try discriminate. reflexivity.
Qed.

Lemma counted_weaken (kind : cell -> bool) (r : row) :
  (forall c, kind c = true -> is_num c = true) -> counted kind r -> counted is_num r.
Proof. intros K [L [H1 [H2 H3]]]. repeat split; auto. Qed.

Lemma is_int_is_num (c : cell) : is_int c = true -> is_num c = true.
Proof. now destruct c. Qed.

Lemma is_flt_is_num (c : cell) : is_flt c = true -> is_num c = true.
Proof. now destruct c. Qed.

Lemma counted_trim_row (kind : cell -> bool) (r : row) :
  counted kind r -> counted kind (trim_row r).
Proof.
  intros [L [H1 [H2 H3]]]. unfold counted, trim_row in *. cbn [snd].
  destruct (snd r) as [|[s|z|f] [|b [|c [|d [|x t]]]]]; try discriminate; auto.
Qed.

Lemma counted_cast (r : row) :
  counted is_num r -> counted is_flt (cast_row master_dtypes r).
Proof.
  intros [L [H1 [H2 H3]]]. unfold counted, cast_row in *. cbn [snd] in *.
  destruct (snd r) as [|a [|b [|c [|d [|x t]]]]]; try discriminate.
  cbn in *. destruct b, c, d; try discriminate; auto.
Qed.

Lemma str_id_trim_row (r : row) :
  is_str (get_cell 0 (snd r)) = true -> is_str (get_cell 0 (snd (trim_row r))) = true.
Proof.
  unfold trim_row. cbn [snd]. destruct (snd r) as [|[s|z|f] t]; auto.
Qed.

Lemma Exists_head {X : Type} (P : X -> Prop) (l : list X) :
  l <> [] -> Forall P l -> Exists P l.
Proof.
  intros Hne H. destruct l as [|x l]; [congruence|].
  inversion H; subst. now left.
Qed.

(** The rows of the master table when the counts of the 09-10 extract are
    floats: every count is stored as a float. *)
Lemma master_rows_floats (r14 r09 r04 : list row) :
  Forall (counted is_int) r14 -> Forall (counted is_flt) r09 ->
  Forall (counted is_int) r04 -> r09 <> [] ->
  Forall (fun r : row => is_str (get_cell 0 (snd r)) = true) (r14 ++ r09) ->
  unify 4 (map trim_row (unify 4 (r14 ++ r09)) ++ r04)
  = map (cast_row master_dtypes) (map trim_row (r14 ++ r09) ++ r04).
Proof.
  intros C14 C09 C04 N09 Hs.
  assert (Hne : r14 ++ r09 <> []) by (destruct r14; [exact N09|discriminate]).
  assert (Cn : Forall (counted is_num) (r14 ++ r09)).
  { apply Forall_app. split; eapply Forall_impl; try eassumption;
      intros r; apply counted_weaken; [apply is_int_is_num|apply is_flt_is_num]. }
  assert (U : unify 4 (r14 ++ r09) = map (cast_row master_dtypes) (r14 ++ r09)).
  { unfold unify. rewrite dtypes_floats; [reflexivity| |exact Cn|].
    - now apply Exists_head.
    - apply Exists_app. right. now apply Exists_head. }
  rewrite U. unfold unify at 1. rewrite dtypes_floats.
  - assert (E : forall r, cast_row master_dtypes (trim_row (cast_row master_dtypes r))
                        = cast_row master_dtypes (trim_row r)).
    { intros r. rewrite trim_row_cast. unfold cast_row. cbn [fst snd].
      now rewrite astypes_idem. }
    rewrite !map_app, !map_map.
    now rewrite (map_ext _ _ E r14), (map_ext _ _ E r09).
  - apply Exists_app. left. rewrite map_map. apply Exists_head.
    + destruct (r14 ++ r09); [congruence|discriminate].
    + apply Forall_forall. intros r Hr. apply in_map_iff in Hr as [r0 [<- Hr0]].
      rewrite trim_row_cast, is_str_cast. apply str_id_trim_row.
      rewrite Forall_forall in Hs. now apply Hs.
  - apply Forall_app. split.
    + rewrite map_map. apply Forall_forall. intros r Hr.
      apply in_map_iff in Hr as [r0 [<- Hr0]].
      apply counted_trim_row, (counted_weaken is_flt); [apply is_flt_is_num|].
      apply counted_cast. rewrite Forall_forall in Cn. now apply Cn.
    + eapply Forall_impl; [|exact C04]. intros r. apply counted_weaken, is_int_is_num.
  - apply Exists_app. left. rewrite map_map. apply Exists_head.
    + destruct (r14 ++ r09); [congruence|discriminate].
    + apply Forall_forall. intros r Hr. apply in_map_iff in Hr as [r0 [<- Hr0]].
      apply counted_trim_row, counted_cast. rewrite Forall_forall in Cn. now apply Cn.
Qed.

(** The rows of the master table when the counts of the 09-10 extract are
    integers as well: they are the rows of the extracts. *)
Lemma master_rows_ints (r14 r09 r04 : list row) :
  Forall (counted is_int) r14 -> Forall (counted is_int) r09 ->
  Forall (counted is_int) r04 -> r14 ++ r09 <> [] ->
  Forall (fun r : row => is_str (get_cell 0 (snd r)) = true) (r14 ++ r09) ->
  unify 4 (map trim_row (unify 4 (r14 ++ r09)) ++ r04)
  = map trim_row (r14 ++ r09) ++ r04.
Proof.
  intros C14 C09 C04 Hne Hs.
  assert (C : Forall (counted is_int) (r14 ++ r09)) by (apply Forall_app; now split).
  rewrite (unify_ints (r14 ++ r09)); [|now apply Exists_head|exact C].
  apply unify_ints.
  - apply Exists_app. left. apply Exists_head.
    + destruct (r14 ++ r09); [congruence|discriminate].
    + apply Forall_forall. intros r Hr. apply in_map_iff in Hr as [r0 [<- Hr0]].
      apply str_id_trim_row. rewrite Forall_forall in Hs. now apply Hs.
  - apply Forall_app. split; [|exact C04].
    apply Forall_forall. intros r Hr. apply in_map_iff in Hr as [r0 [<- Hr0]].
    apply counted_trim_row. rewrite Forall_forall in C. now apply C.
Qed.

Lemma counted_width (kind : cell -> bool) (df : DataFrame) :
  Forall (counted kind) (rows df) -> width 4 df.
Proof. unfold width. apply Forall_impl. now intros r [L _]. Qed.

(** X12: the identifier step and the types of the counts, on three tables
    with rows: a 14-15 and a 04-05 table with integer counts and a 09-10
    table.  When every identifier of the 14-15 and 09-10 tables is a string,
    the master table holds their rows with the identifier cut by four
    characters, followed by the rows of the 04-05 table; next to float counts
    in the 09-10 table every count of the master table is stored as a float,
    next to integer counts the rows are left as they are.  When one
    identifier is not a string, as for a column of numbers, the step raises
    and no master table is built. *)
Theorem master_identifier_step (df14 df09 df04 : DataFrame) :
  columns df14 = master_columns -> columns df09 = master_columns ->
  columns df04 = columns_we_want ->
  Forall (counted is_int) (rows df14) -> width 4 df09 ->
  Forall (counted is_int) (rows df04) ->
  rows df14 <> [] -> rows df09 <> [] -> rows df04 <> [] ->
  (Forall (fun r : row => is_str (get_cell 0 (snd r)) = true)
          (rows df14 ++ rows df09) ->
   Forall (counted is_flt) (rows df09) ->
   master df14 df09 df04
   = Ok (mkDF columns_we_want
           (map (cast_row master_dtypes)
              (map trim_row (rows df14 ++ rows df09) ++ rows df04))))
  /\ (Forall (fun r : row => is_str (get_cell 0 (snd r)) = true)
             (rows df14 ++ rows df09) ->
      Forall (counted is_int) (rows df09) ->
      master df14 df09 df04
      = Ok (mkDF columns_we_want (map trim_row (rows df14 ++ rows df09) ++ rows df04)))
  /\ (Exists (fun r : row => is_str (get_cell 0 (snd r)) = false)
             (rows df14 ++ rows df09) ->
      exists x, master df14 df09 df04 = Raise x).
Proof.
  intros H14 H09 H04 C14 W09 C04 N14 N09 N04.
  pose proof (counted_width _ _ C14) as W14.
  split; [|split].
  - intros Hs C09. rewrite (master_rows _ _ _ H14 H09 H04 W14 W09 Hs).
    now rewrite master_rows_floats.
  - intros Hs C09. rewrite (master_rows _ _ _ H14 H09 H04 W14 W09 Hs).
    rewrite master_rows_ints; try assumption; [reflexivity|].
    destruct (rows df14); [congruence|discriminate].
  - now apply master_raises.
Qed.

Lemma master_identifier_step_witness :
  master sample14_out sample09_out sample04_out = Ok sample_master
  /\ exists x, master sample14_out sample09_numeric sample04_out = Raise x.
Proof.
  assert (C14 : Forall (counted is_int) (rows sample14_out))
    by (repeat constructor).
  assert (C04 : Forall (counted is_int) (rows sample04_out))
    by (repeat constructor).
  split.
  - apply (proj1 (master_identifier_step sample14_out sample09_out sample04_out
                    eq_refl eq_refl eq_refl C14 ltac:(repeat constructor) C04
                    ltac:(discriminate) ltac:(discriminate) ltac:(discriminate)));
      repeat constructor.
  - apply (proj2 (proj2 (master_identifier_step sample14_out sample09_numeric sample04_out
                    eq_refl eq_refl eq_refl C14 ltac:(repeat constructor) C04
                    ltac:(discriminate) ltac:(discriminate) ltac:(discriminate)))).
    apply Exists_cons_tl, Exists_cons_tl, Exists_cons_hd. reflexivity.
Defined.

Lemma to_int_val_int (c : cell) :
  to_int c = Ok (to_int_val c) -> is_int (to_int_val c) = true.
Proof. intros H. now apply to_int_ok in H as [_ [H _]]. Qed.

(** The rows of a normalized 04-05 or 14-15 extract have integer counts. *)
Lemma normalize04_counted (e : RawExtract) (df : DataFrame) :
  normalize04 e = Ok df -> Forall (counted is_int) (rows df).
Proof.
  intros H. apply normalize04_ok in H as [_ [Hr Hok]]. rewrite Hr.
  apply Forall_forall. intros r Hin. apply in_map_iff in Hin as [r0 [<- Hr0]].
  destruct (Hok r0 Hr0) as [H2 H3].
  unfold counted, out04. cbn [snd length get_cell nth].
  auto using to_int_val_int.
Qed.

Lemma normalize14_counted (e : RawExtract) (df : DataFrame) :
  normalize14 e = Ok df -> Forall (counted is_int) (rows df).
Proof.
  intros H. apply normalize14_ok in H as [d [_ [_ [Hr [_ Hok]]]]]. rewrite Hr.
  apply Forall_forall. intros r Hin. apply in_map_iff in Hin as [r0 [<- Hr0]].
  apply filter_In in Hr0 as [Hr0 _]. destruct (Hok r0 Hr0) as [H1 H2].
  unfold counted, out14. cbn [snd length get_cell nth].
  auto using to_int_val_int.
Qed.

Lemma counted_of_year (kind : cell -> bool) (y : Z) (df : DataFrame) :
  rows_of_year y df ->
  Forall (fun r : row => kind (get_cell 1 (snd r)) = true
                         /\ kind (get_cell 2 (snd r)) = true) (rows df) ->
  Forall (counted kind) (rows df).
Proof.
  unfold rows_of_year. intros Y K. rewrite Forall_forall in *.
  intros r Hr. destruct (Y r Hr) as [L E], (K r Hr) as [K1 K2].
  unfold counted. rewrite E. auto.
Qed.

(** X13: the notebook as a whole.  When its cells run through, the master
    table has the four fields [rcdt], [enrollment], [protected], [year].
    When each extract has contributed a row, every row of the table has four
    cells, the last one 2014, 2009 or 2004, and the table holds the
    normalized 14-15 rows, then the 09-10 rows, both with the identifier cut
    by four characters, then the 04-05 rows; with float counts in the 09-10
    extract, as in the file of the notebook, every count of the table is
    stored as a float, and with integer counts there the rows are those of
    the extracts. *)
Theorem notebook_master_table (e04 e09 e14 : RawExtract) (df : DataFrame) :
  notebook e04 e09 e14 = Ok df ->
  columns df = columns_we_want
  /\ exists d04 d09 d14,
       normalize04 e04 = Ok d04 /\ normalize09 e09 = Ok d09
       /\ normalize14 e14 = Ok d14
       /\ (rows d14 <> [] -> rows d09 <> [] -> rows d04 <> [] ->
           Forall (fun r : row => length (snd r) = 4%nat /\ year_of_extract r) (rows df)
           /\ (Forall (fun r : row => is_flt (get_cell 1 (snd r)) = true
                                      /\ is_flt (get_cell 2 (snd r)) = true)
                      (rows d09) ->
               rows df = map (cast_row master_dtypes)
                           (map trim_row (rows d14 ++ rows d09) ++ rows d04))
           /\ (Forall (fun r : row => is_int (get_cell 1 (snd r)) = true
                                      /\ is_int (get_cell 2 (snd r)) = true)
                      (rows d09) ->
               rows df = map trim_row (rows d14 ++ rows d09) ++ rows d04)).
Proof.
  intros H.
  destruct (notebook_ok _ _ _ _ H)
    as [d04 [d09 [d14 [E04 [E09 [E14 [Y04 [Y09 [Y14 [Hs ->]]]]]]]]]].
  split; [reflexivity|].
  exists d04, d09, d14. repeat (split; [assumption|]).
  intros N14 N09 N04. cbn [rows].
  pose proof (normalize14_counted _ _ E14) as C14.
  pose proof (normalize04_counted _ _ E04) as C04.
  assert (Hne : rows d14 ++ rows d09 <> [])
    by (destruct (rows d14); [congruence|discriminate]).
  split; [|split].
  - pose proof (master_keys d14 d09 d04 Y04 Y09 Y14 Hs Hne) as K.
    assert (W : Forall (fun r : row => length (snd r) = 4%nat)
                  (unify 4 (map trim_row (unify 4 (rows d14 ++ rows d09)) ++ rows d04))).
    { apply unify_width, Forall_app. split.
      - apply Forall_forall. intros r Hr. apply in_map_iff in Hr as [r0 [<- Hr0]].
        rewrite (proj1 (trim_row_shape r0)).
        revert r0 Hr0. apply Forall_forall, unify_width, Forall_app.
        split; [exact (rows_of_year_width _ _ Y14)|exact (rows_of_year_width _ _ Y09)].
      - exact (rows_of_year_width _ _ Y04). }
    apply Forall_forall. intros r Hr. split.
    { rewrite Forall_forall in W. now apply W. }
    assert (Hk : In (key_of r)
                   (map trimmed_key (rows d14 ++ rows d09) ++ keys d04)).
    { rewrite <- K. now apply in_map. }
    unfold year_of_extract. change (get_cell 3 (snd r)) with (snd (key_of r)).
    unfold rows_of_year in Y04, Y09, Y14. rewrite Forall_forall in Y04, Y09, Y14.
    apply in_app_or in Hk as [Hk|Hk].
    + apply in_map_iff in Hk as [r0 [<- Hr0]]. cbn [trimmed_key snd].
      apply in_app_or in Hr0 as [Hr0|Hr0].
      * destruct (Y14 r0 Hr0) as [_ ->]. auto.
      * destruct (Y09 r0 Hr0) as [_ ->]. auto.
    + unfold keys in Hk. apply in_map_iff in Hk as [r0 [<- Hr0]]. cbn [key_of snd].
      destruct (Y04 r0 Hr0) as [_ ->]. auto.
  - intros F09. apply master_rows_floats; try assumption.
    now apply (counted_of_year is_flt 2009).
  - intros I09. apply master_rows_ints; try assumption.
    now apply (counted_of_year is_int 2009).
Qed.

Lemma notebook_master_table_witness :
  columns sample_master = columns_we_want
  /\ Forall (fun r : row => length (snd r) = 4%nat /\ year_of_extract r)
            (rows sample_master)
  /\ rows sample_master
     = map (cast_row master_dtypes)
         (map trim_row (rows sample14_out ++ rows sample09_out) ++ rows sample04_out).
Proof.
  assert (E14 : normalize14 sample14 = Ok sample14_out) by (vm_compute; reflexivity).
  destruct (notebook_master_table sample04 sample09 sample14 sample_master)
    as [C [d04 [d09 [d14 [H04 [H09 [H14 K]]]]]]].
  - vm_compute. reflexivity.
  - rewrite E14 in H14. injection H14 as <-.
    change (normalize04 sample04) with (Ok sample04_out) in H04. injection H04 as <-.
    change (normalize09 sample09) with (Ok sample09_out) in H09. injection H09 as <-.
    destruct K as [Y [F _]]; try discriminate.
    split; [exact C|]. split; [exact Y|]. apply F. repeat constructor.
Defined.

(** ** The index of the aggregate *)

Lemma lookup_sums_in (y : Z) (g : list year_sums) :
  In y (map fst g) <-> lookup_sums y g <> None.
Proof.
  induction g as [|[k s] g IH]; simpl; [tauto|].
  destruct (Z.eqb_spec k y) as [->|N].
  - split; [discriminate|auto].
  - rewrite <- IH. split; [intros [E|H]; [contradiction|exact H]|auto].
Qed.

Lemma labels_year_rows (g : list year_sums) :
  map fst (map year_row g) = map fst g.
Proof. rewrite map_map. reflexivity. Qed.

(** X14: the aggregate of a normalized table has exactly one row for each
    year that occurs in the table and lists the years in ascending order. *)
Theorem aggregate_index (t : list NormalizedRow) :
  exists df_year,
    aggregate_by_year (frame_of t) = Ok df_year
    /\ StronglySorted Z.lt (labels df_year)
    /\ forall y, In y (labels df_year) <-> has_year y t = true.
Proof.
  eexists. split; [apply aggregate_frame_of|].
  unfold labels. cbn [rows]. rewrite labels_year_rows.
  split; [apply sums_of_sorted|].
  intros y. rewrite lookup_sums_in, lookup_sums_of.
  destruct (has_year y t); split; congruence.
Qed.






(** X16: the aggregate looks its three columns up by name.  On a frame that
    lacks [year], [enrollment] or [protected], as a frame whose columns were
    not renamed, it raises [KeyError]. *)
Theorem aggregate_missing_column (df : DataFrame) :
  Exists (fun n => ~ In n (columns df)) ["year"; "enrollment"; "protected"] ->
  aggregate_by_year df = Raise KeyError.
Proof.
  intros H. unfold aggregate_by_year, groupby_sum.
  destruct (locate ["year"] (columns df)) as [kp|x] eqn:Ek.
  - cbn [bind]. rewrite locate_missing; [reflexivity|].
    inversion H as [? ? Hm|? ? Hm]; subst; [|exact Hm].
    exfalso. rewrite (locate_missing ["year"]) in Ek; [discriminate|].
    now apply Exists_cons_hd.
  - cbn [bind]. unfold locate in Ek.
    apply mapM_raise_inv, Exists_exists in Ek as [n [_ Hn]].
    destruct (col_pos n (columns df)); [discriminate|congruence].
Qed.

Lemma aggregate_missing_column_witness :
  aggregate_by_year (select04 sample04) = Raise KeyError.
Proof.
  apply (aggregate_missing_column (select04 sample04)).
  apply Exists_cons_hd. simpl. intuition discriminate.
Defined.

(** ** The aggregate of a table with float counts *)

Lemma sum_step_num (d : dtype) (acc c : cell) :
  is_num acc = true -> is_num (sum_step d acc c) = true.
Proof.
  intros H. destruct d; simpl.
  - destruct acc, c; auto.
  - destruct acc as [s|a|a]; try discriminate; destruct c as [s|b|b]; simpl; auto;
      destruct b; auto.
  - destruct acc as [s|a|a]; try discriminate; destruct c as [s|b|b]; simpl; auto;
      destruct b; auto.
Qed.

Lemma sum_zero_num (d : dtype) : is_num (sum_zero d) = true.
Proof. destruct d; reflexivity. Qed.

Lemma add_to_group_shape (d1 d2 : dtype) (k : Z) (v1 v2 : cell) (g : list row) :
  Forall sums_shape g -> Forall sums_shape (add_to_group [d1; d2] k [v1; v2] g).
Proof.
  assert (N : sums_shape (k, zip3 sum_step [d1; d2] (map sum_zero [d1; d2]) [v1; v2])).
  { eexists. eexists. split; [reflexivity|].
    split; apply sum_step_num, sum_zero_num. }
  induction 1 as [|[k' sums] g Hs Hg IH]; cbn [add_to_group].
  - now constructor.
  - destruct (k <? k'); [constructor; [exact N|now constructor]|].
    destruct (k =? k'); [|now constructor].
    constructor; [|exact Hg].
    destruct Hs as [a [b [E [Ha Hb]]]]. cbn [snd] in E. subst sums.
    eexists. eexists. split; [reflexivity|]. split; now apply sum_step_num.
Qed.

Lemma add_to_group_keys (ds : list dtype) (k : Z) (vals : list cell) (g : list row) (y : Z) :
  In y (map fst (add_to_group ds k vals g)) <-> y = k \/ In y (map fst g).
Proof.
  induction g as [|[k' sums] g IH]; cbn [add_to_group map fst In].
  - intuition.
  - destruct (k <? k'); [cbn [map fst In]; intuition|].
    destruct (Z.eqb_spec k k') as [->|N]; cbn [map fst In]; [intuition|].
    rewrite IH. intuition.
Qed.

Lemma add_to_group_above (ds : list dtype) (lo k : Z) (vals : list cell) (g : list row) :
  lo < k -> Forall (Z.lt lo) (map fst g) ->
  Forall (Z.lt lo) (map fst (add_to_group ds k vals g)).
Proof.
  intros Hk. induction g as [|[k' sums] g IH]; intros H; cbn [add_to_group].
  - repeat constructor; assumption.
  - inversion H as [|? ? H1 H2]; subst.
    destruct (k <? k'); [constructor; assumption|].
    destruct (k =? k'); cbn [map fst]; constructor; auto.
Qed.

(** The groups stay in ascending key order, each key once. *)
Lemma add_to_group_sorted (ds : list dtype) (k : Z) (vals : list cell) (g : list row) :
  StronglySorted Z.lt (map fst g) ->
  StronglySorted Z.lt (map fst (add_to_group ds k vals g)).
Proof.
  induction g as [|[k' sums] g IH]; intros H; cbn [add_to_group].
  - repeat constructor.
  - cbn [map fst] in H. inversion H as [|? ? H1 H2]; subst.
    destruct (Z.ltb_spec k k') as [Hlt|Hge].
    + cbn [map fst]. constructor; [exact H|].
      constructor; [exact Hlt|].
      eapply Forall_impl; [|exact H2]. intros; lia.
    + destruct (Z.eqb_spec k k') as [->|Hne]; cbn [map fst].
      * constructor; assumption.
      * constructor; [now apply IH|].
        apply add_to_group_above; [lia|assumption].
Qed.

Lemma fold_sums_sorted (d1 d2 : dtype) (krs : list (Z * row)) (g : list row) :
  StronglySorted Z.lt (map fst g) ->
  StronglySorted Z.lt (map fst (fold_sums d1 d2 krs g)).
Proof.
  unfold fold_sums. revert g.
  induction krs as [|kr krs IH]; intros g Hg; cbn [fold_left]; [exact Hg|].
  apply IH, add_to_group_sorted, Hg.
Qed.

Lemma fold_groups (d1 d2 : dtype) (krs : list (Z * row)) (g : list row) :
  Forall sums_shape g ->
  Forall sums_shape (fold_sums d1 d2 krs g)
  /\ forall y, In y (map fst (fold_sums d1 d2 krs g))
               <-> In y (map fst krs) \/ In y (map fst g).
Proof.
  unfold fold_sums.
  revert g. induction krs as [|kr krs IH]; intros g Hg; cbn [fold_left map In].
  - split; [exact Hg|]. intuition.
  - destruct (IH _ (add_to_group_shape d1 d2 (fst kr) (get_cell 1 (snd (snd kr)))
                      (get_cell 2 (snd (snd kr))) g Hg)) as [IH1 IH2].
    split; [exact IH1|]. intros y. rewrite IH2, add_to_group_keys. intuition.
Qed.

Lemma dtype_of_num (cs : list cell) :
  forallb is_num cs = true -> dtype_of cs <> object.
Proof.
  intros H. unfold dtype_of. rewrite H. destruct (forallb is_int cs); discriminate.
Qed.

Lemma setitem_div_shape (g : list row) :
  Forall sums_shape g ->
  setitem_div "prot_perc" "protected" "enrollment"
    (mkDF ["enrollment"; "protected"] g)
  = Ok (mkDF ["enrollment"; "protected"; "prot_perc"]
          (map (fun r : row => (fst r, snd r ++ [quotient_of r])) g)).
Proof.
  intros H. unfold setitem_div.
  change (locate _ _) with (Ok [1%nat; 0%nat]). cbn [bind nth rows].
  rewrite (mapM_map _ quotient_of).
  2:{ intros r Hr. rewrite Forall_forall in H.
      destruct (H r Hr) as [a [b [E [Ha Hb]]]].
      unfold quotient_of. rewrite E. cbn [get_cell nth].
      unfold true_divide. destruct a, b; try discriminate; reflexivity. }
  cbn [bind]. unfold setitem.
  change (col_pos "prot_perc" (columns {| columns := ["enrollment"; "protected"]; rows := g |}))
    with (@None nat).
  cbn [columns rows app]. do 2 f_equal.
  clear H. induction g as [|r g IH]; [reflexivity|].
  cbn [map combine fst snd]. now rewrite IH.
Qed.

(** X17: the aggregate accepts float counts.  On a master table whose years
    are integers and whose counts are integers or floats, as the rows of the
    master table have them, it raises nothing and returns exactly one row for
    each year of the table, the years in ascending order, each row with the
    two sums and their quotient. *)
Theorem aggregate_numeric (df : DataFrame) :
  columns df = columns_we_want ->
  Forall numeric_row (rows df) ->
  exists df_year,
    aggregate_by_year df = Ok df_year
    /\ columns df_year = ["enrollment"; "protected"; "prot_perc"]
    /\ Forall (fun r : row => length (snd r) = 3%nat) (rows df_year)
    /\ StronglySorted Z.lt (labels df_year)
    /\ NoDup (labels df_year)
    /\ forall y, In y (labels df_year)
                 <-> exists r, In r (rows df) /\ get_cell 3 (snd r) = Int y.
Proof.
  intros Hc Hn. rewrite Forall_forall in Hn.
  unfold aggregate_by_year, groupby_sum. rewrite Hc.
  change (locate ["year"] columns_we_want) with (Ok [3%nat]).
  change (locate ["enrollment"; "protected"] columns_we_want) with (Ok [1%nat; 2%nat]).
  cbn [bind hd map].
  rewrite (mapM_map group_key (fun c => match c with Int k => k | _ => 0 end)).
  2:{ intros c Hin. unfold column in Hin. apply in_map_iff in Hin as [r [<- Hr]].
      destruct (Hn r Hr) as [Hy _]. destruct (get_cell 3 (snd r)); try discriminate.
      reflexivity. }
  cbn [bind].
  assert (D : forall i, (i = 1 \/ i = 2)%nat -> dtype_of (column i df) <> object).
  { intros i Hi. apply dtype_of_num, forallb_forall. intros c Hin.
    unfold column in Hin. apply in_map_iff in Hin as [r [<- Hr]].
    destruct (Hn r Hr) as [_ [H1 H2]]. destruct Hi as [->| ->]; assumption. }
  pose proof (D 1%nat (or_introl eq_refl)) as D1.
  pose proof (D 2%nat (or_intror eq_refl)) as D2.
  assert (B : existsb (fun d => match d with object => true | _ => false end)
                [dtype_of (column 1 df); dtype_of (column 2 df)] = false).
  { cbn [existsb]. destruct (dtype_of (column 1 df)); try congruence;
      destruct (dtype_of (column 2 df)); try congruence; reflexivity. }
  rewrite B.
  match goal with
  | |- context [fold_left ?f ?krs []] =>
      change (fold_left f krs [])
        with (fold_sums (dtype_of (column 1 df)) (dtype_of (column 2 df)) krs []);
      destruct (fold_groups (dtype_of (column 1 df)) (dtype_of (column 2 df))
                  krs [] (Forall_nil _)) as [S K];
      pose proof (fold_sums_sorted (dtype_of (column 1 df)) (dtype_of (column 2 df))
                    krs [] (SSorted_nil _)) as O
  end.
  cbn [bind]. rewrite (setitem_div_shape _ S).
  eexists. split; [reflexivity|]. cbn [columns rows].
  assert (L : forall g : list row,
             map fst (map (fun r : row => (fst r, snd r ++ [quotient_of r])) g)
             = map fst g).
  { intros g. rewrite map_map. reflexivity. }
  split; [reflexivity|]. split; [|split; [|split]].
  - apply Forall_forall. intros r Hr. apply in_map_iff in Hr as [g [<- Hg]].
    rewrite Forall_forall in S. destruct (S g Hg) as [a [b [E _]]].
    cbn [snd]. rewrite E. reflexivity.
  - unfold labels. cbn [rows]. rewrite L. exact O.
  - unfold labels. cbn [rows]. rewrite L.
    clear - O. induction O as [|k l _ IH F]; constructor; [|exact IH].
    intros Hin. rewrite Forall_forall in F. specialize (F k Hin). lia.
  - intros y. unfold labels. cbn [rows]. rewrite map_map. cbn [fst].
    change (map (fun x : row => fst x)) with (@map row Z fst).
    rewrite K. cbn [map In].
    rewrite map_fst_combine by (unfold column; now rewrite !length_map).
    rewrite in_map_iff. unfold column. split.
    + intros [[c [Ec Hin]]|[]]. apply in_map_iff in Hin as [r [<- Hr]].
      exists r. split; [exact Hr|].
      destruct (Hn r Hr) as [Hy _].
      destruct (get_cell 3 (snd r)); try discriminate. now subst.
    + intros [r [Hr Ey]]. left. exists (Int y). split; [reflexivity|].
      rewrite <- Ey. apply in_map_iff. exists r. now split.
Qed.

Lemma aggregate_numeric_witness :
  exists df_year,
    aggregate_by_year sample_master = Ok df_year
    /\ columns df_year = ["enrollment"; "protected"; "prot_perc"]
    /\ Forall (fun r : row => length (snd r) = 3%nat) (rows df_year)
    /\ StronglySorted Z.lt (labels df_year)
    /\ NoDup (labels df_year)
    /\ forall y, In y (labels df_year)
                 <-> exists r, In r (rows sample_master) /\ get_cell 3 (snd r) = Int y.
Proof.
  apply (aggregate_numeric sample_master); [reflexivity|].
  repeat constructor.
Defined.

(** ** Counts that are not strings *)

Lemma to_int_not_str (c : cell) (x : exn) :
  is_str c = false -> to_int c = Raise x -> x = AttributeError.
Proof. destruct c; simpl; intros H E; try discriminate; congruence. Qed.

(** X18: the coercion expects strings.  When the counts of a 04-05 extract
    were read as numbers, as for a file without separators, the normalization
    raises [AttributeError] as soon as one row is selected. *)
Theorem normalize04_numeric_counts (e : RawExtract) :
  rows (select04 e) <> [] ->
  Forall (fun r : row => is_str (get_cell 2 (snd r)) = false
                         /\ is_str (get_cell 3 (snd r)) = false)
         (rows (select04 e)) ->
  normalize04 e = Raise AttributeError.
Proof.
  intros Hne H. rewrite Forall_forall in H.
  destruct (clean04_cases e) as [Hc|[_ Hc]];
    [|unfold normalize04; now rewrite Hc].
  destruct (rows (select04 e)) as [|r0 rs] eqn:Er; [congruence|].
  destruct (applymap_on_raises cols04 to_int (select04 e) [2%nat; 3%nat] eq_refl)
    as [x [Hx Hwho]].
  { rewrite Er. apply Exists_cons_hd, Exists_cons_hd.
    destruct (H r0 (or_introl eq_refl)) as [H2 _].
    destruct (get_cell 2 (snd r0)); try discriminate; simpl; eauto. }
  unfold normalize04. rewrite Hc, Hx. cbn [bind]. f_equal.
  apply Exists_exists in Hwho as [r [Hr Hi]]. rewrite Er in Hr.
  destruct (H r Hr) as [H2 H3].
  inversion Hi as [? ? E|? ? Hi']; subst; [now apply (to_int_not_str _ x H2)|].
  inversion Hi' as [? ? E|? ? Hi'']; subst; [|inversion Hi''].
  now apply (to_int_not_str _ x H3).
Qed.

Lemma normalize04_numeric_counts_witness :
  normalize04 sample04_numeric = Raise AttributeError.
Proof.
  apply (normalize04_numeric_counts sample04_numeric); [discriminate|].
  repeat constructor.
Defined.

(** ** Dropping twice *)

Lemma col_pos_remove_nth (name : string) (cols : list string) (i : nat) :
  NoDup cols -> col_pos name cols = Some i ->
  col_pos name (remove_nth i cols) = None.
Proof.
  intros Hn. revert i. induction Hn as [|c cols Hc Hn IH]; intros i H; [discriminate|].
  simpl in H. destruct (String.eqb_spec c name) as [->|N].
  - injection H as <-. simpl. now apply col_pos_none.
  - destruct (col_pos name cols) as [j|] eqn:E; [|discriminate].
    injection H as <-. simpl.
    destruct (String.eqb_spec c name) as [|_]; [contradiction|].
    now rewrite (IH j eq_refl).
Qed.

Lemma NoDup_remove_nth (cols : list string) (i : nat) :
  NoDup cols -> NoDup (remove_nth i cols).
Proof.
  intros H. revert i. induction H as [|c cols Hc Hn IH]; intros [|i]; simpl;
    try constructor; auto.
  intros Hin. apply Hc. clear - Hin. revert i Hin.
  induction cols as [|x cols IH]; intros [|i] Hin; simpl in *; try contradiction.
  - now right.
  - destruct Hin as [->|Hin]; [now left|right; eauto].
Qed.

Lemma filter_out_absent (label : Z) (rs : list row) :
  filter (fun r : row => negb (fst r =? label))
    (filter (fun r : row => negb (fst r =? label)) rs)
  = filter (fun r : row => negb (fst r =? label)) rs.
Proof.
  induction rs as [|r rs IH]; [reflexivity|]. simpl.
  destruct (negb (fst r =? label)) eqn:E; [|exact IH].
  simpl. now rewrite E, IH.
Qed.

(** X20: the cells that remove something cannot be run twice.  On a frame
    whose row labels are distinct, as [read_csv] gives them, dropping the row
    of a label a second time raises [ValueError]; the same holds for a column
    of a frame whose column names are distinct; and inserting a column a
    second time raises [ValueError] because the name is taken.  On row labels
    that are still repeated after the first drop, the second drop checks
    nothing and leaves the frame as it is. *)
Theorem removal_not_repeatable (df df' : DataFrame) :
  (forall label, NoDup (labels df) -> drop_row label df = Ok df' ->
                 drop_row label df' = Raise ValueError)
  /\ (forall name, NoDup (columns df) -> drop_column name df = Ok df' ->
                   drop_column name df' = Raise ValueError)
  /\ (forall i name c j c', insert i name c df = Ok df' ->
                            insert j name c' df' = Raise ValueError)
  /\ (forall label, is_unique (labels df') = false -> drop_row label df = Ok df' ->
                    drop_row label df' = Ok df').
Proof.
  split; [|split; [|split]].
  - intros label Hn H. rewrite (drop_row_unique _ _ Hn) in H.
    destruct (existsb _ (rows df)); [|discriminate]. injection H as <-.
    rewrite drop_row_unique by (cbn [rows]; now apply NoDup_labels_filter).
    cbn [rows columns].
    replace (existsb _ _) with false; [reflexivity|].
    symmetry. apply not_true_is_false. intros E.
    apply existsb_exists in E as [r [Hr El]]. apply filter_In in Hr as [_ Hr].
    rewrite El in Hr. discriminate.
  - intros name Hn H. unfold drop_column in *.
    rewrite (nodupb_NoDup _ Hn) in H.
    destruct (col_pos name (columns df)) as [i|] eqn:E; [|discriminate].
    injection H as <-. cbn [columns].
    rewrite (nodupb_NoDup _ (NoDup_remove_nth _ i Hn)).
    now rewrite (col_pos_remove_nth _ _ _ Hn E).
  - intros i name c j c' H. unfold insert in *.
    destruct (existsb (String.eqb name) (columns df)); [discriminate|].
    destruct (length (columns df) <? i)%nat; [discriminate|].
    injection H as <-. cbn [columns].
    replace (existsb _ _) with true; [reflexivity|].
    symmetry. apply existsb_exists. exists name. split; [|apply String.eqb_refl].
    unfold insert_at. apply in_or_app. right. now left.
  - intros label Hu H. unfold drop_row in H.
    destruct (_ || _); [|discriminate]. injection H as <-.
    unfold drop_row, labels in *. cbn [rows columns] in *.
    rewrite Hu. cbn [negb orb]. now rewrite filter_out_absent.
Qed.

Lemma removal_not_repeatable_witness :
  drop_row 2 (mkDF master_columns [(3, [Str "010010020002001"; Int 25; Int 25; Int 2014])])
  = Raise ValueError
  /\ drop_column "year"
       (mkDF ["rcdts"; "enrollment"; "protected"]
          [(2, [Str "010010010002001"; Int 1010; Int 990]);
           (3, [Str "010010020002001"; Int 25; Int 25])])
     = Raise ValueError
  /\ insert 1 "rcdt" (Int 0)
       (mkDF ["rcdts"; "rcdt"; "enrollment"; "protected"; "year"]
          [(2, [Str "010010010002001"; Int 0; Int 1010; Int 990; Int 2014]);
           (3, [Str "010010020002001"; Int 0; Int 25; Int 25; Int 2014])])
     = Raise ValueError
  /\ drop_row 1 (mkDF ["n"] [(2, [Int 7]); (2, [Int 8])])
     = Ok (mkDF ["n"] [(2, [Int 7]); (2, [Int 8])]).
Proof.
  split; [|split; [|split]].
  - apply (proj1 (removal_not_repeatable sample14_out _) 2).
    + repeat constructor; simpl; intuition discriminate.
    + reflexivity.
  - apply (proj1 (proj2 (removal_not_repeatable sample14_out _)) "year").
    + repeat constructor; simpl; intuition discriminate.
    + reflexivity.
  - apply (proj1 (proj2 (proj2 (removal_not_repeatable sample14_out _)))
             1%nat "rcdt" (Int 0) 1%nat (Int 0)).
    reflexivity.
  - apply (proj2 (proj2 (proj2 (removal_not_repeatable
             (mkDF ["n"] [(1, [Int 5]); (2, [Int 7]); (1, [Int 6]); (2, [Int 8])]) _)))
             1); reflexivity.
Defined.
